(** * DRAGEN mapping metrics: a shallow embedding of
      [multiqc/modules/dragen/mapping_metrics.py]

    The development follows the Python module function by function.

    Modelling conventions.
    - Python 3 semantics: [/] is true division, ordering a [str] against a
      number raises [TypeError], a [dict] iterates in insertion order.
    - A Python [str] is a Rocq [string]; the text is restricted to code
      points below 256, one character per code point.
    - A Python [dict] is an association list with unique keys, kept in
      insertion order: assignment to a present key replaces the value in
      place, assignment to an absent key appends.
    - Exceptions are values of type [exn]; a function that may raise returns
      a [result].  State reached by a run that raises is not observable (the
      caller does not catch), so it is not modelled.
    - Binary floating point is an interface ([PyFloat]): the operations and
      the rounding of decimal literals are parameters, the grammar accepted
      by [float()] and all control flow around them are modelled concretely.
    - Collaborators outside the module (file discovery, sample-name
      filtering, table and plot rendering, logging) appear only through the
      data handed to them. *)

From Stdlib Require Import String Ascii List ZArith Bool Lia Permutation.
From Stdlib Require Import Decimal DecimalString DecimalZ DecimalPos QArith.
Import ListNotations.

#[local] Open Scope string_scope.
#[local] Open Scope Z_scope.

(* ===================================================================== *)
(** ** Exceptions and the error monad *)
(* ===================================================================== *)

(** The Python exceptions that the module can raise.  [KeyError] carries
    the missing key, as Python's [KeyError(key)] does; the messages of the
    other exceptions are built by the interpreter from the operand types
    only and are not modelled. *)
Inductive exn : Type :=
| KeyError (key : string)
| IndexError
| TypeError
| ValueError
| ZeroDivisionError
| OverflowError
| AttributeError.

Definition result (A : Type) : Type := (exn + A)%type.

Definition ret {A : Type} (x : A) : result A := inr x.
Definition raise {A : Type} (e : exn) : result A := inl e.

Definition bind {A B : Type} (m : result A) (k : A -> result B) : result B :=
  match m with
  | inl e => inl e
  | inr x => k x
  end.

Declare Scope result_scope.
Delimit Scope result_scope with result.
Notation "x <- m ;; k" := (bind m (fun x => k))
  (at level 61, m at next level, right associativity) : result_scope.
Notation "' p <- m ;; k" := (bind m (fun x => let p := x in k))
  (at level 61, p pattern, m at next level, right associativity) : result_scope.
#[local] Open Scope result_scope.

(** [for x in xs: acc = body(x, acc)] where the body may raise. *)
Fixpoint foldM {A S : Type} (body : A -> S -> result S) (xs : list A) (acc : S)
  : result S :=
  match xs with
  | [] => ret acc
  | x :: xs' => acc' <- body x acc ;; foldM body xs' acc'
  end.

(** The same loop when the body rebuilds each element. *)
Fixpoint mapM {A B : Type} (body : A -> result B) (xs : list A) : result (list B) :=
  match xs with
  | [] => ret []
  | x :: xs' => y <- body x ;; ys <- mapM body xs' ;; ret (y :: ys)
  end.

Definition of_option {A : Type} (e : exn) (o : option A) : result A :=
  match o with
  | Some x => ret x
  | None => raise e
  end.

Definition is_ok {A : Type} (r : result A) : bool :=
  match r with inr _ => true | inl _ => false end.

(* ===================================================================== *)
(** ** Strings *)
(* ===================================================================== *)

Module PyStr.

Definition chr (n : nat) : ascii := ascii_of_nat n.

(** The double quote, which the catalogue descriptions contain. *)
Definition dquote : string := String (chr 34) EmptyString.

(** [s.split(sep)] for a one-character separator: never empty. *)
Fixpoint split (sep : ascii) (s : string) : list string :=
  match s with
  | EmptyString => [EmptyString]
  | String c s' =>
      if Ascii.eqb c sep then EmptyString :: split sep s'
      else match split sep s' with
           | [] => [String c EmptyString]
           | h :: t => String c h :: t
           end
  end.

(** Line boundaries of [str.splitlines] below code point 256. *)
Definition is_linebreak (c : ascii) : bool :=
  let n := nat_of_ascii c in
  (Nat.eqb n 10 || Nat.eqb n 13 || Nat.eqb n 11 || Nat.eqb n 12
   || Nat.eqb n 28 || Nat.eqb n 29 || Nat.eqb n 30 || Nat.eqb n 133)%bool.

(** [s.splitlines()]: a carriage return followed by a line feed is one
    boundary, and a final boundary opens no further line. *)
Fixpoint splitlines (s : string) : list string :=
  match s with
  | EmptyString => []
  | String c s' =>
      if is_linebreak c then
        match s' with
        | String c' s'' =>
            if (Nat.eqb (nat_of_ascii c) 13 && Nat.eqb (nat_of_ascii c') 10)%bool
            then EmptyString :: splitlines s''
            else EmptyString :: splitlines s'
        | EmptyString => [EmptyString]
        end
      else match splitlines s' with
           | [] => [String c EmptyString]
           | h :: t => String c h :: t
           end
  end.

(** [c.lower()] below code point 256: the ASCII capitals and the Latin-1
    capitals U+00C0 to U+00DE, the multiplication sign excepted. *)
Definition lower_char (c : ascii) : ascii :=
  let n := nat_of_ascii c in
  if ((Nat.leb 65 n && Nat.leb n 90)
      || (Nat.leb 192 n && Nat.leb n 222 && negb (Nat.eqb n 215)))%bool
  then ascii_of_nat (n + 32) else c.

Fixpoint lower (s : string) : string :=
  match s with
  | EmptyString => EmptyString
  | String c s' => String (lower_char c) (lower s')
  end.

(** Whitespace in the sense of [str.isspace], below code point 256. *)
Definition is_space (c : ascii) : bool :=
  let n := nat_of_ascii c in
  ((Nat.leb 9 n && Nat.leb n 13) || (Nat.leb 28 n && Nat.leb n 32)
   || Nat.eqb n 133 || Nat.eqb n 160)%bool.

Fixpoint lstrip (s : string) : string :=
  match s with
  | EmptyString => EmptyString
  | String c s' => if is_space c then lstrip s' else s
  end.

Fixpoint rstrip (s : string) : string :=
  match s with
  | EmptyString => EmptyString
  | String c s' =>
      match rstrip s' with
      | EmptyString => if is_space c then EmptyString else String c EmptyString
      | r => String c r
      end
  end.

Definition strip (s : string) : string := rstrip (lstrip s).

(** [s[n:]] *)
Fixpoint drop (n : nat) (s : string) : string :=
  match n, s with
  | O, _ => s
  | S n', String _ s' => drop n' s'
  | S _, EmptyString => EmptyString
  end.

(** [s.replace(old, new)] for a non-empty [old]: leftmost occurrences,
    not overlapping.  [fuel] bounds the number of characters read. *)
Fixpoint replace_go (fuel : nat) (old new s : string) : string :=
  match fuel with
  | O => s
  | S fuel' =>
      match s with
      | EmptyString => EmptyString
      | String c s' =>
          if String.prefix old s
          then new ++ replace_go fuel' old new (drop (String.length old) s)
          else String c (replace_go fuel' old new s')
      end
  end.

Definition replace (old new s : string) : string :=
  replace_go (String.length s) old new s.

Fixpoint repeat (n : nat) (s : string) : string :=
  match n with
  | O => EmptyString
  | S n' => s ++ repeat n' s
  end.

Definition is_digit (c : ascii) : bool :=
  let n := nat_of_ascii c in (Nat.leb 48 n && Nat.leb n 57)%bool.

Fixpoint all_digits (s : string) : bool :=
  match s with
  | EmptyString => true
  | String c s' => (is_digit c && all_digits s')%bool
  end.

Fixpoint remove_char (x : ascii) (s : string) : string :=
  match s with
  | EmptyString => EmptyString
  | String c s' => if Ascii.eqb c x then remove_char x s' else String c (remove_char x s')
  end.

End PyStr.

(* ===================================================================== *)
(** ** Dictionaries *)
(* ===================================================================== *)

Definition dict (V : Type) : Type := list (string * V).

Section Dict.
Context {V : Type}.

Definition keys (d : dict V) : list string := map fst d.
Definition values (d : dict V) : list V := map snd d.

(** [d.get(k)] *)
Fixpoint dict_get (k : string) (d : dict V) : option V :=
  match d with
  | [] => None
  | (k', v) :: d' => if String.eqb k' k then Some v else dict_get k d'
  end.

(** [k in d] *)
Definition dict_mem (k : string) (d : dict V) : bool :=
  match dict_get k d with Some _ => true | None => false end.

(** [d[k]] *)
Definition getitem (k : string) (d : dict V) : result V :=
  of_option (KeyError k) (dict_get k d).

(** [d[k] = v] *)
Fixpoint dict_set (k : string) (v : V) (d : dict V) : dict V :=
  match d with
  | [] => [(k, v)]
  | (k', v') :: d' =>
      if String.eqb k' k then (k', v) :: d' else (k', v') :: dict_set k v d'
  end.

(** [del d[k]] *)
Fixpoint dict_del (k : string) (d : dict V) : result (dict V) :=
  match d with
  | [] => raise (KeyError k)
  | (k', v') :: d' =>
      if String.eqb k' k then ret d'
      else d'' <- dict_del k d' ;; ret ((k', v') :: d'')
  end.

(** Keys are unique: what every Python [dict] satisfies. *)
Definition dict_wf (d : dict V) : Prop := NoDup (keys d).

End Dict.

(** The value that [dd[k]] reads on a [defaultdict(dict)]. *)
Definition or_empty {V : Type} (o : option (dict V)) : dict V :=
  match o with Some d => d | None => [] end.

(** [dd[k] = f(dd[k])] on a [defaultdict(dict)]: an absent key is first
    created with an empty dictionary. *)
Definition dd_update {V : Type} (k : string) (f : dict V -> dict V)
  (d : dict (dict V)) : dict (dict V) :=
  dict_set k (f (or_empty (dict_get k d))) d.

(* ===================================================================== *)
(** ** Numbers: the floating-point interface and metric values *)
(* ===================================================================== *)

(** Python's [float] (IEEE 754 binary64) as an interface.  Nothing below
    depends on how an implementation rounds. *)
Class PyFloat : Type := {
  F : Type;
  (** the float nearest to [(-1)^neg * m * 10^e], as [float()] and float
      literals produce it *)
  F_of_dec : bool -> N -> Z -> F;
  F_inf : bool -> F;
  F_nan : bool -> F;
  (** [float(z)] for an [int]; [None] is [OverflowError] *)
  F_of_Z : Z -> option F;
  (** [a / b] for two [int]s, [b] not zero; [None] is [OverflowError] *)
  Z_truediv : Z -> Z -> option F;
  Fadd : F -> F -> F;
  Fmul : F -> F -> F;
  (** [x / y] for a divisor that is not zero *)
  Fdiv : F -> F -> F;
  (** comparison; [None] when an operand is not a number *)
  Fcompare : F -> F -> option comparison;
  (** exact comparison of a float with an [int] *)
  Fcompare_Z : F -> Z -> option comparison;
  (** [repr(x)] *)
  Frepr : F -> string;
  (** [format(x, spec)] for a fixed-point specification *)
  Fformat : string -> F -> result string
}.

(** [str(z)] for an [int]. *)
Definition py_str_int (z : Z) : string := NilZero.string_of_int (Z.to_int z).

Section Values.
Context {PF : PyFloat}.

(** A MetricValue: what a VALUE field becomes.  A field that is neither an
    integer nor a float stays the text it was; ["NA"] is the one the input
    format uses. *)
Inductive value : Type :=
| VInt (z : Z)
| VFloat (x : F)
| VStr (s : string).

Definition NA : value := VStr "NA".

Definition comparison_is (c : comparison) (o : option comparison) : bool :=
  match o, c with
  | Some Eq, Eq | Some Lt, Lt | Some Gt, Gt => true
  | _, _ => false
  end.

(** [a == b] *)
Definition py_eq (a b : value) : bool :=
  match a, b with
  | VInt x, VInt y => Z.eqb x y
  | VFloat x, VFloat y => comparison_is Eq (Fcompare x y)
  | VFloat x, VInt y => comparison_is Eq (Fcompare_Z x y)
  | VInt x, VFloat y => comparison_is Eq (Fcompare_Z y x)
  | VStr x, VStr y => String.eqb x y
  | _, _ => false
  end.

(** [a != b] *)
Definition py_ne (a b : value) : bool := negb (py_eq a b).

(** [a > b] *)
Definition py_gt (a b : value) : result bool :=
  match a, b with
  | VInt x, VInt y => ret (Z.ltb y x)
  | VFloat x, VFloat y => ret (comparison_is Gt (Fcompare x y))
  | VFloat x, VInt y => ret (comparison_is Gt (Fcompare_Z x y))
  | VInt x, VFloat y => ret (comparison_is Lt (Fcompare_Z y x))
  | VStr x, VStr y => ret (String.ltb y x)
  | _, _ => raise TypeError
  end.

Definition to_float (z : Z) : result F := of_option OverflowError (F_of_Z z).

(** [a + b] *)
Definition py_add (a b : value) : result value :=
  match a, b with
  | VInt x, VInt y => ret (VInt (x + y))
  | VFloat x, VFloat y => ret (VFloat (Fadd x y))
  | VFloat x, VInt y => y' <- to_float y ;; ret (VFloat (Fadd x y'))
  | VInt x, VFloat y => x' <- to_float x ;; ret (VFloat (Fadd x' y))
  | VStr x, VStr y => ret (VStr (x ++ y))
  | _, _ => raise TypeError
  end.

(** [a * b]; a string times an [int] is the repeated string. *)
Definition py_mul (a b : value) : result value :=
  match a, b with
  | VInt x, VInt y => ret (VInt (x * y))
  | VFloat x, VFloat y => ret (VFloat (Fmul x y))
  | VFloat x, VInt y => y' <- to_float y ;; ret (VFloat (Fmul x y'))
  | VInt x, VFloat y => x' <- to_float x ;; ret (VFloat (Fmul x' y))
  | VStr s, VInt n | VInt n, VStr s => ret (VStr (PyStr.repeat (Z.to_nat n) s))
  | _, _ => raise TypeError
  end.

(** [a / b] *)
Definition py_truediv (a b : value) : result value :=
  match a, b with
  | VInt x, VInt y =>
      if Z.eqb y 0 then raise ZeroDivisionError
      else q <- of_option OverflowError (Z_truediv x y) ;; ret (VFloat q)
  | VFloat x, VFloat y =>
      if comparison_is Eq (Fcompare_Z y 0) then raise ZeroDivisionError
      else ret (VFloat (Fdiv x y))
  | VFloat x, VInt y =>
      y' <- to_float y ;;
      if Z.eqb y 0 then raise ZeroDivisionError else ret (VFloat (Fdiv x y'))
  | VInt x, VFloat y =>
      x' <- to_float x ;;
      if comparison_is Eq (Fcompare_Z y 0) then raise ZeroDivisionError
      else ret (VFloat (Fdiv x' y))
  | _, _ => raise TypeError
  end.

(** *** [int()] and [float()] on text *)

(** The grammar [digit (["_"] digit)*] shared by both constructors. *)
Inductive digit_state : Type := AtStart | AfterDigit | AfterUnderscore.

Fixpoint digitpart_from (st : digit_state) (s : string) : bool :=
  match s with
  | EmptyString => match st with AfterDigit => true | _ => false end
  | String c s' =>
      if PyStr.is_digit c then digitpart_from AfterDigit s'
      else if Ascii.eqb c "_"
           then match st with
                | AfterDigit => digitpart_from AfterUnderscore s'
                | _ => false
                end
           else false
  end.

Definition valid_digitpart (s : string) : bool := digitpart_from AtStart s.

(** The digits of a digit part, underscores dropped. *)
Definition digits_of (s : string) : option string :=
  if valid_digitpart s then Some (PyStr.remove_char "_" s) else None.

(** The decimal reading of a string of digits. *)
Definition decimal_reading (ds : string) : option N :=
  option_map N.of_uint (NilEmpty.uint_of_string ds).

(** An optional sign: [(negative, rest)]. *)
Definition split_sign (s : string) : bool * string :=
  match s with
  | String c s' =>
      if Ascii.eqb c "-" then (true, s')
      else if Ascii.eqb c "+" then (false, s')
      else (false, s)
  | EmptyString => (false, s)
  end.

Definition signed (neg : bool) (n : N) : Z :=
  if neg then Z.opp (Z.of_N n) else Z.of_N n.

Definition option_bind {A B : Type} (o : option A) (k : A -> option B) : option B :=
  match o with Some x => k x | None => None end.

(** The most digits that [int()] converts from text: the default of
    [sys.int_info.default_max_str_digits] (CPython 3.11 and later), which
    the module leaves as it is.  Underscores, the sign and the surrounding
    white space are not counted; leading zeros are. *)
Definition int_max_str_digits : N := 4300.

(** [int(s)] in base ten; [None] is [ValueError], also for a text of more
    digits than the interpreter converts. *)
Definition py_int (s : string) : option Z :=
  let '(neg, body) := split_sign (PyStr.strip s) in
  option_bind (digits_of body) (fun ds =>
  if N.leb (N.of_nat (String.length ds)) int_max_str_digits
  then option_map (signed neg) (decimal_reading ds)
  else None).

(** Cut at the first character satisfying [p]. *)
Fixpoint break_at (p : ascii -> bool) (s : string) : string * option string :=
  match s with
  | EmptyString => (EmptyString, None)
  | String c s' =>
      if p c then (EmptyString, Some s')
      else let '(before, after) := break_at p s' in (String c before, after)
  end.

Definition is_exp_mark (c : ascii) : bool := (Ascii.eqb c "e" || Ascii.eqb c "E")%bool.
Definition is_point (c : ascii) : bool := Ascii.eqb c ".".

(** The exponent of a float: [[sign] digitpart]. *)
Definition exponent_value (s : string) : option Z :=
  let '(neg, body) := split_sign s in
  option_bind (digits_of body) (fun ds =>
  option_map (signed neg) (decimal_reading ds)).

(** [[digitpart] "." digitpart | digitpart ["."]] as mantissa digits and
    the number of digits after the point. *)
Definition mantissa_value (s : string) : option (N * Z) :=
  match break_at is_point s with
  | (ip, None) =>
      option_bind (digits_of ip) (fun i =>
      option_map (fun m => (m, 0)) (decimal_reading i))
  | (ip, Some fp) =>
      let with_fraction (i : string) :=
        option_bind (digits_of fp) (fun f =>
        option_map (fun m => (m, Z.of_nat (String.length f)))
                   (decimal_reading (i ++ f))) in
      match ip, fp with
      | EmptyString, _ => with_fraction EmptyString
      | _, EmptyString =>
          option_bind (digits_of ip) (fun i =>
          option_map (fun m => (m, 0)) (decimal_reading i))
      | _, _ => option_bind (digits_of ip) with_fraction
      end
  end.

(** [float(s)]; [None] is [ValueError]. *)
Definition py_float (s : string) : option F :=
  let '(neg, body) := split_sign (PyStr.strip s) in
  let low := PyStr.lower body in
  if (String.eqb low "inf" || String.eqb low "infinity")%bool then Some (F_inf neg)
  else if String.eqb low "nan" then Some (F_nan neg)
  else
    let '(mant, expo) := break_at is_exp_mark body in
    option_bind (match expo with
                 | None => Some 0
                 | Some x => exponent_value x
                 end) (fun e =>
    option_map (fun '(m, frac) => F_of_dec neg m (e - frac)) (mantissa_value mant)).

(** The float literals of the module. *)
Definition F100 : F := F_of_dec false 1000 (-1).          (* 100.0 *)
Definition F1e_9 : F := F_of_dec false 1 (-9).            (* 0.000000001 *)

(** *** [str.format] with one positional argument *)

(** [format(v, spec)].  The module only uses the empty specification and
    fixed-point ones ([",.0f"], [",.1f"], [",.2f"]); any other presentation
    type is outside the model and reported as [ValueError]. *)
Definition ends_with_f (spec : string) : bool :=
  String.eqb (PyStr.drop (String.length spec - 1) spec) "f".

Definition py_format_value (spec : string) (v : value) : result string :=
  if String.eqb spec "" then
    match v with
    | VInt z => ret (py_str_int z)
    | VFloat x => ret (Frepr x)
    | VStr s => ret s
    end
  else if ends_with_f spec then
    match v with
    | VInt z => x <- to_float z ;; Fformat spec x
    | VFloat x => Fformat spec x
    | VStr _ => raise ValueError
    end
  else raise ValueError.

(** One replacement field, [n] fields having been filled before it.  Only
    automatically numbered fields ([{}], [{:spec}]) are modelled; a named
    field raises [KeyError] as in Python, and explicit numbering or
    conversions do not occur in the module. *)
Definition format_field (field : string) (n : nat) (v : value) : result string :=
  match break_at (fun c => Ascii.eqb c ":") field with
  | (EmptyString, spec) =>
      match n with
      | O => py_format_value (match spec with Some s => s | None => "" end) v
      | S _ => raise IndexError
      end
  | (name, _) => raise (KeyError name)
  end.

(** [field] is [Some text] while inside braces. *)
Fixpoint format_go (v : value) (s : string) (field : option string) (n : nat)
  : result string :=
  match s with
  | EmptyString =>
      match field with
      | None => ret EmptyString
      | Some _ => raise ValueError
      end
  | String c s' =>
      match field with
      | Some text =>
          if Ascii.eqb c "}" then
            x <- format_field text n v ;;
            rest <- format_go v s' None (S n) ;;
            ret (x ++ rest)
          else if Ascii.eqb c "{" then raise ValueError
          else format_go v s' (Some (text ++ String c EmptyString)) n
      | None =>
          if Ascii.eqb c "{" then
            match s' with
            | String c' s'' =>
                if Ascii.eqb c' "{"
                then rest <- format_go v s'' None n ;; ret (String "{" rest)
                else format_go v s' (Some EmptyString) n
            | EmptyString => raise ValueError
            end
          else if Ascii.eqb c "}" then
            match s' with
            | String c' s'' =>
                if Ascii.eqb c' "}"
                then rest <- format_go v s'' None n ;; ret (String "}" rest)
                else raise ValueError
            | EmptyString => raise ValueError
            end
          else rest <- format_go v s' None n ;; ret (String c rest)
      end
  end.

(** [fmt.format(v)] *)
Definition py_format (fmt : string) (v : value) : result string :=
  format_go v fmt None 0.

End Values.

Arguments value {PF}.

(* ===================================================================== *)
(** ** Report configuration and the metric catalogues *)
(* ===================================================================== *)

Section Module.
Context {PF : PyFloat}.

(** The fields of [multiqc.config] that the module reads.  The accumulated
    [report_header_info] list is threaded separately. *)
Record config : Type := {
  read_count_multiplier : value;
  base_count_multiplier : value;
  read_count_prefix : string;
  base_count_prefix : string;
  read_count_desc : string;
  base_count_desc : string
}.

Variable cfg : config.

Definition read_format : string :=
  (if py_eq (read_count_multiplier cfg) (VInt 1) then "{:,.0f}" else "{:,.1f}")
  ++ "&nbsp;" ++ read_count_prefix cfg.

Definition base_format : string :=
  (if py_eq (base_count_multiplier cfg) (VInt 1) then "{:,.0f}"
   else if py_eq (base_count_multiplier cfg) (VFloat F1e_9) then "{:,.2f}"
   else "{:,.1f}&nbsp;")
  ++ "&nbsp;" ++ base_count_prefix cfg.

(** A row of [MAPPING_METRICS]. *)
Record metric_descriptor : Type := mk_metric {
  id_in_data : string;
  md_title : string;
  showing : option string;
  unit : option string;
  show_in_beeswarm : bool;
  descr : string
}.

Definition MAPPING_METRICS : list metric_descriptor := [
  mk_metric "Total input reads"
    "Reads" (Some "#") (Some "reads") false
    ("Total number of input reads for this sample (or total number of reads in all "
       ++ "input read groups combined), {}");
  mk_metric "Total reads in RG"
    "Reads" None (Some "reads") true
    "Total number of reads in this RG, {}";
  mk_metric "Reads with mate sequenced"
    "Reads with mate" None (Some "reads") true
    "Number of reads with a mate sequenced, {}";
  mk_metric "Reads without mate sequenced"
    "Reads w/o mate" None (Some "reads") false
    "Number of reads without a mate sequenced, {}";
  mk_metric "QC-failed reads"
    "QC-fail" None (Some "reads") true
    "Number of reads not passing platform/vendor quality checks (SAM flag 0x200), {}";
  mk_metric "Mapped reads"
    "Map" (Some "%") (Some "reads") true
    "Number of mapped reads, {}";
  mk_metric "Mapped reads R1"
    "Map R1" None (Some "reads") false
    "Number of mapped reads R1, {}";
  mk_metric "Mapped reads R2"
    "Map R2" None (Some "reads") false
    "Number of mapped reads R2, {}";
  mk_metric "Reads with MAPQ [40:inf)"
    "MQ>=40" None (Some "reads") true
    "Number of reads with MAPQ [40:inf), {}";
  mk_metric "Number of duplicate marked reads"
    "Dup" (Some "%") (Some "reads") false
    ("Number of duplicate marked reads as a result of the --enable-duplicatemarking "
       ++ "option being used, {}");
  mk_metric "Number of duplicate marked and mate reads removed"
    "Dup with mates removed" None (Some "reads") false
    ("Number of reads marked as duplicates, along with any mate reads, that are "
       ++ "removed when the --remove-duplicates option is used, {}");
  mk_metric "Number of unique reads (excl. duplicate marked reads)"
    "Uniq" None (Some "reads") true
    "Number of unique reads (all reads minus duplicate marked reads), {}";
  mk_metric "Number of unique & mapped reads (excl. duplicate marked reads)"
    "Uniq map" None (Some "reads") true
    "Number of unique & mapped reads (mapped reads minus duplicate marked reads), {}";
  mk_metric "Unmapped reads"
    "Unmap" None (Some "reads") false
    "Number of unmapped reads, {}";
  mk_metric "Paired reads (itself & mate mapped)"
    "Self & mate mapped" None (Some "reads") true
    "Number of reads mapped in pairs (itself & mate mapped), {}";
  mk_metric "Properly paired reads"
    "Prop pair" (Some "%") (Some "reads") true
    ("Number of properly paired reads, {} (both reads in pair are mapped and fall "
       ++ "within an acceptable range from each other based on the estimated insert length "
       ++ "distribution)");
  mk_metric "Not properly paired reads (discordant)"
    "Discord" None (Some "reads") true
    "Number of discordant reads: paired reads minus properly paired reads , {}";
  mk_metric "Singleton reads (itself mapped; mate unmapped)"
    "Singleton" None (Some "reads") true
    "Number of singleton reads: itself mapped; mate unmapped, {}";
  mk_metric "Paired reads mapped to different chromosomes"
    "Mate map to diff chrom" None (Some "reads") true
    "Number of paired reads with a mate mapped to a different chromosome, {}";
  mk_metric "Paired reads mapped to different chromosomes (MAPQ>=10)"
    "Mate diff chrom, MQ>=10" None (Some "reads") true
    ("Number of paired reads, mapped with MAPQ>=10 and with a mate mapped to a "
       ++ "different chromosome, {}");
  mk_metric "Reads with indel R1"
    "Reads with indel R1" None (Some "reads") false
    "Number of R1 reads containing at least 1 indel, {}";
  mk_metric "Reads with indel R2"
    "Reads with indel R2" None (Some "reads") false
    "Number of R2 reads containing at least 1 indel, {}";
  mk_metric "Total alignments"
    "Alignments" None (Some "reads") true
    "Total number of alignments with MQ > 0, {}";
  mk_metric "Secondary alignments"
    "Second'ry" (Some "%") (Some "reads") true
    ("Number of secondary alignments, {}. Secondary alignment occurs when a given "
       ++ "read could align reasonably well to more than one place. One of the possible "
       ++ "reported alignments is termed "
       ++ PyStr.dquote
       ++ "primary"
       ++ PyStr.dquote
       ++ " and the others will be marked as "
       ++ PyStr.dquote
       ++ "secondary"
       ++ PyStr.dquote
       ++ ".");
  mk_metric "Supplementary (chimeric) alignments"
    "Suppl'ry" None (Some "reads") true
    ("Number of supplementary (chimeric) alignments, {}. A chimeric read is split "
       ++ "over multiple loci (possibly due to structural variants). One alignment is "
       ++ "referred to as the representative alignment, the other are supplementary");
  mk_metric "Estimated read length"
    "Read len" (Some "#") (Some "len") false
    "Estimated read length. Total number of input bases divided by the number of reads";
  mk_metric "Insert length: mean"
    "Avg IS" None (Some "len") false
    "Insert length: mean";
  mk_metric "Insert length: median"
    "Med IS" (Some "#") (Some "len") false
    "Insert length: median";
  mk_metric "Insert length: standard deviation"
    "IS std" None (Some "len") false
    "Insert length: standard deviation";
  mk_metric "Average sequenced coverage over genome"
    "Cov" (Some "#") (Some "x") true
    "Average sequenced coverage over genome";
  mk_metric "Total bases"
    "Bases" (Some "#") (Some "bases") true
    "Total number of bases sequenced, {}";
  mk_metric "Total bases R1"
    "Bases R1" None (Some "bases") false
    "Total number of bases sequenced on R1 reads, {}";
  mk_metric "Total bases R2"
    "Bases R2" None (Some "bases") false
    "Total number of bases sequenced on R2 reads, {}";
  mk_metric "Mapped bases R1"
    "Mapped bases R1" None (Some "bases") false
    "Number of mapped bases on R1 reads, {}";
  mk_metric "Mapped bases R2"
    "Mapped bases R2" None (Some "bases") false
    "Number of mapped bases on R2 reads, {}";
  mk_metric "Soft-clipped bases R1"
    "Soft-clip bases R1" None (Some "bases") false
    "Number of soft-clipped bases on R1 reads, {}";
  mk_metric "Soft-clipped bases R2"
    "Soft-clip bases R2" None (Some "bases") false
    "Number of soft-clipped bases on R2 reads, {}";
  mk_metric "Mismatched bases R1"
    "MM bases R1" None (Some "bases") false
    ("Number of mismatched bases on R1, {}, which is the sum of SNP count and indel "
       ++ "lengths. It does not count anything within soft clipping, or RNA introns. It "
       ++ "also does not count a mismatch if either the reference base or read base is N");
  mk_metric "Mismatched bases R2"
    "MM bases R2" None (Some "bases") false
    ("Number of mismatched bases on R2, {}, which is the sum of SNP count and indel "
       ++ "lengths. It does not count anything within soft clipping, or RNA introns. It "
       ++ "also does not count a mismatch if either the reference base or read base is N");
  mk_metric "Mismatched bases R1 (excl. indels)"
    "MM bases R1 excl indels" None (Some "bases") false
    ("Number of mismatched bases on R1, {}. The indels lengts are ignored. It does "
       ++ "not count anything within soft clipping, or RNA introns. It also does not count "
       ++ "a mismatch if either the reference base or read base is N");
  mk_metric "Mismatched bases R2 (excl. indels)"
    "MM bases R2 excl indels" None (Some "bases") false
    ("Number of mismatched bases on R2, {}. The indels lengts are ignored. It does "
       ++ "not count anything within soft clipping, or RNA introns. It also does not count "
       ++ "a mismatch if either the reference base or read base is N");
  mk_metric "Q30 bases"
    "Q30" (Some "%") (Some "bases") true
    "Number of bases with BQ >= 30, {}";
  mk_metric "Q30 bases R1"
    "Q30 R1" None (Some "bases") false
    "Number of bases on R1 reads with BQ >= 30, {}";
  mk_metric "Q30 bases R2"
    "Q30 R2" None (Some "bases") false
    "Number of bases on R2 reads with BQ >= 30, {}";
  mk_metric "Q30 bases (excl. dups & clipped bases)"
    "Q30 excl dup & clipped" None (Some "bases") true
    "Number of non-clipped bases with BQ >= 30 on non-duplicate reads, {}";
  mk_metric "Bases in reference genome"
    "Bases in ref. genome" (Some "#") (Some "bases") false
    "Bases in reference genome";
  mk_metric "Bases in target bed [% of genome]"
    "Bases in target bed" (Some "#") (Some "%") false
    "Bases in target bed [% of genome]";
  mk_metric "Provided sex chromosome ploidy"
    "Provided sex chrom ploidy" None None false
    "Provided sex chromosome ploidy";
  mk_metric "DRAGEN mapping rate [mil. reads/second]"
    "DRAGEN map rate" None None false
    "DRAGEN mapping rate [mil. reads/second]"
].

(** A [lambda] stored in a table: a function on metric values. *)
Definition modifier : Type := value -> result value.

(** A row of [GENERAL_METRICS]. *)
Record general_metric : Type := mk_general {
  gm_id : string;
  gm_title : string;
  gm_fmt : string;
  gm_modify : option modifier
}.

Definition GENERAL_METRICS : list general_metric := [
  mk_general "Bases in reference genome" "Bases in ref. genome:" base_format
    (Some (fun v => py_mul v (base_count_multiplier cfg)));
  mk_general "Bases in target bed [% of genome]" "Bases in target bed:"
    "{} % of genome" None;
  mk_general "Provided sex chromosome ploidy" "Prov. sex chrom ploidy:"
    "{}" None;
  mk_general "DRAGEN mapping rate [mil. reads/second]" "DRAGEN mapping rate:"
    "{:,.2f} [mil. reads/second]" None
].

(* ===================================================================== *)
(** ** [parse_mapping_metrics_file]: the record parser *)
(* ===================================================================== *)

(** A MetricRecord. *)
Definition metric_record : Type := dict value.

(** A discovered input: [f['fn']] and [f['f']]. *)
Record log_file : Type := {
  fn : string;
  f_contents : string
}.

(** The regular expression of the file name, a greedy group followed by
    [.mapping_metrics.csv]: a dot matches any character but a line feed. *)
Definition re_dot (c : ascii) : bool := negb (Nat.eqb (nat_of_ascii c) 10).

(** [s] starts with a match of [.mapping_metrics.csv]. *)
Definition suffix_matches (s : string) : bool :=
  match s with
  | String c s1 =>
      (re_dot c && String.prefix "mapping_metrics" s1 &&
       match PyStr.drop 15 s1 with
       | String c' s2 => re_dot c' && String.prefix "csv" s2
       | EmptyString => false
       end)%bool
  | EmptyString => false
  end.

(** The length of the longest group that can start at the head of [s]. *)
Fixpoint longest_group (s : string) : option nat :=
  match s with
  | EmptyString => None
  | String c s' =>
      match (if re_dot c then longest_group s' else None) with
      | Some n => Some (S n)
      | None => if suffix_matches s then Some O else None
      end
  end.

(** [re.search] of that expression in [s], and its group 1: the leftmost
    start, the longest group. *)
Fixpoint re_search_group (s : string) : option string :=
  match longest_group s with
  | Some n => Some (String.substring 0 n s)
  | None =>
      match s with
      | EmptyString => None
      | String _ s' => re_search_group s'
      end
  end.

(** [l[n]] *)
Definition index {A : Type} (n : nat) (l : list A) : result A :=
  of_option IndexError (nth_error l n).

(** The VALUE field: [int], else [float], else the text itself. *)
Definition coerce_value (s : string) : value :=
  match py_int s with
  | Some z => VInt z
  | None =>
      match py_float s with
      | Some x => VFloat x
      | None => VStr s
      end
  end.

(** The PERCENTAGE field: [float], else the text itself. *)
Definition coerce_percentage (s : string) : value :=
  match py_float s with
  | Some x => VFloat x
  | None => VStr s
  end.

(** [d[entity][metric] = value], and [metric + ' pct'] when the row has a
    percentage. *)
Definition store (entity metric : string) (v : value) (percentage : option value)
  (d : dict metric_record) : dict metric_record :=
  let d1 := dd_update entity (dict_set metric v) d in
  match percentage with
  | Some p => dd_update entity (dict_set (metric ++ " pct") p) d1
  | None => d1
  end.

(** One pass of the loop over the lines; the state is
    [(data_by_readgroup, data_by_phenotype)]. *)
Definition parse_line (line : string)
  (acc : dict metric_record * dict metric_record)
  : result (dict metric_record * dict metric_record) :=
  let '(data_by_readgroup, data_by_phenotype) := acc in
  let fields := PyStr.split "," line in
  field0 <- index 0 fields ;;
  section_word <- index 0 (PyStr.split "/" field0) ;;
  first_word <- index 0 (PyStr.split " " section_word) ;;
  let phenotype := PyStr.lower first_word in
  analysis <- index 1 (PyStr.split "/" field0) ;;
  metric <- index 2 fields ;;
  raw <- index 3 fields ;;
  let v := coerce_value raw in
  percentage <-
    (if Nat.ltb 4 (List.length fields)
     then p <- index 4 fields ;; ret (Some (coerce_percentage p))
     else ret None) ;;
  let data_by_phenotype' :=
    if String.eqb analysis "ALIGNING SUMMARY"
    then store phenotype metric v percentage data_by_phenotype
    else data_by_phenotype in
  if String.eqb analysis "ALIGNING PER RG"
  then readgroup <- index 1 fields ;;
       ret (store readgroup metric v percentage data_by_readgroup, data_by_phenotype')
  else ret (data_by_readgroup, data_by_phenotype').

(** [if data[metric] == 'NA': data[metric] = 0] *)
Definition zero_if_na (metric : string) (data : metric_record) : result metric_record :=
  v <- getitem metric data ;;
  ret (if py_eq v NA then dict_set metric (VInt 0) data else data).

(** [if data[metric] == 'NA': data[metric] = data[source]] *)
Definition copy_if_na (metric source : string) (data : metric_record)
  : result metric_record :=
  v <- getitem metric data ;;
  if py_eq v NA
  then x <- getitem source data ;; ret (dict_set metric x data)
  else ret data.

(** [data[key] = data[numerator] / data[denominator] * 100.0] *)
Definition add_pct (key numerator denominator : string) (data : metric_record)
  : result metric_record :=
  n <- getitem numerator data ;;
  d <- getitem denominator data ;;
  ratio <- py_truediv n d ;;
  pct <- py_mul ratio (VFloat F100) ;;
  ret (dict_set key pct data).

(** [if data[metric] > 0: body] *)
Definition if_positive (metric : string)
  (body : metric_record -> result metric_record) (data : metric_record)
  : result metric_record :=
  v <- getitem metric data ;;
  positive <- py_gt v (VInt 0) ;;
  if positive : bool then body data else ret data.

(** The body of the fix-up loop, for one MetricRecord. *)
Definition fixup_record (data : metric_record) : result metric_record :=
  data <- zero_if_na "Number of duplicate marked reads" data ;;
  data <- zero_if_na "Number of duplicate marked and mate reads removed" data ;;
  data <- copy_if_na "Number of unique reads (excl. duplicate marked reads)"
            "Mapped reads" data ;;
  data <- if_positive "Total alignments"
            (add_pct "Secondary alignments pct" "Secondary alignments" "Total alignments")
            data ;;
  if_positive "Total bases"
    (fun data =>
       data <- add_pct "Q30 bases (excl. dups & clipped bases) pct"
                 "Q30 bases (excl. dups & clipped bases)" "Total bases" data ;;
       data <- add_pct "Mapped bases R1 pct" "Mapped bases R1" "Total bases" data ;;
       add_pct "Mapped bases R2 pct" "Mapped bases R2" "Total bases" data)
    data.

(** The fix-up loop over the records of one mapping, in order. *)
Definition fixup_all (d : dict metric_record) : result (dict metric_record) :=
  mapM (fun '(entity, data) => data' <- fixup_record data ;; ret (entity, data')) d.

(** The two mappings as they stand after the loop over the lines. *)
Definition parse_lines (text : string)
  : result (dict metric_record * dict metric_record) :=
  foldM parse_line (PyStr.splitlines text) ([], []).

(** [parse_mapping_metrics_file(f)]: the name set in [f['s_name']], then
    [data_by_readgroup] and [data_by_phenotype]. *)
Definition parse_mapping_metrics_file (f : log_file)
  : result (string * dict metric_record * dict metric_record) :=
  s_name <- of_option AttributeError (re_search_group (fn f)) ;;
  '(data_by_readgroup, data_by_phenotype) <- parse_lines (f_contents f) ;;
  data_by_readgroup <- fixup_all data_by_readgroup ;;
  data_by_phenotype <- fixup_all data_by_phenotype ;;
  ret (s_name, data_by_readgroup, data_by_phenotype).

(* ===================================================================== *)
(** ** [maybe_add_general_metrics]: the general-metric promoter *)
(* ===================================================================== *)

(** A ReportHeaderFact, the one-entry dictionary [{title: text}]. *)
Definition header_fact : Type := (string * string)%type.

(** [metric in [ids of GENERAL_METRICS]] *)
Definition is_general_metric (metric : string) : bool :=
  existsb (String.eqb metric) (map gm_id GENERAL_METRICS).

(** The inner loop of the gathering, over the entries of one record. *)
Definition gather_record (sname : string) (data : metric_record)
  (acc : dict (dict value)) : dict (dict value) :=
  fold_left
    (fun acc '(metric, val) =>
       if is_general_metric metric
       then dd_update metric (dict_set sname val) acc
       else acc)
    data acc.

(** The first loop: [general_stats_by_sample_by_metric]. *)
Definition collect_general (data_by_sample : dict metric_record) : dict (dict value) :=
  fold_left (fun acc '(sname, data) => gather_record sname data acc) data_by_sample [].

(** [list(set(vs))]: one representative per class of equal values, the
    first met.  The values of different samples are different objects. *)
Definition py_set (vs : list value) : list value :=
  fold_left (fun seen v => if existsb (fun u => py_eq u v) seen then seen else (seen ++ [v])%list)
    vs [].

(** [for sname, data in data_by_sample.items(): del data[metric]] *)
Definition delete_metric (metric : string) (data_by_sample : dict metric_record)
  : result (dict metric_record) :=
  mapM (fun '(sname, data) => data' <- dict_del metric data ;; ret (sname, data'))
    data_by_sample.

(** The body of the second loop, for one row of [GENERAL_METRICS].  The state
    is [config.report_header_info] and [data_by_sample]. *)
Definition promote (by_metric : dict (dict value)) (g : general_metric)
  (st : option (list header_fact) * dict metric_record)
  : result (option (list header_fact) * dict metric_record) :=
  let '(header_info, data_by_sample) := st in
  let vals_by_sample := or_empty (dict_get (gm_id g) by_metric) in
  if Nat.eqb (List.length (py_set (values vals_by_sample))) 1 then
    let info := match header_info with Some l => l | None => [] end in
    v <- index 0 (py_set (values vals_by_sample)) ;;
    info' <-
      (if py_ne v NA
       then v' <- (match gm_modify g with Some modify => modify v | None => ret v end) ;;
            text <- py_format (gm_fmt g) v' ;;
            ret (info ++ [(gm_title g, text)])%list
       else ret info) ;;
    data_by_sample' <- delete_metric (gm_id g) data_by_sample ;;
    ret (Some info', data_by_sample')
  else ret st.

Definition maybe_add_general_metrics (header_info : option (list header_fact))
  (data_by_sample : dict metric_record)
  : result (option (list header_fact) * dict metric_record) :=
  foldM (promote (collect_general data_by_sample)) GENERAL_METRICS
    (header_info, data_by_sample).

(* ===================================================================== *)
(** ** [make_mapping_stats_headers]: the metadata builder *)
(* ===================================================================== *)

(** A ColumnMeta: the keys a column dictionary can hold.  [title],
    [description] and [min] are always set. *)
Record column : Type := mk_column {
  col_title : string;
  col_description : string;
  col_min : Z;
  col_max : option Z;
  col_scale : option string;
  col_suffix : option string;
  col_hidden : option bool;
  col_modify : option modifier;
  col_shared_key : option string;
  col_format : option string
}.

Definition set_description (x : string) (c : column) : column :=
  mk_column (col_title c) x (col_min c) (col_max c) (col_scale c) (col_suffix c)
    (col_hidden c) (col_modify c) (col_shared_key c) (col_format c).
Definition set_max (x : Z) (c : column) : column :=
  mk_column (col_title c) (col_description c) (col_min c) (Some x) (col_scale c)
    (col_suffix c) (col_hidden c) (col_modify c) (col_shared_key c) (col_format c).
Definition set_scale (x : string) (c : column) : column :=
  mk_column (col_title c) (col_description c) (col_min c) (col_max c) (Some x)
    (col_suffix c) (col_hidden c) (col_modify c) (col_shared_key c) (col_format c).
Definition set_suffix (x : string) (c : column) : column :=
  mk_column (col_title c) (col_description c) (col_min c) (col_max c) (col_scale c)
    (Some x) (col_hidden c) (col_modify c) (col_shared_key c) (col_format c).
Definition set_hidden (x : bool) (c : column) : column :=
  mk_column (col_title c) (col_description c) (col_min c) (col_max c) (col_scale c)
    (col_suffix c) (Some x) (col_modify c) (col_shared_key c) (col_format c).
Definition set_modify (x : modifier) (c : column) : column :=
  mk_column (col_title c) (col_description c) (col_min c) (col_max c) (col_scale c)
    (col_suffix c) (col_hidden c) (Some x) (col_shared_key c) (col_format c).
Definition set_shared_key (x : string) (c : column) : column :=
  mk_column (col_title c) (col_description c) (col_min c) (col_max c) (col_scale c)
    (col_suffix c) (col_hidden c) (col_modify c) (Some x) (col_format c).
Definition set_format (x : string) (c : column) : column :=
  mk_column (col_title c) (col_description c) (col_min c) (col_max c) (col_scale c)
    (col_suffix c) (col_hidden c) (col_modify c) (col_shared_key c) (Some x).

(** [o == s] for a value that is a string or [None]. *)
Definition is_str (o : option string) (s : string) : bool :=
  match o with Some x => String.eqb x s | None => false end.

(** [x in metric_names] for the set of observed names. *)
Definition in_names (x : string) (metric_names : list string) : bool :=
  existsb (String.eqb x) metric_names.

(** The column as it stands when the percentage variant is copied from it. *)
Definition base_column (m : metric_descriptor) : column :=
  let col := mk_column (md_title m) (descr m) 0 None None None None None None None in
  let col := if is_str (unit m) "reads" then set_scale "RdYlGn" col else col in
  let col := if is_str (unit m) "bases" then set_scale "RdBu" col else col in
  let col := if is_str (unit m) "len" then set_scale "BrBG" col else col in
  if is_str (unit m) "x" then set_scale "PiYG" col else col.

Definition pct_column (m : metric_descriptor) : column :=
  set_hidden (negb (is_str (showing m) "%"))
    (set_suffix "%"
       (set_max 100
          (set_description
             (PyStr.replace "Number of " "% of " (PyStr.replace ", {}" "" (descr m)))
             (base_column m)))).

(** The column once the unit-specific keys are set. *)
Definition count_column (m : metric_descriptor) : result column :=
  let col := set_hidden (negb (is_str (showing m) "#")) (base_column m) in
  col <-
    (if is_str (unit m) "reads"
     then d <- py_format (col_description col) (VStr (read_count_desc cfg)) ;;
          ret (set_format read_format
                 (set_shared_key "read_count"
                    (set_modify (fun x => py_mul x (read_count_multiplier cfg))
                       (set_description d col))))
     else ret col) ;;
  col <-
    (if is_str (unit m) "bases"
     then d <- py_format (col_description col) (VStr (base_count_desc cfg)) ;;
          ret (set_format base_format
                 (set_shared_key "base_count"
                    (set_modify (fun x => py_mul x (base_count_multiplier cfg))
                       (set_description d col))))
     else ret col) ;;
  let col :=
    if is_str (unit m) "len" then set_format "{:,.0f}" (set_suffix " bp" col) else col in
  let col :=
    if is_str (unit m) "x" then set_format "{:,.1f}" (set_suffix " x" col) else col in
  let col :=
    if is_str (unit m) "%" then set_format "{:,.1f}" (set_suffix " %" col) else col in
  ret col.

Definition beeswarm_suffix (m : metric_descriptor) : string :=
  let suffix := "" in
  let suffix := if is_str (unit m) "reads" then " " ++ read_count_prefix cfg else suffix in
  if is_str (unit m) "bases" then " " ++ base_count_prefix cfg else suffix.

(** The body of the loop over [MAPPING_METRICS]; the state is
    [(stats_headers, beeswarm_keys)]. *)
Definition add_headers (metric_names : list string) (m : metric_descriptor)
  (acc : dict column * dict column) : result (dict column * dict column) :=
  let '(stats_headers, beeswarm_keys) := acc in
  let stats_headers :=
    if in_names (id_in_data m ++ " pct") metric_names
    then dict_set (id_in_data m ++ " pct") (pct_column m) stats_headers
    else stats_headers in
  col <- count_column m ;;
  let stats_headers := dict_set (id_in_data m) col stats_headers in
  if show_in_beeswarm m
  then ret (stats_headers,
            dict_set (id_in_data m) (set_suffix (beeswarm_suffix m) col) beeswarm_keys)
  else ret (stats_headers, beeswarm_keys).

Definition make_mapping_stats_headers (metric_names : list string)
  : result (dict column * dict column) :=
  foldM (add_headers metric_names) MAPPING_METRICS ([], []).

(* ===================================================================== *)
(** ** The chart projections *)
(* ===================================================================== *)

Inductive level : Type := DEBUG | INFO | WARNING.

Definition log_entry : Type := (level * string)%type.

Definition dup_warning (sample_id : string) : string :=
  "sum of unique/duplicate/unmapped reads not matching total, "
  ++ "skipping mapping/duplicates percentages plot for: " ++ sample_id.

Definition pair_warning (sample_id : string) : string :=
  "sum of unpaired/discordant/proppaired/unmapped reads not matching total, "
  ++ "skipping mapping/paired percentages plot for: " ++ sample_id.

(** The left-hand side of the test of the duplication view. *)
Definition dup_sum (data : metric_record) : result value :=
  a <- getitem "Number of unique & mapped reads (excl. duplicate marked reads)" data ;;
  b <- getitem "Number of duplicate marked reads" data ;;
  ab <- py_add a b ;;
  c <- getitem "Unmapped reads" data ;;
  py_add ab c.

(** The left-hand side of the test of the pairing view. *)
Definition pair_sum (data : metric_record) : result value :=
  a <- getitem "Not properly paired reads (discordant)" data ;;
  b <- getitem "Properly paired reads" data ;;
  ab <- py_add a b ;;
  c <- getitem "Singleton reads (itself mapped; mate unmapped)" data ;;
  abc <- py_add ab c ;;
  d <- getitem "Unmapped reads" data ;;
  py_add abc d.

(** The loop shared by the two views: [(chart_data, warnings)]. *)
Definition chart_step (sum : metric_record -> result value)
  (warning : string -> string) (entry : string * metric_record)
  (acc : dict metric_record * list log_entry)
  : result (dict metric_record * list log_entry) :=
  let '(sample_id, data) := entry in
  let '(chart_data, log) := acc in
  s <- sum data ;;
  total <- getitem "Total reads in RG" data ;;
  if py_ne s total
  then ret (chart_data, (log ++ [(WARNING, warning sample_id)])%list)
  else ret (dict_set sample_id data chart_data, log).

(** [__map_dup_read_chart]: the data given to [bargraph.plot], and the
    warnings logged. *)
Definition map_dup_read_chart (data_by_sample : dict metric_record)
  : result (dict metric_record * list log_entry) :=
  foldM (chart_step dup_sum dup_warning) data_by_sample ([], []).

(** [__map_pair_read_chart] *)
Definition map_pair_read_chart (data_by_sample : dict metric_record)
  : result (dict metric_record * list log_entry) :=
  foldM (chart_step pair_sum pair_warning) data_by_sample ([], []).

(* ===================================================================== *)
(** ** [parse_mapping_metrics]: the aggregator *)
(* ===================================================================== *)

(** Modelled from the spec: [ignore_samples] of the base module, which is
    not among the sources.  Entities whose name matches the caller-supplied
    exclusion set are dropped; the others keep their order. *)
Definition ignore_samples {V : Type} (ignored : string -> bool) (d : dict V) : dict V :=
  filter (fun '(name, _) => negb (ignored name)) d.

Variable ignored : string -> bool.

(** The state of the loop over the discovered files. *)
Record collected : Type := mk_collected {
  by_rg : dict (dict metric_record);          (* data_by_rg_by_sample *)
  by_phenotype : dict (dict metric_record);   (* data_by_phenotype_by_sample *)
  data_sources : list string;                 (* files given to add_data_source *)
  debug_log : list log_entry
}.

(** The debug messages of the inner loop over the read groups of a file. *)
Definition duplicate_rg_log (s_name : string) (data_by_readgroup : dict metric_record)
  (data_by_rg_by_sample : dict (dict metric_record)) : list log_entry :=
  flat_map
    (fun '(rg, _) =>
       if existsb (fun '(_, d_rg) => dict_mem rg d_rg) data_by_rg_by_sample
       then [(DEBUG, "Duplicate read group name " ++ rg ++ " found for output prefix "
                     ++ s_name ++ "! Overwriting")]
       else [])
    data_by_readgroup.

(** What the loop does with one parsed file. *)
Definition add_parsed (f : log_file)
  (parsed : string * dict metric_record * dict metric_record) (acc : collected)
  : collected :=
  let '(s_name, data_by_readgroup, data_by_phenotype) := parsed in
  let duplicate := dict_mem s_name (by_rg acc) in
  mk_collected
    (dict_set s_name data_by_readgroup (by_rg acc))
    (dict_set s_name data_by_phenotype (by_phenotype acc))
    (if duplicate then data_sources acc ++ [fn f] else data_sources acc)%list
    (debug_log acc
     ++ (if duplicate
         then [(DEBUG, ("Duplicate Dragen output prefix found! Overwriting: " ++ s_name)%string)]
         else [])
     ++ duplicate_rg_log s_name data_by_readgroup (by_rg acc))%list.

Definition add_file (f : log_file) (acc : collected) : result collected :=
  parsed <- parse_mapping_metrics_file f ;;
  ret (add_parsed f parsed acc).

Definition collect_files (files : list log_file) : result collected :=
  foldM add_file files (mk_collected [] [] [] []).

(** The name under which a phenotype of document [sn] is reported. *)
Definition sample_name (sn phenotype : string) : string :=
  if String.eqb phenotype "normal" then sn ++ " normal" else sn.

(** The inner loop of the flattening, for the document [sn]. *)
Definition flatten_document (sn : string) (data_by_phenotype : dict metric_record)
  (data_by_sample : dict metric_record) : dict metric_record :=
  fold_left
    (fun acc '(phenotype, data) => dict_set (sample_name sn phenotype) data acc)
    data_by_phenotype data_by_sample.

(** [data_by_sample], the merged per-sample mapping. *)
Definition flatten_samples (data_by_phenotype_by_sample : dict (dict metric_record))
  : dict metric_record :=
  fold_left (fun acc '(sn, phenotypes) => flatten_document sn phenotypes acc)
    data_by_phenotype_by_sample [].

(** The key under which a read group of document [sname] is merged. *)
Definition merged_key (sname rg : string) (data_by_rg : dict metric_record) : string :=
  if dict_mem rg data_by_rg then rg ++ " (" ++ sname ++ ")" else rg.

Definition merge_document (sname : string) (data_by_readgroup : dict metric_record)
  (data_by_rg : dict metric_record) : dict metric_record :=
  fold_left (fun acc '(rg, d) => dict_set (merged_key sname rg acc) d acc)
    data_by_readgroup data_by_rg.

(** [data_by_rg] as the merge loop leaves it: the merged per-read-group
    mapping. *)
Definition merge_read_groups (data_by_rg_by_sample : dict (dict metric_record))
  : dict metric_record :=
  fold_left (fun acc '(sname, rgs) => merge_document sname rgs acc)
    data_by_rg_by_sample [].

(** The merged per-read-group mapping of a run: [data_by_rg] at the end of
    the merge loop. *)
Definition merged_by_rg (files : list log_file) : result (dict metric_record) :=
  c <- collect_files files ;;
  ret (merge_read_groups (ignore_samples ignored (by_rg c))).

(** The merged per-sample mapping of a run: [data_by_sample] at the end of
    the flattening loop, before the promoter changes it. *)
Definition flattened_samples (files : list log_file) : result (dict metric_record) :=
  c <- collect_files files ;;
  ret (flatten_samples (ignore_samples ignored (by_phenotype c))).

(** [s.add(x)] on a set kept as a list. *)
Definition set_add (x : string) (s : list string) : list string :=
  if in_names x s then s else (s ++ [x])%list.

(** The two inner loops of the gathering: the metric names of the records
    of one document are added to the set. *)
Definition add_names (data_by_rg : dict metric_record) (names : list string)
  : list string :=
  fold_left
    (fun names '(rg, data) => fold_left (fun names m => set_add m names) (keys data) names)
    data_by_rg names.

(** The loop that gathers the metric names.  Its head reads
    [for sn, data_by_rg in data_by_rg_by_sample.items()], so every pass
    rebinds the variable [data_by_rg] to the mapping of the document at
    hand; the state is [(data_by_rg, all_metric_names)]. *)
Definition gather_metric_names (data_by_rg_by_sample : dict (dict metric_record))
  (data_by_rg : dict metric_record) : dict metric_record * list string :=
  fold_left
    (fun state entry => (snd entry, add_names (snd entry) (snd state)))
    data_by_rg_by_sample (data_by_rg, []).

(** What the module hands to the report. *)
Record report : Type := mk_report {
  general_stats_data : dict metric_record;    (* general_stats_addcols *)
  general_stats_headers : dict column;
  dup_chart_input : dict metric_record;       (* argument of __map_dup_read_chart *)
  dup_chart_data : dict metric_record;        (* given to bargraph.plot *)
  pair_chart_input : dict metric_record;      (* argument of __map_pair_read_chart *)
  pair_chart_data : dict metric_record;
  beeswarm_data : dict metric_record;         (* given to beeswarm.plot *)
  beeswarm_keys : dict column;
  report_header_info : option (list header_fact);
  report_log : list log_entry
}.

(** [parse_mapping_metrics]: [None] when the function returns before
    reporting anything. *)
Definition parse_mapping_metrics (files : list log_file)
  (header_info : option (list header_fact)) : result (option report) :=
  c <- collect_files files ;;
  let data_by_rg_by_sample := ignore_samples ignored (by_rg c) in
  let data_by_phenotype_by_sample := ignore_samples ignored (by_phenotype c) in
  match data_by_rg_by_sample, data_by_phenotype_by_sample with
  | [], [] => ret None
  | _, _ =>
      let info_log :=
        [(INFO, "Found mapping metrics for "
                ++ py_str_int (Z.of_nat (List.length data_by_rg_by_sample))
                ++ " Dragen output prefixes")] in
      let data_by_sample := flatten_samples data_by_phenotype_by_sample in
      '(header_info', data_by_sample) <-
        maybe_add_general_metrics header_info data_by_sample ;;
      let data_by_rg := merge_read_groups data_by_rg_by_sample in
      let '(data_by_rg, all_metric_names) :=
        gather_metric_names data_by_rg_by_sample data_by_rg in
      '(headers, beeswarm) <- make_mapping_stats_headers all_metric_names ;;
      '(dup_chart, dup_log) <- map_dup_read_chart data_by_rg ;;
      '(pair_chart, pair_log) <- map_pair_read_chart data_by_rg ;;
      ret (Some (mk_report data_by_sample headers
                   data_by_rg dup_chart data_by_rg pair_chart
                   data_by_rg beeswarm header_info'
                   (debug_log c ++ info_log ++ dup_log ++ pair_log)%list))
  end.

End Module.

(* ===================================================================== *)
(** ** An executable stand-in for the floating-point interface *)
(* ===================================================================== *)

(** Exact rational arithmetic in place of binary64: enough to run the model
    on concrete inputs.  It rounds nothing, and no statement below depends
    on it except the concrete runs. *)
Module ExactFloat.

Inductive t : Type :=
| Fin (q : Q)
| Inf (neg : bool)
| NaN.

Definition pow10 (e : Z) : Q :=
  match e with
  | Z0 => 1%Q
  | Zpos p => inject_Z (Z.pow 10 (Zpos p))
  | Zneg p => Qmake 1 (Pos.pow 10 p)
  end.

Definition of_dec (neg : bool) (m : N) (e : Z) : t :=
  Fin (Qred (Qmult (inject_Z (if neg then Z.opp (Z.of_N m) else Z.of_N m)) (pow10 e))).

Definition add (x y : t) : t :=
  match x, y with
  | Fin a, Fin b => Fin (Qred (Qplus a b))
  | NaN, _ | _, NaN => NaN
  | Inf a, Inf b => if Bool.eqb a b then Inf a else NaN
  | Inf a, Fin _ | Fin _, Inf a => Inf a
  end.

Definition is_neg (q : Q) : bool := Z.ltb (Qnum q) 0.

Definition mul (x y : t) : t :=
  match x, y with
  | Fin a, Fin b => Fin (Qred (Qmult a b))
  | NaN, _ | _, NaN => NaN
  | Inf a, Inf b => Inf (xorb a b)
  | Inf a, Fin q | Fin q, Inf a => if Z.eqb (Qnum q) 0 then NaN else Inf (xorb a (is_neg q))
  end.

Definition div (x y : t) : t :=
  match x, y with
  | Fin a, Fin b => Fin (Qred (Qdiv a b))
  | NaN, _ | _, NaN => NaN
  | Inf _, Inf _ => NaN
  | Inf a, Fin q => Inf (xorb a (is_neg q))
  | Fin _, Inf _ => Fin 0%Q
  end.

Definition compare (x y : t) : option comparison :=
  match x, y with
  | Fin a, Fin b => Some (Qcompare a b)
  | NaN, _ | _, NaN => None
  | Inf a, Inf b => Some (if Bool.eqb a b then Eq else if a then Lt else Gt)
  | Inf a, Fin _ => Some (if a then Lt else Gt)
  | Fin _, Inf a => Some (if a then Gt else Lt)
  end.

Definition repr (x : t) : string :=
  match x with
  | Fin q => py_str_int (Qnum q) ++ "/" ++ py_str_int (Zpos (Qden q))
  | Inf neg => if neg then "-inf" else "inf"
  | NaN => "nan"
  end.

#[global] Instance exact : PyFloat := {|
  F := t;
  F_of_dec := of_dec;
  F_inf := Inf;
  F_nan := fun _ => NaN;
  F_of_Z := fun z => Some (Fin (inject_Z z));
  Z_truediv := fun a b => Some (Fin (Qred (Qdiv (inject_Z a) (inject_Z b))));
  Fadd := add;
  Fmul := mul;
  Fdiv := div;
  Fcompare := compare;
  Fcompare_Z := fun x z => compare x (Fin (inject_Z z));
  Frepr := repr;
  Fformat := fun _ x => ret (repr x)
|}.

End ExactFloat.

(* ===================================================================== *)
(** * The vocabulary of the specification *)
(* ===================================================================== *)

(** The predicates and functions in which the properties below are stated
    and proved.  Those that state a claim follow the words of the
    specification, not the code. *)

Section Vocabulary.
Context {PF : PyFloat}.

(** The equality the duplication view tests, read off one record: the
    three components are present and add up, with Python's [+] and [==],
    to a value that is ([holds = true]) or is not ([holds = false]) equal
    to the total. *)
Definition dup_equality (r : metric_record) (holds : bool) : Prop :=
  exists a b c total ab s,
    dict_get "Number of unique & mapped reads (excl. duplicate marked reads)" r = Some a
    /\ dict_get "Number of duplicate marked reads" r = Some b
    /\ dict_get "Unmapped reads" r = Some c
    /\ dict_get "Total reads in RG" r = Some total
    /\ py_add a b = inr ab /\ py_add ab c = inr s
    /\ py_eq s total = holds.

(** The number of digits in the decimal writing of [z], its sign apart. *)
Definition digit_count (z : Z) : N := N.of_nat (String.length (py_str_int (Z.abs z))).

(** [pct] is [r[numerator] / r[denominator] * 100.0]: the quotient of the
    two counts, times the float that the text [100.0] writes (the decimal
    1000 * 10^-1). *)
Definition derived_pct (numerator denominator : string) (r : metric_record)
  (pct : value) : Prop :=
  exists n d ratio,
    dict_get numerator r = Some n /\ dict_get denominator r = Some d
    /\ py_truediv n d = inr ratio
    /\ py_mul ratio (VFloat (F_of_dec false 1000 (-1))) = inr pct.

(** [d'] has the entries of [d] except perhaps under the keys [targets]. *)
Definition preserves (targets : list string) (d d' : metric_record) : Prop :=
  forall k, existsb (String.eqb k) targets = false -> dict_get k d' = dict_get k d.

(** The metrics that the fix-ups may write. *)
Definition fixup_targets : list string :=
  [ "Number of duplicate marked reads";
    "Number of duplicate marked and mate reads removed";
    "Number of unique reads (excl. duplicate marked reads)";
    "Secondary alignments pct";
    "Q30 bases (excl. dups & clipped bases) pct";
    "Mapped bases R1 pct";
    "Mapped bases R2 pct" ].

(** [r'] holds under [key] what [r] holds there. *)
Definition kept (key : string) (r r' : metric_record) : Prop :=
  dict_get key r' = dict_get key r.

(** A count that is unavailable in [r] is [0] in [r']; an available one is
    kept. *)
Definition defaults_to_zero (key : string) (r r' : metric_record) : Prop :=
  (dict_get key r = Some NA -> dict_get key r' = Some (VInt 0))
  /\ (forall v, dict_get key r = Some v -> v <> NA -> dict_get key r' = Some v).

(** [r'] holds under [key] the percentage of [numerator] in [denominator],
    both read from [r]. *)
Definition holds_pct (key numerator denominator : string) (r r' : metric_record) : Prop :=
  exists pct, derived_pct numerator denominator r pct /\ dict_get key r' = Some pct.

(** The fix-ups, as the record parser documents them: what a fixed-up
    record [r'] holds, in terms of the record [r] read from the rows.  The
    two duplicate counts default to zero; the unique-read count defaults to
    [Mapped reads]; a positive [Total alignments] adds the percentage of
    secondary alignments and a positive [Total bases] the three base
    percentages, and a total that is not positive adds nothing; every other
    metric is kept. *)
Definition fixed_up (r r' : metric_record) : Prop :=
  defaults_to_zero "Number of duplicate marked reads" r r'
  /\ defaults_to_zero "Number of duplicate marked and mate reads removed" r r'
  /\ (dict_get "Number of unique reads (excl. duplicate marked reads)" r = Some NA ->
      exists mapped,
        dict_get "Mapped reads" r = Some mapped
        /\ dict_get "Number of unique reads (excl. duplicate marked reads)" r'
           = Some mapped)
  /\ (forall v,
        dict_get "Number of unique reads (excl. duplicate marked reads)" r = Some v ->
        v <> NA ->
        dict_get "Number of unique reads (excl. duplicate marked reads)" r' = Some v)
  /\ (forall total,
        dict_get "Total alignments" r = Some total ->
        py_gt total (VInt 0) = inr true ->
        holds_pct "Secondary alignments pct" "Secondary alignments" "Total alignments" r r')
  /\ (forall total,
        dict_get "Total alignments" r = Some total ->
        py_gt total (VInt 0) = inr false ->
        kept "Secondary alignments pct" r r')
  /\ (forall total,
        dict_get "Total bases" r = Some total ->
        py_gt total (VInt 0) = inr true ->
        holds_pct "Q30 bases (excl. dups & clipped bases) pct"
          "Q30 bases (excl. dups & clipped bases)" "Total bases" r r'
        /\ holds_pct "Mapped bases R1 pct" "Mapped bases R1" "Total bases" r r'
        /\ holds_pct "Mapped bases R2 pct" "Mapped bases R2" "Total bases" r r')
  /\ (forall total,
        dict_get "Total bases" r = Some total ->
        py_gt total (VInt 0) = inr false ->
        kept "Q30 bases (excl. dups & clipped bases) pct" r r'
        /\ kept "Mapped bases R1 pct" r r'
        /\ kept "Mapped bases R2 pct" r r')
  /\ preserves fixup_targets r r'.

(** The metrics that every record must hold for the fix-ups to return. *)
Definition always_read : list string :=
  [ "Number of duplicate marked reads";
    "Number of duplicate marked and mate reads removed";
    "Number of unique reads (excl. duplicate marked reads)";
    "Total alignments";
    "Total bases" ].

(** A [KeyError] raised on [d] names one of [reads], absent from [d]. *)
Definition key_error_from (reads : list string) (d : metric_record) (e : exn) : Prop :=
  forall k, e = KeyError k -> In k reads /\ dict_get k d = None.

(** Every metric the fix-ups may read. *)
Definition fixup_reads : list string :=
  (always_read ++
   [ "Mapped reads"; "Secondary alignments";
     "Q30 bases (excl. dups & clipped bases)"; "Mapped bases R1"; "Mapped bases R2" ])%list.

(** A metric that the fix-ups read from the record [r]: the five read from
    every record, the mapped-read count when the unique-read count is
    unavailable, and the numerators of the percentages whose denominator
    is positive. *)
Definition needed (r : metric_record) (m : string) : Prop :=
  In m always_read
  \/ (m = "Mapped reads"
      /\ dict_get "Number of unique reads (excl. duplicate marked reads)" r = Some NA)
  \/ (m = "Secondary alignments"
      /\ exists total, dict_get "Total alignments" r = Some total
                       /\ py_gt total (VInt 0) = inr true)
  \/ (In m ["Q30 bases (excl. dups & clipped bases)"; "Mapped bases R1"; "Mapped bases R2"]
      /\ exists total, dict_get "Total bases" r = Some total
                       /\ py_gt total (VInt 0) = inr true).

(** The values of metric [m] across the samples that hold it, in order. *)
Definition metric_values (m : string) (d : dict metric_record) : list value :=
  flat_map (fun '(_, r) => match dict_get m r with Some v => [v] | None => [] end) d.

(** The same with the sample names: what the first loop gathers for [m]. *)
Definition metric_column (m : string) (d : dict metric_record) : dict value :=
  flat_map (fun '(sn, r) => match dict_get m r with Some v => [(sn, v)] | None => [] end) d.

(** Every record of the mapping has unique metric names. *)
Definition records_wf (d : dict metric_record) : Prop :=
  forall sn r, In (sn, r) d -> dict_wf r.

(** The last value of a dictionary, in iteration order. *)
Fixpoint last_value {V : Type} (d : dict V) : option V :=
  match d with
  | [] => None
  | (_, v) :: d' => match last_value d' with Some v' => Some v' | None => Some v end
  end.

(** The records of a document whose phenotype is not [normal]. *)
Definition non_normal (phenotypes : dict metric_record) : dict metric_record :=
  filter (fun '(phenotype, _) => negb (String.eqb phenotype "normal")) phenotypes.

(** Two lists that hold the same set of names. *)
Definition same_names (names1 names2 : list string) : Prop :=
  forall x, In x names1 <-> In x names2.

(** The key of the percentage variant of a catalogue entry. *)
Definition pct_key (m : metric_descriptor) : string := id_in_data m ++ " pct".

(** The keys that one catalogue entry contributes to the column metadata:
    the percentage key when it was observed, then the entry's own. *)
Definition entry_keys (names : list string) (m : metric_descriptor) : list string :=
  ((if in_names (pct_key m) names then [pct_key m] else []) ++ [id_in_data m])%list.

(** The keys of the column metadata, in catalogue order. *)
Definition header_keys (names : list string) : list string :=
  flat_map (entry_keys names) MAPPING_METRICS.

(** The keys of the beeswarm metadata, in catalogue order. *)
Definition beeswarm_ids : list string :=
  map id_in_data (filter show_in_beeswarm MAPPING_METRICS).

(** Every key that an entry can contribute. *)
Definition possible_keys (m : metric_descriptor) : list string :=
  [pct_key m; id_in_data m].

(** The names of a list are pairwise different. *)
Fixpoint nodupb (l : list string) : bool :=
  match l with
  | [] => true
  | x :: l' => (negb (existsb (String.eqb x) l') && nodupb l')%bool
  end.

(** Every record held for every document has unique metric names. *)
Definition documents_wf (d : dict (dict metric_record)) : Prop :=
  forall sn records, In (sn, records) d -> records_wf records.

(** *** The chart projections *)


(** The test of a view can be evaluated on the record [r]: the sum and the
    total are both defined. *)
Definition checkable (sum : metric_record -> result value) (r : metric_record) : bool :=
  (is_ok (sum r) && is_ok (getitem "Total reads in RG" r))%bool.

(** The components of [r] add up to its total. *)
Definition reconciles (sum : metric_record -> result value) (r : metric_record) : bool :=
  match sum r, getitem "Total reads in RG" r with
  | inr s, inr total => py_eq s total
  | _, _ => false
  end.

(** The read groups that reconcile, in the order of the input. *)
Definition charted (sum : metric_record -> result value) (data : dict metric_record)
  : dict metric_record :=
  filter (fun entry => reconciles sum (snd entry)) data.

(** One warning for each read group that does not, in the order of the
    input. *)
Definition warned (sum : metric_record -> result value) (warning : string -> string)
  (data : dict metric_record) : list log_entry :=
  map (fun entry => (WARNING, warning (fst entry)))
    (filter (fun entry => negb (reconciles sum (snd entry))) data).

(** The metrics that each view reads from every record. *)
Definition dup_chart_reads : list string :=
  [ "Number of unique & mapped reads (excl. duplicate marked reads)";
    "Number of duplicate marked reads"; "Unmapped reads"; "Total reads in RG" ].

Definition pair_chart_reads : list string :=
  [ "Not properly paired reads (discordant)"; "Properly paired reads";
    "Singleton reads (itself mapped; mate unmapped)"; "Unmapped reads";
    "Total reads in RG" ].

(** What a view can raise on [data]: a [KeyError] for one of the metrics it
    reads, absent from a record of [data], or an exception of the
    addition. *)
Definition chart_error (reads : list string) (data : dict metric_record) (e : exn) : Prop :=
  (exists k id r, e = KeyError k /\ In k reads /\ In (id, r) data /\ dict_get k r = None)
  \/ e = TypeError \/ e = OverflowError.

(** *** The rows of a document *)

(** No character of [s] is a line feed. *)
Fixpoint no_line_feed (s : string) : bool :=
  match s with
  | EmptyString => true
  | String c s' => (re_dot c && no_line_feed s')%bool
  end.

(** A line has at least four comma-separated fields, and its first field
    holds a slash. *)
Definition well_shaped (line : string) : bool :=
  let fields := PyStr.split "," line in
  (Nat.leb 4 (List.length fields)
   && Nat.leb 2 (List.length (PyStr.split "/" (hd "" fields))))%bool.

(** The fields of a row: section label, entity, metric, value and, when
    the row has a fifth field, percentage. *)
Definition row_fields (line : string)
  : option (string * string * string * string * option string) :=
  match PyStr.split "," line with
  | label :: entity :: metric :: raw :: rest =>
      Some (label, entity, metric, raw, hd_error rest)
  | _ => None
  end.

(** The analysis named by a section label: what follows its first slash. *)
Definition row_analysis (label : string) : option string :=
  nth_error (PyStr.split "/" label) 1.

(** The phenotype named by a section label: its first word, in lower
    case. *)
Definition row_phenotype (label : string) : string :=
  PyStr.lower (hd "" (PyStr.split " " (hd "" (PyStr.split "/" label)))).

(** The entries that a row gives to the record of its owner. *)
Definition row_entries (metric raw : string) (pct : option string) : list (string * value) :=
  (metric, coerce_value raw)
  :: match pct with
     | Some p => [((metric ++ " pct")%string, coerce_percentage p)]
     | None => []
     end.

(** An assignment [d[owner][key] = v]. *)
Definition assignment : Type := (string * string * value)%type.

(** The assignments that a row of the section [analysis] makes, [owner]
    choosing the record from the label and the entity. *)
Definition row_assignments (analysis : string) (owner : string -> string -> string)
  (line : string) : list assignment :=
  match row_fields line with
  | Some (label, entity, metric, raw, pct) =>
      if is_str (row_analysis label) analysis
      then map (fun kv => (owner label entity, fst kv, snd kv)) (row_entries metric raw pct)
      else []
  | None => []
  end.

Definition assign (owner key : string) (found : option value) (a : assignment)
  : option value :=
  let '(o, k, v) := a in
  if (String.eqb o owner && String.eqb k key)%bool then Some v else found.

(** The value of the last assignment of [l] to [owner] and [key]. *)
Definition last_assigned (owner key : string) (l : list assignment) : option value :=
  fold_left (assign owner key) l None.

(** [d[owner][key]] where both are present. *)
Definition lookup2 (owner key : string) (d : dict metric_record) : option value :=
  option_bind (dict_get owner d) (dict_get key).

(** *** The exceptions of the record parser *)

(** What the fix-ups can raise: a [KeyError] for a metric they read, or an
    exception of the comparison and the arithmetic. *)
Definition fixup_error (e : exn) : Prop :=
  (exists k, e = KeyError k /\ In k fixup_reads) \/ e = TypeError \/ e = OverflowError.

(** What the record parser can raise on the file [f]. *)
Definition parser_error (f : log_file) (e : exn) : Prop :=
  (e = AttributeError /\ re_search_group (fn f) = None)
  \/ (e = IndexError /\ forallb well_shaped (PyStr.splitlines (f_contents f)) = false)
  \/ fixup_error e.

(** A record on which the fix-ups have nothing left to do. *)
Definition settled (r : metric_record) : Prop :=
  (exists v, dict_get "Number of duplicate marked reads" r = Some v /\ py_eq v NA = false)
  /\ (exists v, dict_get "Number of duplicate marked and mate reads removed" r = Some v
                /\ py_eq v NA = false)
  /\ (exists v, dict_get "Number of unique reads (excl. duplicate marked reads)" r = Some v
                /\ (py_eq v NA = false \/ dict_get "Mapped reads" r = Some v))
  /\ (exists v positive,
        dict_get "Total alignments" r = Some v /\ py_gt v (VInt 0) = inr positive
        /\ (positive = true ->
            exists pct, derived_pct "Secondary alignments" "Total alignments" r pct
                        /\ dict_get "Secondary alignments pct" r = Some pct))
  /\ (exists v positive,
        dict_get "Total bases" r = Some v /\ py_gt v (VInt 0) = inr positive
        /\ (positive = true ->
            (exists pct,
               derived_pct "Q30 bases (excl. dups & clipped bases)" "Total bases" r pct
               /\ dict_get "Q30 bases (excl. dups & clipped bases) pct" r = Some pct)
            /\ (exists pct, derived_pct "Mapped bases R1" "Total bases" r pct
                            /\ dict_get "Mapped bases R1 pct" r = Some pct)
            /\ (exists pct, derived_pct "Mapped bases R2" "Total bases" r pct
                            /\ dict_get "Mapped bases R2 pct" r = Some pct))).

(** *** The promoter *)

(** The facts of the report header, none having been recorded yet when the
    configuration holds [None]. *)
Definition facts (header_info : option (list header_fact)) : list header_fact :=
  match header_info with Some l => l | None => [] end.

(** [str(v)] *)
Definition py_str (v : value) : string :=
  match v with
  | VInt z => py_str_int z
  | VFloat x => Frepr x
  | VStr s => s
  end.

(** What the promoter adds to the header for the general metric [g] whose
    distinct values among the samples are [distinct]: one fact when there
    is a single value other than [NA], formatted as the catalogue says. *)
Definition promoted_fact (g : general_metric) (distinct : list value)
  (added : list header_fact) : Prop :=
  match distinct with
  | [v] =>
      if py_ne v NA
      then exists v' text,
             match gm_modify g with Some modify => modify v | None => ret v end = inr v'
             /\ py_format (gm_fmt g) v' = inr text
             /\ added = [(gm_title g, text)]
      else added = []
  | _ => added = []
  end.

(** A sample after the promoter, against the same sample before: its name,
    its metrics outside the general catalogue, and no key it did not
    have. *)
Definition untouched (cfg : config) (before after : string * metric_record) : Prop :=
  fst after = fst before
  /\ (forall m, is_general_metric cfg m = false ->
        dict_get m (snd after) = dict_get m (snd before))
  /\ (forall k, In k (keys (snd after)) -> In k (keys (snd before))).

(** *** The aggregator *)

(** The entries that the flattening writes for one document, in order. *)
Definition reported (entry : string * dict metric_record) : dict metric_record :=
  map (fun pr => (sample_name (fst entry) (fst pr), snd pr)) (snd entry).

(** The parse of the last file of [files] that is named [name]. *)
Definition last_parsed (name : string) (files : list log_file)
  : option (dict metric_record * dict metric_record) :=
  fold_left
    (fun found f =>
       match parse_mapping_metrics_file f with
       | inr (s_name, rgs, phs) => if String.eqb s_name name then Some (rgs, phs) else found
       | inl _ => found
       end)
    files None.

(** The files whose name repeats the name of an earlier file, or one of
    [seen]. *)
Fixpoint repeats (seen : list string) (files : list log_file) : list string :=
  match files with
  | [] => []
  | f :: rest =>
      match re_search_group (fn f) with
      | Some name =>
          ((if in_names name seen then [fn f] else []) ++ repeats (name :: seen) rest)%list
      | None => []
      end
  end.

(** The read groups of the last document of [d]; none when [d] is empty. *)
Definition last_document (d : dict (dict metric_record)) : dict metric_record :=
  match last_value d with Some rgs => rgs | None => [] end.

End Vocabulary.

(* ===================================================================== *)
(** ** Example documents *)
(* ===================================================================== *)

Module Examples.
Import ExactFloat.

Definition newline : string := String (PyStr.chr 10) EmptyString.

(** The rows of one section for one entity, as lines of a document. *)
Definition rows (section_label entity : string) (metrics : list (string * string))
  : list string :=
  map (fun '(metric, fields) => section_label ++ "," ++ entity ++ "," ++ metric ++ "," ++ fields)
    metrics.

Definition document (name : string) (lines : list string) : log_file :=
  {| fn := name ++ ".mapping_metrics.csv"; f_contents := String.concat newline lines |}.

(** Duplicate marking was not performed; alignments and bases are counted. *)
Definition base_rows : list (string * string) :=
  [ ("Number of duplicate marked reads", "NA");
    ("Number of duplicate marked and mate reads removed", "NA");
    ("Number of unique reads (excl. duplicate marked reads)", "NA");
    ("Mapped reads", "90,90.00");
    ("Total alignments", "10");
    ("Secondary alignments", "1");
    ("Total bases", "200");
    ("Q30 bases (excl. dups & clipped bases)", "150");
    ("Mapped bases R1", "100");
    ("Mapped bases R2", "80") ].

(** Read counts that reconcile in the duplication view but not in the
    pairing view. *)
Definition read_rows : list (string * string) :=
  [ ("Total reads in RG", "100,100.00");
    ("Number of unique & mapped reads (excl. duplicate marked reads)", "90");
    ("Unmapped reads", "10");
    ("Not properly paired reads (discordant)", "1");
    ("Properly paired reads", "80");
    ("Singleton reads (itself mapped; mate unmapped)", "8") ].

Definition tumor_document (name rg : string) (extra : list (string * string)) : log_file :=
  document name
    (rows "TUMOR MAPPING/ALIGNING SUMMARY" "" (base_rows ++ extra)
     ++ rows "TUMOR MAPPING/ALIGNING PER RG" rg (base_rows ++ read_rows))%list.

Definition doc_S1 : log_file := tumor_document "S1" "RG1" [].

(** A document whose only record, for [entity], lacks [Total bases]. *)
Definition incomplete_document (entity : string) : log_file :=
  document "S2"
    (rows "MAPPING/ALIGNING PER RG" entity
       [ ("Number of duplicate marked reads", "0");
         ("Number of duplicate marked and mate reads removed", "0");
         ("Number of unique reads (excl. duplicate marked reads)", "100");
         ("Total alignments", "0") ]).

Definition raw_incomplete (entity : string) : metric_record :=
  [ ("Number of duplicate marked reads", VInt 0);
    ("Number of duplicate marked and mate reads removed", VInt 0);
    ("Number of unique reads (excl. duplicate marked reads)", VInt 100);
    ("Total alignments", VInt 0) ].

(** Read counts of a read group, for the duplication view. *)
Definition read_counts (total unique_mapped duplicates unmapped : Z) : metric_record :=
  [ ("Total reads in RG", VInt total);
    ("Number of unique & mapped reads (excl. duplicate marked reads)", VInt unique_mapped);
    ("Number of duplicate marked reads", VInt duplicates);
    ("Unmapped reads", VInt unmapped) ].

(** [RG1] reconciles, [RG2] does not. *)
Definition two_read_groups : dict metric_record :=
  [ ("RG1", read_counts 100 80 10 10); ("RG2", read_counts 100 80 10 5) ].

(** The default count scales of the report configuration. *)
Definition default_config : config :=
  {| read_count_multiplier := VFloat (F_of_dec false 1 (-6));
     base_count_multiplier := VFloat (F_of_dec false 1 (-6));
     read_count_prefix := "M";
     base_count_prefix := "Mb";
     read_count_desc := "millions";
     base_count_desc := "millions" |}.

Definition nothing_ignored : string -> bool := fun _ => false.

(** Three samples that agree on the ploidy and differ in the mapping rate. *)
Definition three_samples : dict metric_record :=
  [ ("S1", [ ("Provided sex chromosome ploidy", VInt 2);
             ("DRAGEN mapping rate [mil. reads/second]", VInt 3);
             ("Total input reads", VInt 1000) ]);
    ("S2", [ ("Provided sex chromosome ploidy", VInt 2);
             ("DRAGEN mapping rate [mil. reads/second]", VInt 4);
             ("Total input reads", VInt 2000) ]);
    ("S3", [ ("Provided sex chromosome ploidy", VInt 2);
             ("DRAGEN mapping rate [mil. reads/second]", VInt 3);
             ("Total input reads", VInt 3000) ]) ].

Definition three_samples_promoted : dict metric_record :=
  [ ("S1", [ ("DRAGEN mapping rate [mil. reads/second]", VInt 3);
             ("Total input reads", VInt 1000) ]);
    ("S2", [ ("DRAGEN mapping rate [mil. reads/second]", VInt 4);
             ("Total input reads", VInt 2000) ]);
    ("S3", [ ("DRAGEN mapping rate [mil. reads/second]", VInt 3);
             ("Total input reads", VInt 3000) ]) ].

(** Two samples, the second without the ploidy. *)
Definition one_sample_lacks_ploidy : dict metric_record :=
  [ ("S1", [ ("Provided sex chromosome ploidy", VInt 2);
             ("Total input reads", VInt 1000) ]);
    ("S3", [ ("Total input reads", VInt 3000) ]) ].

(** Two documents, only the first reporting the ploidy. *)
Definition doc_S1_ploidy : log_file :=
  tumor_document "S1" "RG1" [("Provided sex chromosome ploidy", "2")].
Definition doc_S3 : log_file := tumor_document "S3" "RG3" [].

(** A document with one read group and no summary section. *)
Definition rg_record (mapped : Z) : metric_record :=
  [ ("Number of duplicate marked reads", VInt 0);
    ("Number of duplicate marked and mate reads removed", VInt 0);
    ("Number of unique reads (excl. duplicate marked reads)", VInt 100);
    ("Mapped reads", VInt mapped);
    ("Total alignments", VInt 0);
    ("Total bases", VInt 0) ].

Definition rg_document (name rg mapped : string) : log_file :=
  document name
    (rows "MAPPING/ALIGNING PER RG" rg
       [ ("Number of duplicate marked reads", "0");
         ("Number of duplicate marked and mate reads removed", "0");
         ("Number of unique reads (excl. duplicate marked reads)", "100");
         ("Mapped reads", mapped);
         ("Total alignments", "0");
         ("Total bases", "0") ]).

(** The phenotypes of one document: two that are not [normal]. *)
Definition three_phenotypes : dict (dict metric_record) :=
  [ ("S", [ ("tumor", rg_record 1); ("normal", rg_record 2); ("mapping", rg_record 3) ]) ].

(** A document with two read groups, one of them named like a renamed
    key. *)
Definition renamed_name_document : log_file :=
  document "A"
    (rows "MAPPING/ALIGNING PER RG" "RG1 (B)"
       [ ("Number of duplicate marked reads", "0");
         ("Number of duplicate marked and mate reads removed", "0");
         ("Number of unique reads (excl. duplicate marked reads)", "100");
         ("Mapped reads", "70");
         ("Total alignments", "0");
         ("Total bases", "0") ]
     ++ rows "MAPPING/ALIGNING PER RG" "RG1"
          [ ("Number of duplicate marked reads", "0");
            ("Number of duplicate marked and mate reads removed", "0");
            ("Number of unique reads (excl. duplicate marked reads)", "100");
            ("Mapped reads", "90");
            ("Total alignments", "0");
            ("Total bases", "0") ])%list.

(** Three samples, one of them with another ploidy. *)
Definition three_samples_differing : dict metric_record :=
  [ ("S1", [ ("Provided sex chromosome ploidy", VInt 2) ]);
    ("S2", [ ("Provided sex chromosome ploidy", VInt 1) ]);
    ("S3", [ ("Provided sex chromosome ploidy", VInt 2) ]) ].



(** A read group without its total. *)
Definition no_total : dict metric_record :=
  [ ("RG1", read_counts 100 80 10 10); ("RG2", [ ("Unmapped reads", VInt 1) ]) ].

(** Three rows, two of them for the same read group and metric. *)
Definition repeated_rows : string :=
  String.concat newline
    [ "TUMOR MAPPING/ALIGNING PER RG,RG1,Mapped reads,10,50.00";
      "TUMOR MAPPING/ALIGNING PER RG,RG2,Mapped reads,30";
      "TUMOR MAPPING/ALIGNING PER RG,RG1,Mapped reads,20" ].

(** Two rows with a blank line between them. *)
Definition blank_line_text : string :=
  "TUMOR MAPPING/ALIGNING SUMMARY,,Total input reads,10"
  ++ newline ++ newline ++ "TUMOR MAPPING/ALIGNING SUMMARY,,Total bases,20".

(** A record whose [Total alignments] is not available. *)
Definition text_total_record : metric_record :=
  [ ("Number of duplicate marked reads", VInt 5);
    ("Number of duplicate marked and mate reads removed", NA);
    ("Number of unique reads (excl. duplicate marked reads)", NA);
    ("Mapped reads", VInt 90);
    ("Total alignments", NA);
    ("Total bases", VInt 200) ].

(** A record as read from the rows, every fix-up applying to it. *)
Definition unsettled_record : metric_record :=
  [ ("Number of duplicate marked reads", NA);
    ("Number of duplicate marked and mate reads removed", NA);
    ("Number of unique reads (excl. duplicate marked reads)", NA);
    ("Mapped reads", VInt 90);
    ("Total alignments", VInt 10);
    ("Secondary alignments", VInt 1);
    ("Total bases", VInt 200);
    ("Q30 bases (excl. dups & clipped bases)", VInt 150);
    ("Mapped bases R1", VInt 100);
    ("Mapped bases R2", VInt 80) ].

(** Two documents whose read groups have different names. *)
Definition two_documents : dict (dict metric_record) :=
  [ ("A", [ ("RG1", rg_record 90); ("RG2", rg_record 80) ]);
    ("B", [ ("RG3", rg_record 70) ]) ].

(** Two documents, the first with a tumor and a normal phenotype. *)
Definition tumor_normal : dict (dict metric_record) :=
  [ ("A", [ ("tumor", rg_record 90); ("normal", rg_record 80) ]);
    ("B", [ ("tumor", rg_record 70) ]) ].

(** Two documents with a read group of the same name. *)
Definition same_read_group : dict (dict metric_record) :=
  [ ("A", [ ("RG1", rg_record 90) ]); ("B", [ ("RG1", rg_record 80) ]) ].

(** The rows of a summary section whose record is [rg_record mapped]. *)
Definition summary_rows (section_label mapped : string) : list string :=
  rows section_label ""
    [ ("Number of duplicate marked reads", "0");
      ("Number of duplicate marked and mate reads removed", "0");
      ("Number of unique reads (excl. duplicate marked reads)", "100");
      ("Mapped reads", mapped);
      ("Total alignments", "0");
      ("Total bases", "0") ].

(** Two documents: [A normal], with a tumor phenotype and one without a
    word before [MAPPING], and then [A], with a normal phenotype. *)
Definition shadowing_files : list log_file :=
  [ document "A normal"
      (summary_rows "TUMOR MAPPING/ALIGNING SUMMARY" "1"
       ++ summary_rows "MAPPING/ALIGNING SUMMARY" "2")%list;
    document "A" (summary_rows "NORMAL MAPPING/ALIGNING SUMMARY" "3") ].

Definition shadowing_phenotypes : dict (dict metric_record) :=
  [ ("A normal", [ ("tumor", rg_record 1); ("mapping", rg_record 2) ]);
    ("A", [ ("normal", rg_record 3) ]) ].

(** A text of 4301 digits: one more than [int] converts. *)
Definition long_digits : string := PyStr.repeat 4301 "1".

(** Two files of the same name. *)
Definition same_name_files : list log_file :=
  [ rg_document "S" "RG1" "90"; rg_document "S" "RG1" "80" ].

(** A file that cannot be parsed, after one that can. *)
Definition unnamed_file : log_file := {| fn := "metrics.csv"; f_contents := "" |}.

Definition everything_ignored : string -> bool := fun _ => true.

End Examples.

(** The exception raised for the incomplete document of [entity] is read
    by [decode] as that entity. *)
Definition names_incomplete_entity (decode : exn -> string) (entity : string) : Prop :=
  forall e, parse_mapping_metrics_file (Examples.incomplete_document entity) = inl e ->
            decode e = entity.

(* ===================================================================== *)
(** * Properties *)
(* ===================================================================== *)

(** ** The error monad and its loops *)

Lemma bind_inr {A B : Type} (m : result A) (k : A -> result B) (y : B) :
  bind m k = inr y -> exists x, m = inr x /\ k x = inr y.
Proof.
  destruct m as [e | x]; simpl; intros H; [discriminate | eauto].
Qed.

Lemma bind_inl {A B : Type} (m : result A) (k : A -> result B) (e : exn) :
  bind m k = inl e -> m = inl e \/ exists x, m = inr x /\ k x = inl e.
Proof.
  destruct m as [e' | x]; simpl; intros H; [left; congruence | eauto].
Qed.

(** Decompose a successful [bind] found among the hypotheses. *)
Ltac bind_inv H :=
  let x := fresh "x" in
  let Hx := fresh "Hx" in
  apply bind_inr in H; destruct H as (x & Hx & H).

Lemma checked_result {A : Type} (r : result A) (check : A -> bool) :
  match r with inr x => check x | inl _ => false end = true ->
  exists x, r = inr x /\ check x = true.
Proof. destruct r as [e | x]; [discriminate | eauto]. Qed.

Lemma mapM_In {A B : Type} (body : A -> result B) (xs : list A) (ys : list B) :
  mapM body xs = inr ys ->
  forall y, In y ys -> exists x, In x xs /\ body x = inr y.
Proof.
  revert ys; induction xs as [| x xs IH]; simpl; intros ys H y Hy.
  - injection H as <-. contradiction.
  - bind_inv H. bind_inv H. injection H as <-.
    destruct Hy as [<- | Hy].
    + exists x; auto.
    + destruct (IH _ Hx0 _ Hy) as (x' & ? & ?). exists x'; auto.
Qed.

Lemma mapM_Forall2 {A B : Type} (body : A -> result B) (xs : list A) (ys : list B) :
  mapM body xs = inr ys -> Forall2 (fun x y => body x = inr y) xs ys.
Proof.
  revert ys; induction xs as [| x xs IH]; simpl; intros ys H.
  - injection H as <-. constructor.
  - bind_inv H. bind_inv H. injection H as <-. constructor; auto.
Qed.

Lemma mapM_fails {A B : Type} (body : A -> result B) (xs : list A) (x : A) :
  In x xs -> is_ok (body x) = false -> is_ok (mapM body xs) = false.
Proof.
  induction xs as [| x' xs IH]; simpl; intros Hin Hx; [contradiction |].
  destruct Hin as [-> | Hin].
  - destruct (body x); [reflexivity | discriminate].
  - destruct (body x'); [reflexivity |]. simpl.
    specialize (IH Hin Hx). destruct (mapM body xs); [reflexivity | discriminate].
Qed.

Lemma mapM_inl {A B : Type} (body : A -> result B) (xs : list A) (e : exn) :
  mapM body xs = inl e -> exists x, In x xs /\ body x = inl e.
Proof.
  induction xs as [| x xs IH]; simpl; intros H; [discriminate |].
  apply bind_inl in H. destruct H as [H | (y & Hy & H)].
  - exists x; auto.
  - apply bind_inl in H. destruct H as [H | (ys & _ & H)]; [| discriminate].
    destruct (IH H) as (x' & ? & ?). exists x'; auto.
Qed.

Lemma foldM_ext {A S : Type} (f g : A -> S -> result S) (xs : list A) (acc : S) :
  (forall x s, In x xs -> f x s = g x s) -> foldM f xs acc = foldM g xs acc.
Proof.
  revert acc; induction xs as [| x xs IH]; simpl; intros acc H; [reflexivity |].
  rewrite (H x acc) by auto. destruct (g x acc); simpl; auto.
Qed.

Lemma foldM_invariant {A S : Type} (body : A -> S -> result S) (P : S -> Prop)
  (xs : list A) :
  (forall x s s', In x xs -> P s -> body x s = inr s' -> P s') ->
  forall acc acc', P acc -> foldM body xs acc = inr acc' -> P acc'.
Proof.
  induction xs as [| x xs IH]; simpl; intros Hstep acc acc' Hacc H.
  - injection H as <-. assumption.
  - bind_inv H. apply (IH (fun y s s' Hy => Hstep y s s' (or_intror Hy)) x0 acc'); auto.
    apply (Hstep x acc x0); auto.
Qed.

(** ** Strings *)

Lemma length_append (s t : string) :
  String.length (s ++ t) = (String.length s + String.length t)%nat.
Proof. induction s as [| c s IH]; simpl; [reflexivity | now rewrite IH]. Qed.

Lemma append_assoc (s t u : string) : (s ++ t) ++ u = s ++ (t ++ u).
Proof. induction s as [| c s IH]; simpl; [reflexivity | now rewrite IH]. Qed.

Lemma append_nil_r (s : string) : s ++ "" = s.
Proof. induction s as [| c s IH]; simpl; [reflexivity | now rewrite IH]. Qed.

Lemma append_neq_self (s t : string) : t <> "" -> s ++ t <> s.
Proof.
  intros Ht H. apply (f_equal String.length) in H. rewrite length_append in H.
  destruct t; [congruence | simpl in H; lia].
Qed.

Lemma append_inv_tail (s s' t : string) : s ++ t = s' ++ t -> s = s'.
Proof.
  revert s'; induction s as [| c s IH]; intros [| c' s'] H; simpl in H.
  - reflexivity.
  - exfalso. apply (f_equal String.length) in H. simpl in H.
    rewrite length_append in H. lia.
  - exfalso. apply (f_equal String.length) in H. simpl in H.
    rewrite length_append in H. lia.
  - injection H as -> H. f_equal. auto.
Qed.

(** ** Dictionaries *)

Section DictFacts.
Context {V : Type}.
Implicit Types (d : dict V) (k : string) (v : V).

Lemma dict_get_set k k' v d :
  dict_get k (dict_set k' v d) = if String.eqb k' k then Some v else dict_get k d.
Proof.
  induction d as [| [k0 v0] d IH]; simpl.
  - destruct (String.eqb_spec k' k); reflexivity.
  - destruct (String.eqb_spec k0 k') as [-> | Hne]; simpl.
    + destruct (String.eqb_spec k' k); reflexivity.
    + rewrite IH. destruct (String.eqb_spec k0 k) as [-> | ?]; [| reflexivity].
      destruct (String.eqb_spec k' k); congruence.
Qed.

Lemma dict_get_set_eq k v d : dict_get k (dict_set k v d) = Some v.
Proof. rewrite dict_get_set, String.eqb_refl. reflexivity. Qed.

Lemma dict_get_set_neq k k' v d :
  k' <> k -> dict_get k (dict_set k' v d) = dict_get k d.
Proof.
  intros H. rewrite dict_get_set. apply String.eqb_neq in H. now rewrite H.
Qed.

Lemma dict_get_In k v d : dict_get k d = Some v -> In (k, v) d.
Proof.
  induction d as [| [k0 v0] d IH]; simpl; [discriminate |].
  destruct (String.eqb_spec k0 k) as [-> | ?]; intros H.
  - injection H as ->. auto.
  - auto.
Qed.

Lemma dict_get_None k d : dict_get k d = None <-> ~ In k (keys d).
Proof.
  induction d as [| [k0 v0] d IH]; simpl.
  - tauto.
  - destruct (String.eqb_spec k0 k) as [-> | ?].
    + split; [discriminate | tauto].
    + rewrite IH. tauto.
Qed.

Lemma In_dict_get k v d : dict_wf d -> In (k, v) d -> dict_get k d = Some v.
Proof.
  unfold dict_wf. induction d as [| [k0 v0] d IH]; simpl; [contradiction |].
  intros Hwf [H | H].
  - injection H as -> ->. now rewrite String.eqb_refl.
  - inversion Hwf as [| ? ? Hnot Hwf']; subst.
    destruct (String.eqb_spec k0 k) as [-> | ?]; [| auto].
    exfalso. apply Hnot. apply (in_map fst) in H. exact H.
Qed.

Lemma dict_mem_true k d : dict_mem k d = true <-> In k (keys d).
Proof.
  unfold dict_mem. destruct (dict_get k d) eqn:E.
  - split; [intros _ | reflexivity].
    apply dict_get_In in E. apply (in_map fst) in E. exact E.
  - apply dict_get_None in E. split; [discriminate | contradiction].
Qed.

Lemma dict_mem_false k d : dict_mem k d = false <-> ~ In k (keys d).
Proof.
  rewrite <- dict_mem_true. destruct (dict_mem k d); split; congruence.
Qed.

Lemma dict_set_fresh k v d : ~ In k (keys d) -> dict_set k v d = (d ++ [(k, v)])%list.
Proof.
  induction d as [| [k0 v0] d IH]; simpl; intros H; [reflexivity |].
  destruct (String.eqb_spec k0 k) as [-> | ?]; [tauto |].
  rewrite IH by tauto. reflexivity.
Qed.

Lemma keys_dict_set k v d :
  keys (dict_set k v d) = if dict_mem k d then keys d else (keys d ++ [k])%list.
Proof.
  unfold dict_mem. induction d as [| [k0 v0] d IH]; simpl; [reflexivity |].
  destruct (String.eqb_spec k0 k) as [-> | ?]; simpl; [reflexivity |].
  rewrite IH. destruct (dict_get k d); reflexivity.
Qed.

Lemma In_keys_dict_set k k' v d :
  In k (keys (dict_set k' v d)) <-> k = k' \/ In k (keys d).
Proof.
  rewrite keys_dict_set. destruct (dict_mem k' d) eqn:E.
  - apply dict_mem_true in E. split; [auto | intros [-> | ?]; auto].
  - rewrite in_app_iff. simpl. intuition.
Qed.

Lemma dict_wf_set k v d : dict_wf d -> dict_wf (dict_set k v d).
Proof.
  unfold dict_wf. rewrite keys_dict_set. destruct (dict_mem k d) eqn:E; [auto |].
  apply dict_mem_false in E. intros H.
  apply NoDup_rev in H. rewrite <- (rev_involutive (keys d ++ [k])).
  apply NoDup_rev. rewrite rev_app_distr. simpl. constructor; [| assumption].
  rewrite <- in_rev. assumption.
Qed.

Lemma In_dict_set k v k' v' d :
  In (k, v) (dict_set k' v' d) -> (k = k' /\ v = v') \/ In (k, v) d.
Proof.
  induction d as [| [k0 v0] d IH]; simpl.
  - intros [H | []]. injection H as <- <-. auto.
  - destruct (String.eqb_spec k0 k') as [-> | ?]; simpl; intros [H | H].
    + injection H as <- <-. auto.
    + auto.
    + auto.
    + destruct (IH H); auto.
Qed.

(** [del] fails exactly on an absent key, and names it. *)
Lemma dict_del_inl k d e : dict_del k d = inl e -> e = KeyError k /\ dict_get k d = None.
Proof.
  induction d as [| [k0 v0] d IH]; simpl.
  - intros H. injection H as <-. auto.
  - destruct (String.eqb_spec k0 k) as [-> | ?]; [discriminate |].
    intros H. apply bind_inl in H. destruct H as [H | (? & _ & H)]; [auto | discriminate].
Qed.

Lemma dict_del_absent k d : dict_get k d = None -> dict_del k d = inl (KeyError k).
Proof.
  induction d as [| [k0 v0] d IH]; simpl; [reflexivity |].
  destruct (String.eqb_spec k0 k) as [-> | ?]; [discriminate |].
  intros H. rewrite (IH H). reflexivity.
Qed.

Lemma dict_get_del_other k k' d d' :
  dict_del k' d = inr d' -> k' <> k -> dict_get k d' = dict_get k d.
Proof.
  revert d'; induction d as [| [k0 v0] d IH]; simpl; intros d' H Hne; [discriminate |].
  destruct (String.eqb_spec k0 k') as [-> | ?].
  - injection H as <-. apply String.eqb_neq in Hne. now rewrite Hne.
  - bind_inv H. injection H as <-. simpl. rewrite (IH _ Hx Hne). reflexivity.
Qed.

Lemma keys_dict_del k d d' :
  dict_del k d = inr d' -> forall k', In k' (keys d') -> In k' (keys d).
Proof.
  revert d'; induction d as [| [k0 v0] d IH]; simpl; intros d' H k' Hin; [discriminate |].
  destruct (String.eqb_spec k0 k) as [-> | ?].
  - injection H as <-. auto.
  - bind_inv H. injection H as <-. simpl in Hin. destruct Hin; eauto.
Qed.

Lemma dict_get_del_same k d d' :
  dict_wf d -> dict_del k d = inr d' -> dict_get k d' = None.
Proof.
  unfold dict_wf.
  revert d'; induction d as [| [k0 v0] d IH]; simpl; intros d' Hwf H; [discriminate |].
  inversion Hwf as [| ? ? Hnot Hwf']; subst.
  destruct (String.eqb_spec k0 k) as [-> | Hne].
  - injection H as <-. apply dict_get_None. assumption.
  - bind_inv H. injection H as <-. simpl.
    apply String.eqb_neq in Hne. rewrite Hne. auto.
Qed.

Lemma dict_wf_del k d d' : dict_wf d -> dict_del k d = inr d' -> dict_wf d'.
Proof.
  unfold dict_wf.
  revert d'; induction d as [| [k0 v0] d IH]; simpl; intros d' Hwf H; [discriminate |].
  inversion Hwf as [| ? ? Hnot Hwf']; subst.
  destruct (String.eqb_spec k0 k) as [-> | Hne].
  - injection H as <-. assumption.
  - bind_inv H. injection H as <-. simpl. constructor; [| eauto].
    intros Hin. apply Hnot. eapply keys_dict_del; eauto.
Qed.

End DictFacts.

Lemma dict_get_dd_update {V : Type} (k k' : string) (f : dict V -> dict V)
  (d : dict (dict V)) :
  dict_get k (dd_update k' f d)
  = if String.eqb k' k then Some (f (or_empty (dict_get k' d))) else dict_get k d.
Proof. unfold dd_update. apply dict_get_set. Qed.

Lemma dd_update_wf {V : Type} (k : string) (f : dict V -> dict V) (d : dict (dict V)) :
  dict_wf d -> dict_wf (dd_update k f d).
Proof. unfold dd_update. apply dict_wf_set. Qed.

(* ===================================================================== *)
(** ** The chart projections reconcile (C4) *)
(* ===================================================================== *)

Section ChartFacts.
Context {PF : PyFloat}.

Lemma getitem_inr {V : Type} (k : string) (d : dict V) (v : V) :
  getitem k d = inr v <-> dict_get k d = Some v.
Proof.
  unfold getitem, of_option, ret, raise. destruct (dict_get k d); split; congruence.
Qed.

Lemma getitem_inl {V : Type} (k : string) (d : dict V) (e : exn) :
  getitem k d = inl e <-> e = KeyError k /\ dict_get k d = None.
Proof.
  unfold getitem, of_option, ret, raise. destruct (dict_get k d); split.
  - discriminate.
  - intros [_ ?]; discriminate.
  - intros H; injection H as <-; auto.
  - intros [-> _]; reflexivity.
Qed.

Lemma dup_sum_equality (r : metric_record) (s total : value) :
  dup_sum r = inr s -> getitem "Total reads in RG" r = inr total ->
  dup_equality r (py_eq s total).
Proof.
  unfold dup_sum. intros H Ht.
  bind_inv H. bind_inv H. bind_inv H. bind_inv H.
  apply getitem_inr in Hx, Hx0, Hx2, Ht.
  exists x, x0, x2, total, x1, s. auto 10.
Qed.

(** One invariant serves both views. *)
Lemma chart_loop (sum : metric_record -> result value) (warning : string -> string)
  (data : dict metric_record) :
  forall chart0 log0 chart log,
    foldM (chart_step sum warning) data (chart0, log0) = inr (chart, log) ->
    (forall id r, In (id, r) chart ->
       In (id, r) chart0
       \/ (In (id, r) data
           /\ exists s total, sum r = inr s /\ getitem "Total reads in RG" r = inr total
                              /\ py_eq s total = true))
    /\ (forall id r, In (id, r) data -> dict_get id chart = None ->
          (exists s total, sum r = inr s /\ getitem "Total reads in RG" r = inr total
                           /\ py_eq s total = false)
          /\ In (WARNING, warning id) log)
    /\ (forall id, In id (keys chart0) -> In id (keys chart))
    /\ (forall e, In e log0 -> In e log).
Proof.
  induction data as [| [id0 r0] data IH]; simpl; intros chart0 log0 chart log H.
  - injection H as <- <-. split; [auto | split; [contradiction | auto]].
  - bind_inv H. destruct x as [chart1 log1].
    bind_inv Hx. bind_inv Hx. unfold py_ne in Hx.
    destruct (IH _ _ _ _ H) as (Hin & Hout & Hkeys & Hlog).
    destruct (py_eq x x0) eqn:Heq; simpl in Hx; injection Hx as <- <-.
    + split; [| split; [| split]].
      * intros id r Hr. destruct (Hin id r Hr) as [Hr' | [Hr' Hs]]; [| right; auto].
        apply In_dict_set in Hr'. destruct Hr' as [[-> ->] | Hr']; [| auto].
        right. split; [auto |]. exists x, x0. auto.
      * intros id r [Hr | Hr] Hnone; [| auto].
        injection Hr as <- <-. exfalso.
        apply dict_get_None in Hnone. apply Hnone, Hkeys.
        apply In_keys_dict_set. auto.
      * intros id Hid. apply Hkeys, In_keys_dict_set. auto.
      * assumption.
    + split; [| split; [| split]].
      * intros id r Hr. destruct (Hin id r Hr) as [Hr' | [Hr' Hs]]; auto.
      * intros id r [Hr | Hr] Hnone; [| auto].
        injection Hr as <- <-. split.
        -- exists x, x0. auto.
        -- apply Hlog, in_or_app. right. left. reflexivity.
      * assumption.
      * intros e He. apply Hlog, in_or_app. auto.
Qed.

(** C4.  When [__map_dup_read_chart] returns, every entity of its output
    is an entity of its input whose unique-and-mapped, duplicate-marked and
    unmapped reads add up to [Total reads in RG] (for integer counts, as an
    equation between integers); and for every entity of the input that the
    output lacks, the equality is false and a warning has been logged whose
    text is the module's message followed by the name of the entity. *)
Theorem dup_chart_reconciliation (data chart : dict metric_record) (log : list log_entry) :
  map_dup_read_chart data = inr (chart, log) ->
  (forall id r, In (id, r) chart -> In (id, r) data /\ dup_equality r true)
  /\ (forall id r a b c total, In (id, r) chart ->
        dict_get "Number of unique & mapped reads (excl. duplicate marked reads)" r
        = Some (VInt a) ->
        dict_get "Number of duplicate marked reads" r = Some (VInt b) ->
        dict_get "Unmapped reads" r = Some (VInt c) ->
        dict_get "Total reads in RG" r = Some (VInt total) ->
        a + b + c = total)
  /\ (forall id r, In (id, r) data -> dict_get id chart = None ->
        dup_equality r false
        /\ In (WARNING,
               "sum of unique/duplicate/unmapped reads not matching total, skipping mapping/duplicates percentages plot for: "
               ++ id) log).
Proof.
  intros H. apply chart_loop in H. destruct H as (Hin & Hout & _ & _).
  assert (Hsound : forall id r, In (id, r) chart -> In (id, r) data /\ dup_equality r true).
  { intros id r Hr. destruct (Hin id r Hr) as [[] | (Hd & s & total & Hs & Ht & Heq)].
    split; [assumption |]. rewrite <- Heq. apply dup_sum_equality; assumption. }
  split; [exact Hsound | split].
  - intros id r a b c total Hr Ha Hb Hc Ht.
    destruct (Hsound id r Hr) as (_ & a' & b' & c' & t' & ab & s & Ha' & Hb' & Hc' & Ht' & Hab & Hs & Heq).
    rewrite Ha in Ha'. rewrite Hb in Hb'. rewrite Hc in Hc'. rewrite Ht in Ht'.
    injection Ha' as <-. injection Hb' as <-. injection Hc' as <-. injection Ht' as <-.
    simpl in Hab. injection Hab as <-. simpl in Hs. injection Hs as <-.
    simpl in Heq. apply Z.eqb_eq in Heq. exact Heq.
  - intros id r Hr Hnone.
    destruct (Hout id r Hr Hnone) as ((s & total & Hs & Ht & Heq) & Hw).
    split; [| exact Hw]. rewrite <- Heq. apply dup_sum_equality; assumption.
Qed.

End ChartFacts.

Lemma dup_chart_reconciliation_witness :
  map_dup_read_chart Examples.two_read_groups
  = inr ([("RG1", Examples.read_counts 100 80 10 10)],
         [(WARNING,
           "sum of unique/duplicate/unmapped reads not matching total, skipping mapping/duplicates percentages plot for: RG2")])
  /\ dup_equality (Examples.read_counts 100 80 10 10) true
  /\ dup_equality (Examples.read_counts 100 80 10 5) false
  /\ In (WARNING,
         "sum of unique/duplicate/unmapped reads not matching total, skipping mapping/duplicates percentages plot for: "
         ++ "RG2")
        [(WARNING,
          "sum of unique/duplicate/unmapped reads not matching total, skipping mapping/duplicates percentages plot for: RG2")].
Proof.
  assert (H : map_dup_read_chart Examples.two_read_groups
              = inr ([("RG1", Examples.read_counts 100 80 10 10)],
                     [(WARNING,
                       "sum of unique/duplicate/unmapped reads not matching total, skipping mapping/duplicates percentages plot for: RG2")]))
    by reflexivity.
  split; [exact H |].
  destruct (dup_chart_reconciliation _ _ _ H) as (Hin & _ & Hout).
  split; [| split].
  - apply (Hin "RG1"). left. reflexivity.
  - apply (Hout "RG2"); [right; left; reflexivity | reflexivity].
  - apply (Hout "RG2" (Examples.read_counts 100 80 10 5));
      [right; left; reflexivity | reflexivity].
Defined.

(* ===================================================================== *)
(** ** The post-parse fix-ups (C7, C8) *)
(* ===================================================================== *)

Section FixupFacts.
Context {PF : PyFloat}.

Lemma preserves_refl (targets : list string) (d : metric_record) : preserves targets d d.
Proof. intros k _. reflexivity. Qed.

Lemma preserves_set (key : string) (v : value) (d : metric_record) :
  preserves [key] d (dict_set key v d).
Proof.
  intros k Hk. simpl in Hk. rewrite orb_false_r in Hk.
  apply dict_get_set_neq. apply String.eqb_neq in Hk. congruence.
Qed.

Lemma py_eq_NA (v : value) : py_eq v NA = true <-> v = NA.
Proof.
  unfold NA. destruct v; simpl; try (split; [discriminate | congruence]).
  rewrite String.eqb_eq. split; congruence.
Qed.

(** *** What a step that returns has done *)

Lemma zero_if_na_inr (k : string) (d d' : metric_record) :
  zero_if_na k d = inr d' ->
  preserves [k] d d'
  /\ exists v, dict_get k d = Some v
               /\ dict_get k d' = Some (if py_eq v NA then VInt 0 else v).
Proof.
  unfold zero_if_na. intros H. bind_inv H. apply getitem_inr in Hx.
  injection H as <-. destruct (py_eq x NA) eqn:E.
  - split; [apply preserves_set |]. exists x. now rewrite E, dict_get_set_eq.
  - split; [apply preserves_refl |]. exists x. now rewrite E.
Qed.

Lemma copy_if_na_inr (k source : string) (d d' : metric_record) :
  copy_if_na k source d = inr d' ->
  preserves [k] d d'
  /\ exists v, dict_get k d = Some v
               /\ if py_eq v NA
                  then exists x, dict_get source d = Some x /\ dict_get k d' = Some x
                  else dict_get k d' = Some v.
Proof.
  unfold copy_if_na. intros H. bind_inv H. apply getitem_inr in Hx.
  destruct (py_eq x NA) eqn:E.
  - bind_inv H. apply getitem_inr in Hx0. injection H as <-.
    split; [apply preserves_set |]. exists x. rewrite E, dict_get_set_eq. eauto.
  - injection H as <-. split; [apply preserves_refl |]. exists x. now rewrite E.
Qed.

Lemma add_pct_inr (key numerator denominator : string) (d d' : metric_record) :
  add_pct key numerator denominator d = inr d' ->
  preserves [key] d d'
  /\ exists pct, derived_pct numerator denominator d pct /\ dict_get key d' = Some pct.
Proof.
  unfold add_pct. intros H. repeat bind_inv H.
  apply getitem_inr in Hx, Hx0. injection H as <-.
  split; [apply preserves_set |].
  exists x2. split; [exists x, x0, x1; auto | apply dict_get_set_eq].
Qed.

Lemma if_positive_inr (metric : string)
  (body : metric_record -> result metric_record) (d d' : metric_record) :
  if_positive metric body d = inr d' ->
  exists v positive,
    dict_get metric d = Some v /\ py_gt v (VInt 0) = inr positive
    /\ if positive : bool then body d = inr d' else d' = d.
Proof.
  unfold if_positive. intros H. repeat bind_inv H. apply getitem_inr in Hx.
  exists x, x0. repeat split; auto. destruct x0; [assumption | now injection H].
Qed.

(** Carry a lookup back across the steps that preserve its key. *)
Ltac carry_back :=
  repeat match goal with
  | P : preserves _ ?d ?d' |- context [dict_get ?k ?d'] => rewrite (P k eq_refl)
  | P : preserves _ ?d ?d', H : context [dict_get ?k ?d'] |- _ =>
      rewrite (P k eq_refl) in H
  end.

Ltac same_lookup :=
  repeat match goal with
  | H : dict_get ?k ?r = Some ?a, H' : dict_get ?k ?r = Some ?b |- _ =>
      rewrite H in H'; injection H' as <-
  end.

Lemma fixup_record_inr (r r' : metric_record) :
  fixup_record r = inr r' ->
  fixed_up r r' /\ Forall (fun k => dict_get k r <> None) always_read.
Proof.
  unfold fixup_record. intros H.
  apply bind_inr in H. destruct H as (d1 & H1 & H).
  apply bind_inr in H. destruct H as (d2 & H2 & H).
  apply bind_inr in H. destruct H as (d3 & H3 & H).
  apply bind_inr in H. destruct H as (d4 & H4 & H).
  apply zero_if_na_inr in H1. destruct H1 as (P1 & v1 & G1 & S1).
  apply zero_if_na_inr in H2. destruct H2 as (P2 & v2 & G2 & S2).
  apply copy_if_na_inr in H3. destruct H3 as (P3 & v3 & G3 & S3).
  apply if_positive_inr in H4. destruct H4 as (v4 & b4 & G4 & T4 & S4).
  apply if_positive_inr in H. destruct H as (v5 & b5 & G5 & T5 & S5).
  assert (P4 : preserves ["Secondary alignments pct"] d3 d4).
  { destruct b4; [apply add_pct_inr in S4; tauto | subst d4; apply preserves_refl]. }
  assert (P5 : preserves ["Q30 bases (excl. dups & clipped bases) pct";
                          "Mapped bases R1 pct"; "Mapped bases R2 pct"] d4 r'
               /\ (b5 = true ->
                   (exists pct,
                      derived_pct "Q30 bases (excl. dups & clipped bases)" "Total bases" d4 pct
                      /\ dict_get "Q30 bases (excl. dups & clipped bases) pct" r' = Some pct)
                   /\ (exists pct,
                         derived_pct "Mapped bases R1" "Total bases" d4 pct
                         /\ dict_get "Mapped bases R1 pct" r' = Some pct)
                   /\ (exists pct,
                         derived_pct "Mapped bases R2" "Total bases" d4 pct
                         /\ dict_get "Mapped bases R2 pct" r' = Some pct))).
  { destruct b5; [| subst r'; split; [apply preserves_refl | discriminate]].
    apply bind_inr in S5. destruct S5 as (e1 & E1 & S5).
    apply bind_inr in S5. destruct S5 as (e2 & E2 & E3).
    apply add_pct_inr in E1, E2, E3.
    destruct E1 as (Q1 & p1 & D1 & L1), E2 as (Q2 & p2 & D2 & L2),
             E3 as (Q3 & p3 & D3 & L3).
    split.
    - intros k Hk. simpl in Hk. rewrite orb_false_r in Hk.
      apply orb_false_elim in Hk. destruct Hk as [Hk1 Hk].
      apply orb_false_elim in Hk. destruct Hk as [Hk2 Hk3].
      rewrite (Q3 k), (Q2 k), (Q1 k); simpl; rewrite ?orb_false_r; auto.
    - intros _. unfold derived_pct in *. carry_back. eauto 10. }
  destruct P5 as (P5 & S5').
  assert (Hne : forall v, v <> NA -> py_eq v NA = false).
  { intros v Hv. destruct (py_eq v NA) eqn:E; [| reflexivity].
    apply py_eq_NA in E. contradiction. }
  split.
  - unfold fixed_up, defaults_to_zero, holds_pct, kept.
    split; [| split; [| split; [| split; [| split; [| split; [| split; [| split]]]]]]].
    + split.
      * intros Hna. carry_back. same_lookup. rewrite S1. reflexivity.
      * intros v Hv Hv'. carry_back. same_lookup. rewrite S1, (Hne _ Hv'). reflexivity.
    + split.
      * intros Hna. carry_back. same_lookup. rewrite S2. reflexivity.
      * intros v Hv Hv'. carry_back. same_lookup. rewrite S2, (Hne _ Hv'). reflexivity.
    + intros Hna. carry_back. same_lookup. simpl in S3. carry_back. exact S3.
    + intros v Hv Hv'. carry_back. same_lookup. rewrite (Hne _ Hv') in S3. exact S3.
    + intros total Ht Hpos. carry_back. same_lookup.
      rewrite Hpos in T4. injection T4 as <-.
      apply add_pct_inr in S4. destruct S4 as (_ & pct & D & L).
      exists pct. unfold derived_pct in *. carry_back. auto.
    + intros total Ht Hpos. carry_back. same_lookup.
      rewrite Hpos in T4. injection T4 as <-. subst d4. carry_back. reflexivity.
    + intros total Ht Hpos. carry_back. same_lookup.
      rewrite Hpos in T5. injection T5 as <-.
      destruct (S5' eq_refl) as (A & B & C).
      unfold derived_pct in *. carry_back. auto.
    + intros total Ht Hpos. carry_back. same_lookup.
      rewrite Hpos in T5. injection T5 as <-. subst r'. carry_back. auto.
    + intros k Hk. simpl in Hk. rewrite orb_false_r in Hk.
      repeat (apply orb_false_elim in Hk; destruct Hk as [? Hk]).
      rewrite (P5 k), (P4 k), (P3 k), (P2 k), (P1 k); simpl;
        repeat match goal with
               | E : String.eqb k _ = false |- _ => rewrite E
               end; reflexivity.
  - unfold always_read. carry_back. repeat constructor; congruence.
Qed.

(** *** What a step that raises has met *)

Lemma py_gt_inl (a b : value) (e : exn) : py_gt a b = inl e -> e = TypeError.
Proof. destruct a, b; simpl; unfold ret, raise; congruence. Qed.

Lemma to_float_inl (z : Z) (e : exn) : to_float z = inl e -> e = OverflowError.
Proof.
  unfold to_float, of_option, ret, raise. destruct (F_of_Z z); congruence.
Qed.

Lemma py_truediv_inl (a b : value) (e : exn) :
  py_truediv a b = inl e -> forall k, e <> KeyError k.
Proof.
  intros H k ->. destruct a, b; simpl in H;
    repeat match type of H with
    | (if ?c then _ else _) = _ => destruct c
    | bind ?m _ = _ => let E := fresh in destruct m eqn:E; simpl in H;
                       [try apply to_float_inl in E |]
    | of_option _ ?o = _ => destruct o; simpl in H
    end; unfold ret, raise, of_option in *;
    try discriminate; try congruence.
  all: destruct (Z_truediv z z0); unfold ret, raise in *; congruence.
Qed.

Lemma py_mul_inl (a b : value) (e : exn) :
  py_mul a b = inl e -> forall k, e <> KeyError k.
Proof.
  intros H k ->. destruct a, b; simpl in H;
    repeat match type of H with
    | bind ?m _ = _ => let E := fresh in destruct m eqn:E; simpl in H;
                       [try apply to_float_inl in E |]
    end; unfold ret, raise in *; try discriminate; try congruence.
Qed.

Lemma getitem_key_error (k : string) (d : metric_record) (e : exn) :
  getitem k d = inl e -> key_error_from [k] d e.
Proof.
  intros H k' ->. apply getitem_inl in H. destruct H as [H ?].
  injection H as ->. simpl. auto.
Qed.

Lemma key_error_from_weaken (reads reads' : list string) (d d' : metric_record) (e : exn) :
  key_error_from reads d e ->
  (forall k, In k reads -> In k reads' /\ dict_get k d' = dict_get k d) ->
  key_error_from reads' d' e.
Proof.
  intros H Hsub k Hk. destruct (H k Hk) as [Hin Hnone].
  destruct (Hsub k Hin) as [? ->]. auto.
Qed.

Lemma zero_if_na_inl (k : string) (d : metric_record) (e : exn) :
  zero_if_na k d = inl e -> key_error_from [k] d e.
Proof.
  unfold zero_if_na. intros H. apply bind_inl in H.
  destruct H as [H | (? & _ & H)]; [now apply getitem_key_error | discriminate].
Qed.

Lemma copy_if_na_inl (k source : string) (d : metric_record) (e : exn) :
  copy_if_na k source d = inl e -> key_error_from [k; source] d e.
Proof.
  unfold copy_if_na. intros H. apply bind_inl in H.
  destruct H as [H | (v & _ & H)].
  - apply getitem_key_error in H. intros k' Hk. destruct (H k' Hk) as [[<- | []] ?].
    simpl; auto.
  - destruct (py_eq v NA); [| discriminate].
    apply bind_inl in H. destruct H as [H | (? & _ & H)]; [| discriminate].
    apply getitem_key_error in H. intros k' Hk. destruct (H k' Hk) as [[<- | []] ?].
    simpl; auto.
Qed.

Lemma add_pct_inl (key numerator denominator : string) (d : metric_record) (e : exn) :
  add_pct key numerator denominator d = inl e ->
  key_error_from [numerator; denominator] d e.
Proof.
  unfold add_pct. intros H.
  apply bind_inl in H. destruct H as [H | (n & _ & H)].
  { apply getitem_key_error in H. intros k' Hk. destruct (H k' Hk) as [[<- | []] ?].
    simpl; auto. }
  apply bind_inl in H. destruct H as [H | (dn & _ & H)].
  { apply getitem_key_error in H. intros k' Hk. destruct (H k' Hk) as [[<- | []] ?].
    simpl; auto. }
  apply bind_inl in H. destruct H as [H | (ratio & _ & H)].
  { intros k' Hk. exfalso. exact (py_truediv_inl _ _ _ H k' Hk). }
  apply bind_inl in H. destruct H as [H | (? & _ & H)]; [| discriminate].
  intros k' Hk. exfalso. exact (py_mul_inl _ _ _ H k' Hk).
Qed.

Lemma if_positive_inl (metric : string)
  (body : metric_record -> result metric_record) (d : metric_record) (e : exn) :
  if_positive metric body d = inl e ->
  key_error_from [metric] d e \/ body d = inl e.
Proof.
  unfold if_positive. intros H.
  apply bind_inl in H. destruct H as [H | (v & _ & H)].
  { left. now apply getitem_key_error. }
  apply bind_inl in H. destruct H as [H | (b & _ & H)].
  { left. intros k' ->. apply py_gt_inl in H. discriminate. }
  destruct b; [right; assumption | discriminate].
Qed.

Ltac in_reads := simpl; repeat (first [left; reflexivity | right]).

Lemma fixup_record_inl (r : metric_record) (e : exn) :
  fixup_record r = inl e -> key_error_from fixup_reads r e.
Proof.
  unfold fixup_record. intros H.
  apply bind_inl in H. destruct H as [H | (d1 & H1 & H)].
  { apply zero_if_na_inl in H. eapply key_error_from_weaken; [exact H |].
    intros k [<- | []]. split; [in_reads | reflexivity]. }
  apply zero_if_na_inr in H1. destruct H1 as (P1 & _).
  apply bind_inl in H. destruct H as [H | (d2 & H2 & H)].
  { apply zero_if_na_inl in H. eapply key_error_from_weaken; [exact H |].
    intros k [<- | []]. split; [in_reads | carry_back; reflexivity]. }
  apply zero_if_na_inr in H2. destruct H2 as (P2 & _).
  apply bind_inl in H. destruct H as [H | (d3 & H3 & H)].
  { apply copy_if_na_inl in H. eapply key_error_from_weaken; [exact H |].
    intros k [<- | [<- | []]]; (split; [in_reads | carry_back; reflexivity]). }
  apply copy_if_na_inr in H3. destruct H3 as (P3 & _).
  apply bind_inl in H. destruct H as [H | (d4 & H4 & H)].
  { apply if_positive_inl in H. destruct H as [H | H].
    - eapply key_error_from_weaken; [exact H |].
      intros k [<- | []]. split; [in_reads | carry_back; reflexivity].
    - apply add_pct_inl in H. eapply key_error_from_weaken; [exact H |].
      intros k [<- | [<- | []]]; (split; [in_reads | carry_back; reflexivity]). }
  assert (P4 : preserves ["Secondary alignments pct"] d3 d4).
  { apply if_positive_inr in H4. destruct H4 as (? & b & _ & _ & S4).
    destruct b; [apply add_pct_inr in S4; tauto | subst d4; apply preserves_refl]. }
  apply if_positive_inl in H. destruct H as [H | H].
  { eapply key_error_from_weaken; [exact H |].
    intros k [<- | []]. split; [in_reads | carry_back; reflexivity]. }
  apply bind_inl in H. destruct H as [H | (e1 & E1 & H)].
  { apply add_pct_inl in H. eapply key_error_from_weaken; [exact H |].
    intros k [<- | [<- | []]]; (split; [in_reads | carry_back; reflexivity]). }
  apply add_pct_inr in E1. destruct E1 as (Q1 & _).
  apply bind_inl in H. destruct H as [H | (e2 & E2 & H)].
  { apply add_pct_inl in H. eapply key_error_from_weaken; [exact H |].
    intros k [<- | [<- | []]]; (split; [in_reads | carry_back; reflexivity]). }
  apply add_pct_inr in E2. destruct E2 as (Q2 & _).
  apply add_pct_inl in H. eapply key_error_from_weaken; [exact H |].
  intros k [<- | [<- | []]]; (split; [in_reads | carry_back; reflexivity]).
Qed.

Lemma fixup_record_needs (r : metric_record) (m : string) :
  needed r m -> dict_get m r = None -> is_ok (fixup_record r) = false.
Proof.
  intros Hneed Hnone. destruct (fixup_record r) as [e | r'] eqn:E; [reflexivity |].
  exfalso. apply fixup_record_inr in E.
  destruct E as ((_ & _ & U & _ & A & _ & B & _) & Hall).
  destruct Hneed as [Hin | [[-> Hna] | [[-> (total & Ht & Hpos)] | [Hin (total & Ht & Hpos)]]]].
  - rewrite Forall_forall in Hall. exact (Hall m Hin Hnone).
  - destruct (U Hna) as (? & ? & _). congruence.
  - destruct (A total Ht Hpos) as (? & (? & ? & ? & ? & _) & _). congruence.
  - destruct (B total Ht Hpos)
      as ((? & (? & ? & ? & ? & _) & _) & (? & (? & ? & ? & ? & _) & _)
          & (? & (? & ? & ? & ? & _) & _)).
    destruct Hin as [<- | [<- | [<- | []]]]; congruence.
Qed.

(** *** The whole document *)

Lemma fixup_all_inr (raw fixed : dict metric_record) :
  fixup_all raw = inr fixed ->
  Forall2 (fun x y => fst y = fst x /\ fixup_record (snd x) = inr (snd y)) raw fixed.
Proof.
  unfold fixup_all. intros H. apply mapM_Forall2 in H.
  induction H as [| [e r] [e' r'] raw fixed H _ IH]; constructor; [| exact IH].
  bind_inv H. injection H as <- <-. auto.
Qed.

Lemma fixup_all_inl (raw : dict metric_record) (e : exn) :
  fixup_all raw = inl e ->
  exists entity r, In (entity, r) raw /\ fixup_record r = inl e.
Proof.
  unfold fixup_all. intros H. apply mapM_inl in H. destruct H as ([entity r] & Hin & H).
  exists entity, r. split; [assumption |].
  destruct (fixup_record r); [simpl in H; congruence | discriminate].
Qed.

Lemma fixup_all_fails (raw : dict metric_record) (entity : string) (r : metric_record) :
  In (entity, r) raw -> is_ok (fixup_record r) = false -> is_ok (fixup_all raw) = false.
Proof.
  intros Hin Hr. unfold fixup_all. eapply mapM_fails; [exact Hin |].
  simpl. destruct (fixup_record r); [reflexivity | discriminate].
Qed.

End FixupFacts.

(* ===================================================================== *)
(** ** The record parser: theorems for C7 and C8 *)
(* ===================================================================== *)

Section ParserTheorems.
Context {PF : PyFloat}.

Lemma parse_mapping_metrics_file_inr (f : log_file) (s_name : string)
  (rgs phs : dict metric_record) :
  parse_mapping_metrics_file f = inr (s_name, rgs, phs) ->
  exists raw_rg raw_ph,
    re_search_group (fn f) = Some s_name
    /\ parse_lines (f_contents f) = inr (raw_rg, raw_ph)
    /\ fixup_all raw_rg = inr rgs /\ fixup_all raw_ph = inr phs.
Proof.
  unfold parse_mapping_metrics_file. intros H.
  bind_inv H. bind_inv H. destruct x0 as [raw_rg raw_ph].
  bind_inv H. bind_inv H. injection H as <- <- <-.
  exists raw_rg, raw_ph. repeat split; auto.
  destruct (re_search_group (fn f)); [now injection Hx as -> | discriminate].
Qed.

(** C7.  Every record that the parser returns, for a read group or for a
    phenotype, is the record read from the rows with the fix-ups applied:
    an unavailable duplicate-marked count and an unavailable
    duplicate-and-mate-removed count have become zero, an unavailable
    unique-read count has become the record's [Mapped reads], a positive
    [Total alignments] has added [Secondary alignments pct] as
    secondary / total * 100, and a positive [Total bases] has added the
    three base percentages, each as count / total bases * 100.  A count
    that is available is kept, a total that is not positive adds no
    percentage, and the fix-ups change no other metric. *)
Theorem fixups_on_every_record (f : log_file) (s_name : string)
  (rgs phs : dict metric_record) :
  parse_mapping_metrics_file f = inr (s_name, rgs, phs) ->
  exists raw_rg raw_ph,
    parse_lines (f_contents f) = inr (raw_rg, raw_ph)
    /\ Forall2 (fun x y => fst y = fst x /\ fixed_up (snd x) (snd y)) raw_rg rgs
    /\ Forall2 (fun x y => fst y = fst x /\ fixed_up (snd x) (snd y)) raw_ph phs.
Proof.
  intros H. apply parse_mapping_metrics_file_inr in H.
  destruct H as (raw_rg & raw_ph & _ & Hlines & Hrg & Hph).
  exists raw_rg, raw_ph. split; [assumption |].
  split; [apply fixup_all_inr in Hrg | apply fixup_all_inr in Hph].
  - eapply Forall2_impl; [| exact Hrg]. intros x y [? Hxy].
    split; [assumption |]. now apply fixup_record_inr in Hxy.
  - eapply Forall2_impl; [| exact Hph]. intros x y [? Hxy].
    split; [assumption |]. now apply fixup_record_inr in Hxy.
Qed.

(** C8, as the code has it.  When a record read from the rows lacks a
    metric that the fix-ups read from it, parsing the document raises and
    returns no mapping at all; a [KeyError] so raised carries the name of a
    metric that the fix-ups read and that a record of the document lacks,
    and nothing else. *)
Theorem missing_metric_aborts_parse (f : log_file)
  (raw_rg raw_ph : dict metric_record) (entity : string) (r : metric_record)
  (m : string) :
  parse_lines (f_contents f) = inr (raw_rg, raw_ph) ->
  In (entity, r) (raw_rg ++ raw_ph) ->
  needed r m -> dict_get m r = None ->
  exists e,
    parse_mapping_metrics_file f = inl e
    /\ forall k, e = KeyError k ->
         In k fixup_reads
         /\ exists entity' r', In (entity', r') (raw_rg ++ raw_ph) /\ dict_get k r' = None.
Proof.
  intros Hlines Hin Hneed Hnone.
  pose proof (fixup_record_needs r m Hneed Hnone) as Hfail.
  unfold parse_mapping_metrics_file. rewrite Hlines.
  destruct (re_search_group (fn f)) as [s |]; simpl.
  2:{ exists AttributeError. split; [reflexivity | discriminate]. }
  destruct (fixup_all raw_rg) as [e | rgs] eqn:Erg; simpl.
  { exists e. split; [reflexivity |]. intros k Hk.
    apply fixup_all_inl in Erg. destruct Erg as (entity' & r' & Hin' & Hr').
    destruct (fixup_record_inl _ _ Hr' k Hk) as [? ?].
    split; [assumption |]. exists entity', r'. split; [apply in_or_app |]; auto. }
  destruct (fixup_all raw_ph) as [e | phs] eqn:Eph; simpl.
  { exists e. split; [reflexivity |]. intros k Hk.
    apply fixup_all_inl in Eph. destruct Eph as (entity' & r' & Hin' & Hr').
    destruct (fixup_record_inl _ _ Hr' k Hk) as [? ?].
    split; [assumption |]. exists entity', r'. split; [apply in_or_app |]; auto. }
  exfalso. apply in_app_or in Hin. destruct Hin as [Hin | Hin].
  - pose proof (fixup_all_fails _ _ _ Hin Hfail) as E. rewrite Erg in E. discriminate.
  - pose proof (fixup_all_fails _ _ _ Hin Hfail) as E. rewrite Eph in E. discriminate.
Qed.

End ParserTheorems.

Lemma fixups_on_every_record_witness :
  exists rgs phs,
    parse_mapping_metrics_file Examples.doc_S1 = inr ("S1", rgs, phs)
    /\ lookup2 "RG1" "Number of duplicate marked reads" rgs = Some (VInt 0)
    /\ lookup2 "RG1" "Number of duplicate marked and mate reads removed" rgs = Some (VInt 0)
    /\ lookup2 "RG1" "Number of unique reads (excl. duplicate marked reads)" rgs
       = Some (VInt 90)
    /\ lookup2 "RG1" "Secondary alignments pct" rgs
       = Some (VFloat (ExactFloat.Fin (10 # 1)))
    /\ lookup2 "RG1" "Q30 bases (excl. dups & clipped bases) pct" rgs
       = Some (VFloat (ExactFloat.Fin (75 # 1)))
    /\ lookup2 "RG1" "Mapped bases R1 pct" rgs = Some (VFloat (ExactFloat.Fin (50 # 1)))
    /\ lookup2 "RG1" "Mapped bases R2 pct" rgs = Some (VFloat (ExactFloat.Fin (40 # 1)))
    /\ lookup2 "RG1" "Total bases" rgs = Some (VInt 200)
    /\ exists raw_rg raw_ph,
         parse_lines (f_contents Examples.doc_S1) = inr (raw_rg, raw_ph)
         /\ Forall2 (fun x y => fst y = fst x /\ fixed_up (snd x) (snd y)) raw_rg rgs
         /\ Forall2 (fun x y => fst y = fst x /\ fixed_up (snd x) (snd y)) raw_ph phs.
Proof.
  assert (Hrun : match parse_mapping_metrics_file Examples.doc_S1 with
                 | inr (s_name, rgs, _) =>
                     Some (s_name,
                           map (fun k => lookup2 "RG1" k rgs)
                             [ "Number of duplicate marked reads";
                               "Number of duplicate marked and mate reads removed";
                               "Number of unique reads (excl. duplicate marked reads)";
                               "Secondary alignments pct";
                               "Q30 bases (excl. dups & clipped bases) pct";
                               "Mapped bases R1 pct";
                               "Mapped bases R2 pct";
                               "Total bases" ])
                 | inl _ => None
                 end
                 = Some ("S1",
                         [ Some (VInt 0); Some (VInt 0); Some (VInt 90);
                           Some (VFloat (ExactFloat.Fin (10 # 1)));
                           Some (VFloat (ExactFloat.Fin (75 # 1)));
                           Some (VFloat (ExactFloat.Fin (50 # 1)));
                           Some (VFloat (ExactFloat.Fin (40 # 1)));
                           Some (VInt 200) ]))
    by (vm_compute; reflexivity).
  destruct (parse_mapping_metrics_file Examples.doc_S1) as [e | [[s_name rgs] phs]] eqn:E;
    [discriminate Hrun |].
  cbn [map] in Hrun.
  injection Hrun as Hname H1 H2 H3 H4 H5 H6 H7 H8. subst s_name.
  exists rgs, phs. split; [reflexivity |].
  split; [exact H1 |]. split; [exact H2 |]. split; [exact H3 |]. split; [exact H4 |].
  split; [exact H5 |]. split; [exact H6 |]. split; [exact H7 |]. split; [exact H8 |].
  apply (fixups_on_every_record Examples.doc_S1 "S1" rgs phs E).
Defined.

Lemma missing_metric_aborts_parse_witness :
  parse_lines (f_contents (Examples.incomplete_document "RG1"))
  = inr ([("RG1", Examples.raw_incomplete "RG1")], [])
  /\ exists e, parse_mapping_metrics_file (Examples.incomplete_document "RG1") = inl e
               /\ forall k, e = KeyError k ->
                    In k fixup_reads
                    /\ exists entity' r',
                         In (entity', r') ([("RG1", Examples.raw_incomplete "RG1")] ++ [])
                         /\ dict_get k r' = None.
Proof.
  split; [vm_compute; reflexivity |].
  apply (missing_metric_aborts_parse (Examples.incomplete_document "RG1")
           [("RG1", Examples.raw_incomplete "RG1")] [] "RG1"
           (Examples.raw_incomplete "RG1") "Total bases").
  - vm_compute. reflexivity.
  - simpl. left. reflexivity.
  - left. simpl. tauto.
  - reflexivity.
Defined.

(** C8 as stated fails: two documents whose incomplete records belong to
    different entities raise the very same exception, so no reading of the
    exception names the entity. *)
Lemma missing_metric_error_omits_entity :
  parse_mapping_metrics_file (Examples.incomplete_document "RG1")
  = inl (KeyError "Total bases")
  /\ parse_mapping_metrics_file (Examples.incomplete_document "RG2")
     = inl (KeyError "Total bases")
  /\ ~ exists decode, names_incomplete_entity decode "RG1"
                      /\ names_incomplete_entity decode "RG2".
Proof.
  assert (H1 : parse_mapping_metrics_file (Examples.incomplete_document "RG1")
               = inl (KeyError "Total bases")) by (vm_compute; reflexivity).
  assert (H2 : parse_mapping_metrics_file (Examples.incomplete_document "RG2")
               = inl (KeyError "Total bases")) by (vm_compute; reflexivity).
  split; [exact H1 | split; [exact H2 |]].
  intros (decode & D1 & D2).
  specialize (D1 _ H1). specialize (D2 _ H2). congruence.
Qed.

(* ===================================================================== *)
(** ** The general-metric promoter (C2, C3) *)
(* ===================================================================== *)

Section PromoterFacts.
Context {PF : PyFloat}.
Variable cfg : config.

Lemma values_metric_column (m : string) (d : dict metric_record) :
  values (metric_column m d) = metric_values m d.
Proof.
  unfold values, metric_column, metric_values.
  induction d as [| [sn r] d IH]; simpl; [reflexivity |].
  rewrite map_app, IH. destruct (dict_get m r); reflexivity.
Qed.

Lemma keys_metric_column (m : string) (d : dict metric_record) (sn : string) :
  In sn (keys (metric_column m d)) -> In sn (keys d).
Proof.
  unfold keys, metric_column. induction d as [| [sn' r] d IH]; simpl; [auto |].
  rewrite map_app, in_app_iff. intros [H | H]; [| auto].
  destruct (dict_get m r); simpl in H; [| contradiction]. destruct H; [auto | contradiction].
Qed.

Lemma gather_record_absent (m sname : string) (data : metric_record)
  (acc : dict (dict value)) :
  dict_get m data = None ->
  dict_get m (gather_record cfg sname data acc) = dict_get m acc.
Proof.
  unfold gather_record. revert acc.
  induction data as [| [k v] data IH]; simpl; intros acc Hnone; [reflexivity |].
  destruct (String.eqb_spec k m) as [-> | Hne]; [discriminate |].
  rewrite IH by assumption.
  destruct (is_general_metric cfg k); [| reflexivity].
  rewrite dict_get_dd_update. apply String.eqb_neq in Hne. now rewrite Hne.
Qed.

Lemma gather_record_spec (m sname : string) (data : metric_record)
  (acc : dict (dict value)) :
  is_general_metric cfg m = true -> dict_wf data ->
  ~ In sname (keys (or_empty (dict_get m acc))) ->
  or_empty (dict_get m (gather_record cfg sname data acc))
  = (or_empty (dict_get m acc)
     ++ match dict_get m data with Some v => [(sname, v)] | None => [] end)%list.
Proof.
  intros Hgen. unfold dict_wf, gather_record. revert acc.
  induction data as [| [k v] data IH]; simpl; intros acc Hwf Hfresh.
  - now rewrite app_nil_r.
  - inversion Hwf as [| ? ? Hnot Hwf']; subst.
    destruct (String.eqb_spec k m) as [-> | Hne].
    + rewrite Hgen.
      change (fold_left _ data ?a) with (gather_record cfg sname data a).
      rewrite gather_record_absent by (now apply dict_get_None).
      rewrite dict_get_dd_update, String.eqb_refl. simpl.
      apply dict_set_fresh. exact Hfresh.
    + assert (E : dict_get m (if is_general_metric cfg k
                               then dd_update k (dict_set sname v) acc else acc)
                  = dict_get m acc).
      { destruct (is_general_metric cfg k); [| reflexivity].
        rewrite dict_get_dd_update. apply String.eqb_neq in Hne. now rewrite Hne. }
      rewrite IH; rewrite ?E; auto.
Qed.

Lemma collect_general_loop (m : string) (d : dict metric_record) :
  is_general_metric cfg m = true -> records_wf d ->
  forall acc,
    NoDup (keys d) ->
    (forall sn, In sn (keys (or_empty (dict_get m acc))) -> ~ In sn (keys d)) ->
    or_empty (dict_get m (fold_left (fun acc '(sname, data) => gather_record cfg sname data acc) d acc))
    = (or_empty (dict_get m acc) ++ metric_column m d)%list.
Proof.
  intros Hgen. induction d as [| [sn r] d IH]; simpl; intros Hrec acc Hnodup Hfresh.
  - now rewrite app_nil_r.
  - inversion Hnodup as [| ? ? Hnot Hnodup']; subst.
    assert (Hr : dict_wf r) by (apply (Hrec sn); left; reflexivity).
    assert (Hsn : ~ In sn (keys (or_empty (dict_get m acc)))).
    { intros Hin. apply (Hfresh sn Hin). left. reflexivity. }
    rewrite IH.
    + rewrite (gather_record_spec m sn r acc Hgen Hr Hsn). now rewrite <- app_assoc.
    + intros sn' r' Hin. apply (Hrec sn'). right. exact Hin.
    + assumption.
    + intros sn'. rewrite (gather_record_spec m sn r acc Hgen Hr Hsn).
      unfold keys. rewrite map_app, in_app_iff. intros [Hin | Hin].
      * intros Hd. apply (Hfresh sn' Hin). right. exact Hd.
      * destruct (dict_get m r); simpl in Hin; [| contradiction].
        destruct Hin as [<- | []]. exact Hnot.
Qed.

Lemma collect_general_spec (m : string) (d : dict metric_record) :
  is_general_metric cfg m = true -> dict_wf d -> records_wf d ->
  values (or_empty (dict_get m (collect_general cfg d))) = metric_values m d.
Proof.
  intros Hgen Hwf Hrec. unfold collect_general.
  rewrite (collect_general_loop m d Hgen Hrec [] Hwf); [| intros sn []].
  simpl. apply values_metric_column.
Qed.

Lemma delete_metric_inr (m : string) (d d' : dict metric_record) :
  delete_metric m d = inr d' ->
  Forall2 (fun x y => fst y = fst x /\ dict_del m (snd x) = inr (snd y)) d d'.
Proof.
  unfold delete_metric. intros H. apply mapM_Forall2 in H.
  induction H as [| [sn r] [sn' r'] d d' H _ IH]; constructor; [| exact IH].
  bind_inv H. injection H as <- <-. auto.
Qed.

Lemma metric_values_delete_other (m m' : string) (d d' : dict metric_record) :
  delete_metric m' d = inr d' -> m' <> m -> metric_values m d' = metric_values m d.
Proof.
  intros H Hne. apply delete_metric_inr in H. unfold metric_values.
  induction H as [| [sn r] [sn' r'] d d' [_ H] _ IH]; simpl; [reflexivity |].
  simpl in H. rewrite IH, (dict_get_del_other _ _ _ _ H Hne). reflexivity.
Qed.

Lemma metric_values_delete_same (m : string) (d d' : dict metric_record) :
  records_wf d -> delete_metric m d = inr d' -> metric_values m d' = [].
Proof.
  intros Hrec H. apply delete_metric_inr in H. unfold metric_values.
  induction H as [| [sn r] [sn' r'] d d' [_ H] _ IH]; simpl; [reflexivity |].
  simpl in H. rewrite IH.
  - rewrite (dict_get_del_same m r r'); [reflexivity | | assumption].
    apply (Hrec sn). left. reflexivity.
  - intros sn0 r0 Hin. apply (Hrec sn0). right. exact Hin.
Qed.

Lemma records_wf_delete (m : string) (d d' : dict metric_record) :
  records_wf d -> delete_metric m d = inr d' -> records_wf d'.
Proof.
  intros Hrec H. apply delete_metric_inr in H.
  induction H as [| [sn r] [sn' r'] d d' [_ H] _ IH]; [intros ? ? [] |].
  simpl in H. intros sn0 r0 [Hin | Hin].
  - injection Hin as <- <-. apply (dict_wf_del m r); [| assumption].
    apply (Hrec sn). left. reflexivity.
  - apply (IH (fun s x Hx => Hrec s x (or_intror Hx)) sn0 r0 Hin).
Qed.

Lemma py_set_snoc_length (seen : list value) (v : value) :
  (List.length seen
   <= List.length (if existsb (fun u => py_eq u v) seen then seen else (seen ++ [v])%list))%nat.
Proof. destruct (existsb _ seen); [lia | rewrite length_app; simpl; lia]. Qed.

Lemma py_set_loop_length (vs seen : list value) :
  (List.length seen
   <= List.length (fold_left (fun seen v => if existsb (fun u => py_eq u v) seen
                                            then seen else (seen ++ [v])%list) vs seen))%nat.
Proof.
  revert seen; induction vs as [| v vs IH]; simpl; intros seen; [lia |].
  eapply Nat.le_trans; [apply (py_set_snoc_length seen v) | apply IH].
Qed.

Lemma py_set_nil (vs : list value) : py_set vs = [] -> vs = [].
Proof.
  destruct vs as [| v vs]; [reflexivity |]. unfold py_set. simpl. intros H.
  pose proof (py_set_loop_length vs [v]) as L. rewrite H in L. simpl in L. lia.
Qed.

Lemma metric_values_nil (m : string) (d : dict metric_record) :
  metric_values m d = [] -> forall sn r, In (sn, r) d -> dict_get m r = None.
Proof.
  unfold metric_values. induction d as [| [sn0 r0] d IH]; simpl; [intros _ ? ? [] |].
  intros H sn r [Hin | Hin].
  - injection Hin as <- <-. destruct (dict_get m r0); [discriminate | reflexivity].
  - apply app_eq_nil in H. destruct H as [_ H]. eauto.
Qed.

(** What a pass of the second loop does when it returns. *)
Lemma promote_inr (by_metric : dict (dict value)) (g : general_metric)
  (info info' : option (list header_fact)) (d d' : dict metric_record) :
  promote by_metric g (info, d) = inr (info', d') ->
  if Nat.eqb (List.length (py_set (values (or_empty (dict_get (gm_id g) by_metric))))) 1
  then delete_metric (gm_id g) d = inr d'
  else info' = info /\ d' = d.
Proof.
  unfold promote.
  destruct (Nat.eqb (List.length (py_set (values (or_empty (dict_get (gm_id g) by_metric))))) 1).
  - intros H. bind_inv H. bind_inv H. bind_inv H. injection H as <- <-. assumption.
  - intros H. injection H as <- <-. auto.
Qed.

Lemma promote_loop (by_metric : dict (dict value)) (gs : list general_metric) :
  NoDup (map gm_id gs) ->
  forall info d info' d',
    records_wf d ->
    (forall g, In g gs ->
       values (or_empty (dict_get (gm_id g) by_metric)) = metric_values (gm_id g) d) ->
    foldM (promote by_metric) gs (info, d) = inr (info', d') ->
    (forall g, In g gs -> List.length (py_set (metric_values (gm_id g) d')) <> 1%nat)
    /\ (forall m, ~ In m (map gm_id gs) -> metric_values m d' = metric_values m d).
Proof.
  induction gs as [| g gs IH]; simpl; intros Hnodup info d info' d' Hrec Hvals H.
  - injection H as <- <-. split; [intros ? [] | reflexivity].
  - inversion Hnodup as [| ? ? Hnot Hnodup']; subst.
    bind_inv H. destruct x as [info1 d1]. apply promote_inr in Hx.
    assert (Hother : forall m, m <> gm_id g -> metric_values m d1 = metric_values m d).
    { intros m Hm. destruct (Nat.eqb _ 1).
      - apply (metric_values_delete_other m (gm_id g) d d1 Hx). congruence.
      - destruct Hx as [_ ->]. reflexivity. }
    assert (Hrec1 : records_wf d1).
    { destruct (Nat.eqb _ 1).
      - apply (records_wf_delete (gm_id g) d d1 Hrec Hx).
      - destruct Hx as [_ ->]. assumption. }
    assert (Hvals1 : forall g', In g' gs ->
              values (or_empty (dict_get (gm_id g') by_metric)) = metric_values (gm_id g') d1).
    { intros g' Hg'. rewrite Hother.
      - apply Hvals. right. exact Hg'.
      - intros E. apply Hnot. rewrite <- E. apply in_map. exact Hg'. }
    destruct (IH Hnodup' _ _ _ _ Hrec1 Hvals1 H) as (Hdone & Hframe).
    split.
    + intros g0 [<- | Hg0]; [| apply Hdone; exact Hg0].
      rewrite (Hframe (gm_id g) Hnot).
      destruct (Nat.eqb (List.length (py_set (values (or_empty (dict_get (gm_id g) by_metric))))) 1)
        eqn:E.
      * rewrite (metric_values_delete_same (gm_id g) d d1 Hrec Hx). simpl. discriminate.
      * destruct Hx as [_ ->]. rewrite <- (Hvals g (or_introl eq_refl)).
        apply Nat.eqb_neq. exact E.
    + intros m Hm. rewrite Hframe by tauto. apply Hother. intros E. apply Hm. left. congruence.
Qed.

Lemma general_ids_nodup : NoDup (map gm_id (GENERAL_METRICS cfg)).
Proof.
  simpl. repeat constructor; simpl; intuition discriminate.
Qed.

Lemma is_general_metric_In (m : string) :
  is_general_metric cfg m = true -> exists g, In g (GENERAL_METRICS cfg) /\ gm_id g = m.
Proof.
  unfold is_general_metric. rewrite existsb_exists. intros (x & Hin & Hx).
  apply String.eqb_eq in Hx. subst x. apply in_map_iff in Hin.
  destruct Hin as (g & ? & ?). eauto.
Qed.

(** C2.  When the promoter returns, every general metric is either absent
    from every sample or present with at least two distinct values; none is
    left with exactly one distinct value. *)
Theorem promotion_invariant (info info' : option (list header_fact))
  (d d' : dict metric_record) :
  dict_wf d -> records_wf d ->
  maybe_add_general_metrics cfg info d = inr (info', d') ->
  forall m, is_general_metric cfg m = true ->
    List.length (py_set (metric_values m d')) <> 1%nat
    /\ ((forall sn r, In (sn, r) d' -> dict_get m r = None)
        \/ (2 <= List.length (py_set (metric_values m d')))%nat).
Proof.
  intros Hwf Hrec H m Hm. unfold maybe_add_general_metrics in H.
  destruct (is_general_metric_In m Hm) as (g & Hg & <-).
  assert (Hvals : forall g0, In g0 (GENERAL_METRICS cfg) ->
            values (or_empty (dict_get (gm_id g0) (collect_general cfg d)))
            = metric_values (gm_id g0) d).
  { intros g0 Hg0. apply collect_general_spec; [| assumption | assumption].
    unfold is_general_metric. rewrite existsb_exists. exists (gm_id g0).
    split; [now apply in_map | apply String.eqb_refl]. }
  destruct (promote_loop _ _ general_ids_nodup _ _ _ _ Hrec Hvals H) as (Hdone & _).
  specialize (Hdone g Hg). split; [exact Hdone |].
  destruct (py_set (metric_values (gm_id g) d')) as [| v [| v' l]] eqn:E.
  - left. apply metric_values_nil. now apply py_set_nil.
  - exfalso. apply Hdone. reflexivity.
  - right. simpl. lia.
Qed.

End PromoterFacts.

Lemma promotion_invariant_witness :
  maybe_add_general_metrics Examples.default_config None Examples.three_samples
  = inr (Some [("Prov. sex chrom ploidy:", "2")], Examples.three_samples_promoted)
  /\ (forall sn r, In (sn, r) Examples.three_samples_promoted ->
        dict_get "Provided sex chromosome ploidy" r = None)
  /\ (2 <= List.length
             (py_set (metric_values "DRAGEN mapping rate [mil. reads/second]"
                        Examples.three_samples_promoted)))%nat.
Proof.
  assert (H : maybe_add_general_metrics Examples.default_config None Examples.three_samples
              = inr (Some [("Prov. sex chrom ploidy:", "2")],
                     Examples.three_samples_promoted)) by reflexivity.
  assert (Hwf : dict_wf Examples.three_samples).
  { unfold dict_wf. simpl. repeat constructor; simpl; intuition discriminate. }
  assert (Hrec : records_wf Examples.three_samples).
  { intros sn r [E | [E | [E | []]]]; injection E as <- <-; unfold dict_wf; simpl;
      repeat constructor; simpl; intuition discriminate. }
  split; [exact H |]. split.
  - destruct (promotion_invariant Examples.default_config _ _ _ _ Hwf Hrec H
                "Provided sex chromosome ploidy" eq_refl) as [_ [Habs | Htwo]].
    + exact Habs.
    + vm_compute in Htwo. lia.
  - destruct (promotion_invariant Examples.default_config _ _ _ _ Hwf Hrec H
                "DRAGEN mapping rate [mil. reads/second]" eq_refl) as [_ [Habs | Htwo]].
    + specialize (Habs "S1" _ (or_introl eq_refl)). discriminate.
    + exact Htwo.
Defined.

(** C3 does not hold of the code: where one sample lacks a general metric
    that the others share, the deletion loop raises [KeyError] instead of
    passing over that sample, and the whole report run raises with it. *)
Theorem promoter_fails_on_sample_without_metric :
  maybe_add_general_metrics Examples.default_config None Examples.one_sample_lacks_ploidy
  = inl (KeyError "Provided sex chromosome ploidy")
  /\ parse_mapping_metrics Examples.default_config Examples.nothing_ignored
       [Examples.doc_S1_ploidy; Examples.doc_S3] None
     = inl (KeyError "Provided sex chromosome ploidy").
Proof. split; vm_compute; reflexivity. Qed.

(* ===================================================================== *)
(** ** The aggregator (C1, C5, C10) *)
(* ===================================================================== *)

Section AggregatorFacts.
Context {PF : PyFloat}.

Lemma last_value_snoc {V : Type} (d : dict V) (k : string) (v : V) :
  last_value (d ++ [(k, v)])%list = Some v.
Proof.
  induction d as [| [k' v'] d IH]; simpl; [reflexivity | now rewrite IH].
Qed.

Lemma sample_name_other (sn phenotype : string) :
  phenotype <> "normal" -> sample_name sn phenotype = sn.
Proof.
  intros H. unfold sample_name. apply String.eqb_neq in H. now rewrite H.
Qed.

Lemma normal_name_differs (sn : string) : sn ++ " normal" <> sn.
Proof. apply append_neq_self. discriminate. Qed.

Lemma flatten_document_lookup (sn : string) (phenotypes : dict metric_record) :
  forall acc,
    dict_get sn (flatten_document sn phenotypes acc)
    = match last_value (non_normal phenotypes) with
      | Some r => Some r
      | None => dict_get sn acc
      end.
Proof.
  unfold flatten_document.
  induction phenotypes as [| [ph r] phs IH]; simpl; intros acc; [reflexivity |].
  rewrite IH. unfold sample_name.
  destruct (String.eqb_spec ph "normal") as [-> | Hne]; simpl.
  - destruct (last_value (non_normal phs)); [reflexivity |].
    apply dict_get_set_neq. apply normal_name_differs.
  - destruct (last_value (non_normal phs)); [reflexivity |].
    apply dict_get_set_eq.
Qed.

Lemma flatten_document_other (sn k : string) (phenotypes : dict metric_record) :
  sn <> k -> (In "normal" (keys phenotypes) -> sn ++ " normal" <> k) ->
  forall acc, dict_get k (flatten_document sn phenotypes acc) = dict_get k acc.
Proof.
  unfold flatten_document. intros Hsn.
  induction phenotypes as [| [ph r] phs IH]; simpl; intros Hnormal acc; [reflexivity |].
  rewrite IH by auto. apply dict_get_set_neq. unfold sample_name.
  destruct (String.eqb_spec ph "normal") as [-> | _]; auto.
Qed.

Lemma flatten_samples_lookup (d : dict (dict metric_record)) (sn : string)
  (phenotypes : dict metric_record) (r : metric_record) :
  dict_wf d -> In (sn, phenotypes) d ->
  last_value (non_normal phenotypes) = Some r ->
  (forall sn' phenotypes', In (sn', phenotypes') d ->
     In "normal" (keys phenotypes') -> sn' ++ " normal" <> sn) ->
  dict_get sn (flatten_samples d) = Some r.
Proof.
  unfold flatten_samples, dict_wf. generalize (@nil (string * metric_record)).
  induction d as [| [sn0 phs0] d IH]; simpl; intros acc Hwf Hin Hlast Hnormal; [contradiction |].
  inversion Hwf as [| ? ? Hnot Hwf']; subst.
  destruct Hin as [Hin | Hin].
  - injection Hin as -> ->.
    assert (Hrest : forall acc',
              dict_get sn (fold_left (fun acc '(sn, phenotypes) =>
                                        flatten_document sn phenotypes acc) d acc')
              = dict_get sn acc').
    { clear IH. revert Hnot Hnormal. clear. revert sn.
      induction d as [| [sn1 phs1] d IH]; simpl; intros sn Hnot Hnormal acc'; [reflexivity |].
      rewrite IH.
      - apply flatten_document_other.
        + intros ->. apply Hnot. left. reflexivity.
        + intros Hn. apply (Hnormal sn1 phs1); auto.
      - tauto.
      - intros sn' phs' [Hin | Hin]; [apply Hnormal; auto |].
        apply Hnormal. right. right. exact Hin. }
    rewrite Hrest, flatten_document_lookup, Hlast. reflexivity.
  - apply IH; auto. intros sn' phs' H'. apply Hnormal. right. exact H'.
Qed.

(** *** The read-group merge *)

Lemma renamed_key_not_RG1 (rg sname : string) : rg ++ " (" ++ sname ++ ")" <> "RG1".
Proof.
  destruct rg as [| c1 [| c2 [| c3 [| c4 rg]]]]; simpl; intros H;
    injection H; intros; subst; discriminate.
Qed.

Lemma renamed_key_inj (rg rg' sname : string) :
  rg ++ " (" ++ sname ++ ")" = rg' ++ " (" ++ sname ++ ")" -> rg = rg'.
Proof. apply append_inv_tail. Qed.

(** A first document is merged as it is. *)
Lemma merge_document_fresh (sname : string) (rgs : dict metric_record) :
  forall acc, NoDup (keys (acc ++ rgs)%list) -> merge_document sname rgs acc = (acc ++ rgs)%list.
Proof.
  unfold merge_document.
  induction rgs as [| [rg r] rgs IH]; simpl; intros acc Hnodup.
  - now rewrite app_nil_r.
  - assert (Hfresh : ~ In rg (keys acc)).
    { unfold keys in *. rewrite map_app in Hnodup. simpl in Hnodup.
      apply NoDup_remove_2 in Hnodup. rewrite in_app_iff in Hnodup. tauto. }
    unfold merged_key. apply dict_mem_false in Hfresh. rewrite Hfresh.
    apply dict_mem_false in Hfresh. rewrite dict_set_fresh by assumption.
    rewrite IH; rewrite <- app_assoc; [reflexivity | exact Hnodup].
Qed.

(** Once both keys are present, further read groups of the second document
    leave them alone. *)
Lemma merge_document_keeps (sname key : string) (r1 r2 : metric_record)
  (rgs : dict metric_record) :
  key = "RG1" ++ " (" ++ sname ++ ")" ->
  ~ In "RG1" (keys rgs) ->
  forall acc,
    dict_get "RG1" acc = Some r1 -> dict_get key acc = Some r2 ->
    dict_get "RG1" (merge_document sname rgs acc) = Some r1
    /\ dict_get key (merge_document sname rgs acc) = Some r2.
Proof.
  intros Hkey. unfold merge_document.
  induction rgs as [| [rg r] rgs IH]; simpl; intros Hnot acc H1 H2; [auto |].
  apply IH; [tauto | |].
  - rewrite dict_get_set_neq; [assumption |]. unfold merged_key.
    destruct (dict_mem rg acc); [apply renamed_key_not_RG1 | tauto].
  - rewrite dict_get_set_neq; [assumption |]. unfold merged_key.
    destruct (dict_mem rg acc) eqn:E.
    + rewrite Hkey. intros Heq. apply (renamed_key_inj rg "RG1" sname) in Heq. tauto.
    + intros Heq. subst rg. unfold dict_mem in E. rewrite H2 in E. discriminate.
Qed.

(** The second document: its [RG1] goes under the renamed key. *)
Lemma merge_document_renames (sname key : string) (r1 r2 : metric_record)
  (rgs : dict metric_record) :
  key = "RG1" ++ " (" ++ sname ++ ")" ->
  dict_wf rgs -> dict_get "RG1" rgs = Some r2 ->
  forall acc,
    dict_get "RG1" acc = Some r1 ->
    dict_get "RG1" (merge_document sname rgs acc) = Some r1
    /\ dict_get key (merge_document sname rgs acc) = Some r2.
Proof.
  intros Hkey. unfold dict_wf.
  induction rgs as [| [rg r] rgs IH]; simpl; intros Hwf Hget acc H1; [discriminate |].
  apply NoDup_cons_iff in Hwf. destruct Hwf as [Hnot Hwf'].
  unfold merge_document. simpl.
  change (fold_left _ rgs ?a) with (merge_document sname rgs a).
  destruct (String.eqb_spec rg "RG1") as [Heq | Hne].
  - subst rg. injection Hget as ->.
    unfold merged_key, dict_mem. rewrite H1. rewrite <- Hkey.
    apply (merge_document_keeps sname key r1 r2 rgs Hkey Hnot).
    + rewrite dict_get_set_neq; [assumption |]. rewrite Hkey. apply renamed_key_not_RG1.
    + apply dict_get_set_eq.
  - apply IH; [assumption | assumption |].
    rewrite dict_get_set_neq; [assumption |]. unfold merged_key.
    destruct (dict_mem rg acc); [apply renamed_key_not_RG1 | assumption].
Qed.

(** *** The mappings that the record parser returns are dictionaries *)

Lemma store_wf (entity metric : string) (v : value) (percentage : option value)
  (d : dict metric_record) :
  dict_wf d -> dict_wf (store entity metric v percentage d).
Proof.
  intros H. unfold store. destruct percentage; repeat apply dd_update_wf; assumption.
Qed.

Lemma parse_line_wf (line : string) (acc acc' : dict metric_record * dict metric_record) :
  parse_line line acc = inr acc' ->
  dict_wf (fst acc) /\ dict_wf (snd acc) -> dict_wf (fst acc') /\ dict_wf (snd acc').
Proof.
  unfold parse_line. destruct acc as [rgs phs]. intros H [Hrg Hph].
  repeat bind_inv H.
  assert (Hph' : dict_wf (if String.eqb x2 "ALIGNING SUMMARY"
                          then store (PyStr.lower x1) x3 (coerce_value x4) x5 phs
                          else phs)).
  { destruct (String.eqb x2 "ALIGNING SUMMARY"); [apply store_wf |]; assumption. }
  destruct (String.eqb x2 "ALIGNING PER RG").
  - bind_inv H. injection H as <-. simpl. split; [apply store_wf |]; assumption.
  - injection H as <-. simpl. auto.
Qed.

Lemma parse_lines_wf (text : string) (rgs phs : dict metric_record) :
  parse_lines text = inr (rgs, phs) -> dict_wf rgs /\ dict_wf phs.
Proof.
  unfold parse_lines. intros H.
  apply (foldM_invariant parse_line (fun acc => dict_wf (fst acc) /\ dict_wf (snd acc))
           (PyStr.splitlines text)) in H.
  - exact H.
  - intros line s s' _ Hs Hline. exact (parse_line_wf line s s' Hline Hs).
  - split; constructor.
Qed.

Lemma fixup_all_keys (raw fixed : dict metric_record) :
  fixup_all raw = inr fixed -> keys fixed = keys raw.
Proof.
  intros H. apply fixup_all_inr in H. unfold keys.
  induction H as [| x y raw fixed [H _] _ IH]; simpl; [reflexivity | now rewrite H, IH].
Qed.

Lemma parse_mapping_metrics_file_wf (f : log_file) (s_name : string)
  (rgs phs : dict metric_record) :
  parse_mapping_metrics_file f = inr (s_name, rgs, phs) -> dict_wf rgs /\ dict_wf phs.
Proof.
  intros H. apply parse_mapping_metrics_file_inr in H.
  destruct H as (raw_rg & raw_ph & _ & Hlines & Hrg & Hph).
  apply parse_lines_wf in Hlines. apply fixup_all_keys in Hrg, Hph.
  unfold dict_wf. rewrite Hrg, Hph. exact Hlines.
Qed.

(** *** The loop over the files, for two files with different names *)

Lemma collect_two_files (f1 f2 : log_file) (s1 s2 : string)
  (rgs1 rgs2 phs1 phs2 : dict metric_record) :
  parse_mapping_metrics_file f1 = inr (s1, rgs1, phs1) ->
  parse_mapping_metrics_file f2 = inr (s2, rgs2, phs2) ->
  s1 <> s2 ->
  exists c, collect_files [f1; f2] = inr c
            /\ by_rg c = [(s1, rgs1); (s2, rgs2)]
            /\ by_phenotype c = [(s1, phs1); (s2, phs2)].
Proof.
  intros H1 H2 Hne. unfold collect_files. simpl. unfold add_file.
  rewrite H1. simpl. rewrite H2. simpl.
  eexists. split; [reflexivity |]. simpl.
  apply String.eqb_neq in Hne. rewrite Hne. auto.
Qed.

(** The loop that gathers the metric names leaves, in the variable it
    rebinds, the mapping of the last document. *)
Lemma gather_metric_names_rebinds (d : dict (dict metric_record)) (sn : string)
  (rgs merged : dict metric_record) :
  fst (gather_metric_names (d ++ [(sn, rgs)])%list merged) = rgs.
Proof.
  unfold gather_metric_names. rewrite fold_left_app. reflexivity.
Qed.

(** C5, as the code has it.  Given two input documents with different
    names, neither of them ignored, processed in order and both containing
    a read group [RG1], the merged per-read-group mapping holds the first
    document's record under [RG1] and the second document's record under
    [RG1 (<second document's name>)]. *)
Theorem read_group_disambiguation (ignored : string -> bool) (f1 f2 : log_file)
  (s1 s2 : string) (rgs1 rgs2 phs1 phs2 : dict metric_record) (r1 r2 : metric_record) :
  parse_mapping_metrics_file f1 = inr (s1, rgs1, phs1) ->
  parse_mapping_metrics_file f2 = inr (s2, rgs2, phs2) ->
  s1 <> s2 -> ignored s1 = false -> ignored s2 = false ->
  dict_get "RG1" rgs1 = Some r1 -> dict_get "RG1" rgs2 = Some r2 ->
  exists merged,
    merged_by_rg ignored [f1; f2] = inr merged
    /\ dict_get "RG1" merged = Some r1
    /\ dict_get ("RG1 (" ++ s2 ++ ")") merged = Some r2.
Proof.
  intros H1 H2 Hne Hi1 Hi2 G1 G2.
  destruct (collect_two_files f1 f2 s1 s2 rgs1 rgs2 phs1 phs2 H1 H2 Hne)
    as (c & Hc & Hrg & _).
  apply parse_mapping_metrics_file_wf in H1, H2. destruct H1 as [W1 _], H2 as [W2 _].
  unfold merged_by_rg. rewrite Hc. simpl. rewrite Hrg. simpl. rewrite Hi1, Hi2. simpl.
  eexists. split; [reflexivity |].
  unfold merge_read_groups. simpl.
  rewrite (merge_document_fresh s1 rgs1 []) by exact W1. simpl.
  apply merge_document_renames; auto.
Qed.

(** C10, as the code has it.  In the flattening, a phenotype other than
    [normal] is reported under the document's name unchanged; so the
    records of the phenotypes
    of one document that are not [normal] all go under that one name, and
    after the document's pass the name holds the record of the last of
    them.  It still holds it in the merged per-sample mapping, unless the
    [normal] record of another document is reported under the same name. *)
Theorem non_normal_phenotypes_collide :
  (forall sn phenotype, phenotype <> "normal" -> sample_name sn phenotype = sn)
  /\ (forall sn phenotypes acc earlier phenotype r,
        non_normal phenotypes = (earlier ++ [(phenotype, r)])%list ->
        dict_get sn (flatten_document sn phenotypes acc) = Some r)
  /\ (forall d sn phenotypes earlier phenotype r,
        dict_wf d -> In (sn, phenotypes) d ->
        non_normal phenotypes = (earlier ++ [(phenotype, r)])%list ->
        (forall sn' phenotypes', In (sn', phenotypes') d ->
           In "normal" (keys phenotypes') -> sn' ++ " normal" <> sn) ->
        dict_get sn (flatten_samples d) = Some r).
Proof.
  split; [exact sample_name_other | split].
  - intros sn phs acc earlier ph r H.
    rewrite flatten_document_lookup, H, last_value_snoc. reflexivity.
  - intros d sn phs earlier ph r Hwf Hin H Hnormal.
    apply (flatten_samples_lookup d sn phs r Hwf Hin); [| exact Hnormal].
    rewrite H. apply last_value_snoc.
Qed.

End AggregatorFacts.

Lemma read_group_disambiguation_witness :
  exists merged,
    merged_by_rg Examples.nothing_ignored
      [Examples.rg_document "A" "RG1" "90"; Examples.rg_document "B" "RG1" "80"]
    = inr merged
    /\ dict_get "RG1" merged = Some (Examples.rg_record 90)
    /\ dict_get ("RG1 (" ++ "B" ++ ")") merged = Some (Examples.rg_record 80).
Proof.
  apply (read_group_disambiguation Examples.nothing_ignored
           (Examples.rg_document "A" "RG1" "90") (Examples.rg_document "B" "RG1" "80")
           "A" "B" [("RG1", Examples.rg_record 90)] [("RG1", Examples.rg_record 80)] [] []).
  - vm_compute. reflexivity.
  - vm_compute. reflexivity.
  - discriminate.
  - reflexivity.
  - reflexivity.
  - reflexivity.
  - reflexivity.
Defined.

(** C5 as stated fails: two documents of the same name both contain [RG1];
    the later one replaces the earlier one before the merge, so the merged
    mapping holds the second document's record under [RG1] and nothing
    under the renamed key. *)
Lemma same_name_documents_lose_read_group :
  parse_mapping_metrics_file (Examples.rg_document "S" "RG1" "90")
  = inr ("S", [("RG1", Examples.rg_record 90)], [])
  /\ parse_mapping_metrics_file (Examples.rg_document "S" "RG1" "80")
     = inr ("S", [("RG1", Examples.rg_record 80)], [])
  /\ merged_by_rg Examples.nothing_ignored
       [Examples.rg_document "S" "RG1" "90"; Examples.rg_document "S" "RG1" "80"]
     = inr [("RG1", Examples.rg_record 80)]
  /\ Examples.rg_record 80 <> Examples.rg_record 90
  /\ dict_get "RG1 (S)" [("RG1", Examples.rg_record 80)] = None.
Proof.
  split; [vm_compute; reflexivity |].
  split; [vm_compute; reflexivity |].
  split; [vm_compute; reflexivity |].
  split; [discriminate | reflexivity].
Qed.

(** A renamed key is not checked against the keys already merged: here the
    second document's [RG1] is renamed to [RG1 (B)] and replaces the record
    that the first document holds under that very name. *)
Lemma renamed_key_overwrites :
  parse_mapping_metrics_file Examples.renamed_name_document
  = inr ("A", [("RG1 (B)", Examples.rg_record 70); ("RG1", Examples.rg_record 90)], [])
  /\ merged_by_rg Examples.nothing_ignored
       [Examples.renamed_name_document; Examples.rg_document "B" "RG1" "80"]
     = inr [("RG1 (B)", Examples.rg_record 80); ("RG1", Examples.rg_record 90)].
Proof. split; vm_compute; reflexivity. Qed.

Lemma non_normal_phenotypes_collide_witness :
  dict_get "S" (flatten_samples Examples.three_phenotypes) = Some (Examples.rg_record 3).
Proof.
  destruct non_normal_phenotypes_collide as (_ & _ & H).
  apply (H Examples.three_phenotypes "S"
           [ ("tumor", Examples.rg_record 1); ("normal", Examples.rg_record 2);
             ("mapping", Examples.rg_record 3) ]
           [("tumor", Examples.rg_record 1)] "mapping" (Examples.rg_record 3)).
  - unfold dict_wf. simpl. repeat constructor. simpl. tauto.
  - left. reflexivity.
  - reflexivity.
  - intros sn' phs' [E | []] _. injection E as <- <-. discriminate.
Defined.

(** C10, as the specification states it, fails across documents.  The
    document [A normal] contributes two phenotypes that are not [normal];
    the [normal] record of the document [A], flattened after it, goes
    under [A normal] too, so the merged mapping holds neither of the two. *)
Lemma normal_record_takes_collided_name :
  (exists c, collect_files Examples.shadowing_files = inr c
             /\ by_phenotype c = Examples.shadowing_phenotypes)
  /\ non_normal [ ("tumor", Examples.rg_record 1); ("mapping", Examples.rg_record 2) ]
     = [ ("tumor", Examples.rg_record 1); ("mapping", Examples.rg_record 2) ]
  /\ flatten_samples Examples.shadowing_phenotypes = [("A normal", Examples.rg_record 3)]
  /\ dict_get "A normal" (flatten_samples Examples.shadowing_phenotypes)
     <> Some (Examples.rg_record 2).
Proof.
  assert (Hrun : match collect_files Examples.shadowing_files with
                 | inr c => Some (by_phenotype c)
                 | inl _ => None
                 end = Some Examples.shadowing_phenotypes) by (vm_compute; reflexivity).
  split.
  { destruct (collect_files Examples.shadowing_files) as [e | c];
      [discriminate Hrun | injection Hrun as Hrun].
    exists c. split; [reflexivity | exact Hrun]. }
  split; [reflexivity |].
  split; [reflexivity |].
  intros H. vm_compute in H. discriminate H.
Qed.

(** C1 does not hold of the code: with two documents the merged mapping
    holds both read groups, but the two chart projections and the beeswarm
    plot are given the mapping of the last document only. *)
Theorem charts_receive_last_document_only :
  exists merged rep,
    merged_by_rg Examples.nothing_ignored [Examples.doc_S1; Examples.doc_S3] = inr merged
    /\ parse_mapping_metrics Examples.default_config Examples.nothing_ignored
         [Examples.doc_S1; Examples.doc_S3] None
       = inr (Some rep)
    /\ keys merged = ["RG1"; "RG3"]
    /\ keys (dup_chart_input rep) = ["RG3"]
    /\ keys (pair_chart_input rep) = ["RG3"]
    /\ keys (beeswarm_data rep) = ["RG3"].
Proof.
  pose (same := fun xs ys : list string =>
                  if list_eq_dec string_dec xs ys then true else false).
  assert (Hsame : forall xs ys, same xs ys = true -> xs = ys).
  { intros xs ys. unfold same. destruct (list_eq_dec string_dec xs ys); [auto | discriminate]. }
  destruct (checked_result
              (merged_by_rg Examples.nothing_ignored [Examples.doc_S1; Examples.doc_S3])
              (fun merged => same (keys merged) ["RG1"; "RG3"]))
    as (merged & Hm & Hkeys); [vm_compute; reflexivity |].
  destruct (checked_result
              (parse_mapping_metrics Examples.default_config Examples.nothing_ignored
                 [Examples.doc_S1; Examples.doc_S3] None)
              (fun out => match out with
                          | Some rep =>
                              (same (keys (dup_chart_input rep)) ["RG3"]
                               && same (keys (pair_chart_input rep)) ["RG3"]
                               && same (keys (beeswarm_data rep)) ["RG3"])%bool
                          | None => false
                          end))
    as ([rep |] & Hr & Hrep); [vm_compute; reflexivity | | discriminate].
  exists merged, rep. split; [exact Hm | split; [exact Hr |]].
  apply andb_prop in Hrep. destruct Hrep as [Hrep H3].
  apply andb_prop in Hrep. destruct Hrep as [H1 H2].
  repeat split; apply Hsame; assumption.
Qed.

(* ===================================================================== *)
(** ** The metadata builder (C9) *)
(* ===================================================================== *)

Section BuilderFacts.
Context {PF : PyFloat}.
Variable cfg : config.

Lemma nodupb_NoDup (l : list string) : nodupb l = true -> NoDup l.
Proof.
  induction l as [| x l IH]; simpl; intros H; constructor.
  - apply andb_prop in H. destruct H as [H _]. intros Hin.
    apply negb_true_iff in H.
    assert (E : existsb (String.eqb x) l = true); [| congruence].
    apply existsb_exists. exists x. split; [assumption | apply String.eqb_refl].
  - apply andb_prop in H. tauto.
Qed.

Lemma in_names_iff (x : string) (names : list string) :
  in_names x names = true <-> In x names.
Proof.
  unfold in_names. rewrite existsb_exists. split.
  - intros (y & Hy & E). apply String.eqb_eq in E. now subst.
  - intros H. exists x. split; [assumption | apply String.eqb_refl].
Qed.

Lemma in_names_ext (x : string) (names1 names2 : list string) :
  same_names names1 names2 -> in_names x names1 = in_names x names2.
Proof.
  intros H. destruct (in_names x names2) eqn:E.
  - apply in_names_iff, H, in_names_iff, E.
  - destruct (in_names x names1) eqn:E1; [| reflexivity].
    apply in_names_iff, H, in_names_iff in E1. congruence.
Qed.

Lemma make_mapping_stats_headers_ext (names1 names2 : list string) :
  same_names names1 names2 ->
  make_mapping_stats_headers cfg names1 = make_mapping_stats_headers cfg names2.
Proof.
  intros H. unfold make_mapping_stats_headers. apply foldM_ext.
  intros m [h b] _. unfold add_headers. now rewrite (in_names_ext _ _ _ H).
Qed.

Lemma keys_set_fresh {V : Type} (k : string) (v : V) (d : dict V) :
  ~ In k (keys d) -> keys (dict_set k v d) = (keys d ++ [k])%list.
Proof.
  intros H. rewrite keys_dict_set. apply dict_mem_false in H. now rewrite H.
Qed.

Lemma add_headers_inr (names : list string) (m : metric_descriptor)
  (h b : dict column) (col : column) :
  count_column cfg m = inr col ->
  add_headers cfg names m (h, b)
  = inr (dict_set (id_in_data m) col
           (if in_names (pct_key m) names then dict_set (pct_key m) (pct_column m) h else h),
         if show_in_beeswarm m
         then dict_set (id_in_data m) (set_suffix (beeswarm_suffix cfg m) col) b
         else b).
Proof.
  intros E. unfold add_headers, pct_key. rewrite E. simpl.
  destruct (show_in_beeswarm m); reflexivity.
Qed.

#[local] Arguments add_headers : simpl never.

Lemma headers_loop (names : list string) (ms : list metric_descriptor) :
  Forall (fun m => is_ok (count_column cfg m) = true) ms ->
  NoDup (flat_map possible_keys ms) ->
  forall h b,
    (forall k, In k (keys h) -> ~ In k (flat_map possible_keys ms)) ->
    (forall k, In k (keys b) -> ~ In k (flat_map possible_keys ms)) ->
    exists h' b',
      foldM (add_headers cfg names) ms (h, b) = inr (h', b')
      /\ keys h' = (keys h ++ flat_map (entry_keys names) ms)%list
      /\ keys b' = (keys b ++ map id_in_data (filter show_in_beeswarm ms))%list.
Proof.
  induction ms as [| m ms IH]; simpl; intros Hok Hnodup h b Hh Hb.
  - exists h, b. rewrite !app_nil_r. auto.
  - inversion Hok as [| ? ? Hm Hok']; subst.
    apply NoDup_cons_iff in Hnodup. destruct Hnodup as [Hpct Hnodup].
    apply NoDup_cons_iff in Hnodup. destruct Hnodup as [Hid Hnodup].
    simpl in Hpct. 
    destruct (count_column cfg m) as [e | col] eqn:Ecol; [discriminate |].
    set (h1 := if in_names (pct_key m) names
               then dict_set (pct_key m) (pct_column m) h else h).
    assert (Hk1 : keys h1 = (keys h ++ (if in_names (pct_key m) names
                                        then [pct_key m] else []))%list).
    { unfold h1. destruct (in_names _ names); [| now rewrite app_nil_r].
      apply keys_set_fresh. intros Hin. apply (Hh _ Hin). left. reflexivity. }
    assert (Hfresh : ~ In (id_in_data m) (keys h1)).
    { rewrite Hk1, in_app_iff. intros [Hin | Hin].
      - apply (Hh _ Hin). right. left. reflexivity.
      - destruct (in_names _ names); [| contradiction].
        destruct Hin as [E | []]. apply Hpct. left. symmetry. exact E. }
    set (h2 := dict_set (id_in_data m) col h1).
    assert (Hk2 : keys h2 = (keys h ++ entry_keys names m)%list).
    { unfold h2. rewrite keys_set_fresh by exact Hfresh. rewrite Hk1.
      unfold entry_keys. now rewrite app_assoc. }
    set (b2 := if show_in_beeswarm m
               then dict_set (id_in_data m) (set_suffix (beeswarm_suffix cfg m) col) b
               else b).
    assert (Hkb : keys b2 = (keys b ++ (if show_in_beeswarm m then [id_in_data m] else []))%list).
    { unfold b2. destruct (show_in_beeswarm m); [| now rewrite app_nil_r].
      apply keys_set_fresh. intros Hin. apply (Hb _ Hin). right. left. reflexivity. }
    destruct (IH Hok' Hnodup h2 b2) as (h' & b' & Hrun & Hkh & Hkb').
    + intros k Hk Hin. rewrite Hk2, in_app_iff in Hk. destruct Hk as [Hk | Hk].
      * apply (Hh k Hk). right. right. exact Hin.
      * unfold entry_keys in Hk. rewrite in_app_iff in Hk. destruct Hk as [Hk | Hk].
        -- destruct (in_names _ names); [| contradiction]. destruct Hk as [<- | []].
           apply Hpct. right. exact Hin.
        -- destruct Hk as [<- | []]. apply Hid. exact Hin.
    + intros k Hk Hin. rewrite Hkb, in_app_iff in Hk. destruct Hk as [Hk | Hk].
      * apply (Hb k Hk). right. right. exact Hin.
      * destruct (show_in_beeswarm m); [| contradiction]. destruct Hk as [<- | []].
        apply Hid. exact Hin.
    + exists h', b'. split; [| split].
      * rewrite (add_headers_inr names m h b col Ecol). simpl. exact Hrun.
      * rewrite Hkh, Hk2. now rewrite <- app_assoc.
      * rewrite Hkb', Hkb. destruct (show_in_beeswarm m); simpl; now rewrite <- app_assoc.
Qed.

Lemma headers_from_empty (names : list string) (ms : list metric_descriptor) :
  Forall (fun m => is_ok (count_column cfg m) = true) ms ->
  NoDup (flat_map possible_keys ms) ->
  exists h b,
    foldM (add_headers cfg names) ms ([], []) = inr (h, b)
    /\ keys h = flat_map (entry_keys names) ms
    /\ keys b = map id_in_data (filter show_in_beeswarm ms).
Proof.
  intros Hok Hnodup.
  destruct (headers_loop names ms Hok Hnodup [] []) as (h & b & Hrun & Hh & Hb).
  - intros k [].
  - intros k [].
  - exists h, b. auto.
Qed.

Lemma count_column_total : Forall (fun m => is_ok (count_column cfg m) = true) MAPPING_METRICS.
Proof.
  unfold MAPPING_METRICS. repeat (constructor; [vm_compute; reflexivity |]). constructor.
Qed.

Lemma possible_keys_nodup : NoDup (flat_map possible_keys MAPPING_METRICS).
Proof. apply nodupb_NoDup. vm_compute. reflexivity. Qed.

Lemma In_set_add (x y : string) (s : list string) :
  In x (set_add y s) <-> x = y \/ In x s.
Proof.
  unfold set_add. destruct (in_names y s) eqn:E.
  - apply in_names_iff in E. split; [auto | intros [-> | H]; auto].
  - rewrite in_app_iff. simpl. intuition.
Qed.

Lemma In_add_keys (x : string) (ks names : list string) :
  In x (fold_left (fun names m => set_add m names) ks names) <-> In x names \/ In x ks.
Proof.
  revert names; induction ks as [| k ks IH]; simpl; intros names; [tauto |].
  rewrite IH, In_set_add. intuition.
Qed.

Lemma In_add_names (x : string) (data_by_rg : dict metric_record) (names : list string) :
  In x (add_names data_by_rg names)
  <-> In x names \/ exists rg data, In (rg, data) data_by_rg /\ In x (keys data).
Proof.
  unfold add_names. revert names.
  induction data_by_rg as [| [rg data] rest IH]; simpl; intros names.
  - split; [auto | intros [H | (? & ? & [] & _)]; exact H].
  - rewrite IH, In_add_keys. split.
    + intros [[H | H] | (rg' & data' & Hin & Hx)]; [auto | |].
      * right. exists rg, data. auto.
      * right. exists rg', data'. auto.
    + intros [H | (rg' & data' & [E | Hin] & Hx)]; [auto | |].
      * injection E as <- <-. auto.
      * right. exists rg', data'. auto.
Qed.

Lemma In_gather_metric_names (x : string) (d : dict (dict metric_record)) :
  forall state,
    In x (snd (fold_left (fun state entry => (snd entry, add_names (snd entry) (snd state)))
                 d state))
    <-> In x (snd state)
        \/ exists sn rgs rg data, In (sn, rgs) d /\ In (rg, data) rgs /\ In x (keys data).
Proof.
  induction d as [| [sn rgs] d IH]; simpl; intros state.
  - split; [auto | intros [H | (? & ? & ? & ? & [] & _)]; exact H].
  - rewrite IH. simpl. rewrite In_add_names. split.
    + intros [[H | (rg & data & Hin & Hx)] | (sn' & rgs' & rg & data & Hin & Hrg & Hx)].
      * auto.
      * right. exists sn, rgs, rg, data. auto.
      * right. exists sn', rgs', rg, data. auto.
    + intros [H | (sn' & rgs' & rg & data & [E | Hin] & Hrg & Hx)].
      * auto.
      * injection E as <- <-. left. right. exists rg, data. auto.
      * right. exists sn', rgs', rg, data. auto.
Qed.

Lemma gather_metric_names_permutation (d1 d2 : dict (dict metric_record))
  (m1 m2 : dict metric_record) :
  Permutation d1 d2 ->
  same_names (snd (gather_metric_names d1 m1)) (snd (gather_metric_names d2 m2)).
Proof.
  intros P x. unfold gather_metric_names. rewrite !In_gather_metric_names. simpl.
  split; intros [[] | (sn & rgs & rg & data & Hin & H)]; right; exists sn, rgs, rg, data;
    (split; [| exact H]).
  - apply (Permutation_in _ P Hin).
  - apply (Permutation_in _ (Permutation_sym P) Hin).
Qed.

(** C9.  The metadata builder is a function of the set of observed names:
    two lists holding the same names give the same pair of mappings.  It
    always returns; the keys of the column metadata follow the catalogue,
    each entry giving its percentage key, when observed, and then its own,
    and the keys of the beeswarm metadata are the eligible entries in
    catalogue order.  The order in which the documents were gathered
    upstream does not change the result. *)
Theorem metadata_builder_deterministic :
  (forall names1 names2,
     same_names names1 names2 ->
     make_mapping_stats_headers cfg names1 = make_mapping_stats_headers cfg names2)
  /\ (forall names,
        exists headers beeswarm,
          make_mapping_stats_headers cfg names = inr (headers, beeswarm)
          /\ keys headers = header_keys names
          /\ keys beeswarm = beeswarm_ids)
  /\ (forall d1 d2 m1 m2,
        Permutation d1 d2 ->
        make_mapping_stats_headers cfg (snd (gather_metric_names d1 m1))
        = make_mapping_stats_headers cfg (snd (gather_metric_names d2 m2))).
Proof.
  split; [exact make_mapping_stats_headers_ext | split].
  - intros names.
    unfold make_mapping_stats_headers, header_keys, beeswarm_ids.
    apply headers_from_empty; [exact count_column_total | exact possible_keys_nodup].
  - intros d1 d2 m1 m2 P. apply make_mapping_stats_headers_ext.
    now apply gather_metric_names_permutation.
Qed.

End BuilderFacts.

Lemma metadata_builder_deterministic_witness :
  make_mapping_stats_headers Examples.default_config ["Mapped reads pct"; "Mapped reads"]
  = make_mapping_stats_headers Examples.default_config
      ["Mapped reads"; "Mapped reads pct"; "Mapped reads"].
Proof.
  apply (proj1 (metadata_builder_deterministic Examples.default_config)).
  intros x. simpl. tauto.
Defined.

(* ===================================================================== *)
(** ** The coercion of the VALUE field (C6) *)
(* ===================================================================== *)

Section CoercionFacts.
Context {PF : PyFloat}.

(** What holds of a character that is a decimal digit. *)
Lemma digit_char (c : ascii) :
  PyStr.is_digit c = true ->
  PyStr.is_space c = false /\ Ascii.eqb c "-" = false /\ Ascii.eqb c "+" = false
  /\ Ascii.eqb c "_" = false /\ is_exp_mark c = false /\ is_point c = false
  /\ PyStr.lower_char c = c /\ Ascii.eqb c "i" = false /\ Ascii.eqb c "n" = false.
Proof.
  destruct c as [[] [] [] [] [] [] [] []]; vm_compute; intros H;
    try discriminate H; repeat split.
Qed.

Lemma all_digits_uint (d : uint) : PyStr.all_digits (NilEmpty.string_of_uint d) = true.
Proof. induction d; simpl; auto. Qed.

Lemma all_digits_cons (c : ascii) (s : string) :
  PyStr.all_digits (String c s) = true -> PyStr.is_digit c = true /\ PyStr.all_digits s = true.
Proof. simpl. intros H. apply andb_prop in H. exact H. Qed.

Lemma lstrip_digits (s : string) : PyStr.all_digits s = true -> PyStr.lstrip s = s.
Proof.
  destruct s as [| c s]; [reflexivity |]. intros H. apply all_digits_cons in H.
  destruct H as [H _]. apply digit_char in H. simpl. destruct H as [-> _]. reflexivity.
Qed.

Lemma rstrip_digits (s : string) : PyStr.all_digits s = true -> PyStr.rstrip s = s.
Proof.
  induction s as [| c s IH]; [reflexivity |]. intros H. apply all_digits_cons in H.
  destruct H as [Hc Hs]. simpl. rewrite (IH Hs). apply digit_char in Hc.
  destruct Hc as [-> _]. destruct s; reflexivity.
Qed.

Lemma strip_digits (s : string) : PyStr.all_digits s = true -> PyStr.strip s = s.
Proof.
  intros H. unfold PyStr.strip. rewrite (lstrip_digits s H). apply rstrip_digits, H.
Qed.

Lemma split_sign_digits (s : string) : PyStr.all_digits s = true -> split_sign s = (false, s).
Proof.
  destruct s as [| c s]; [reflexivity |]. intros H. apply all_digits_cons in H.
  destruct H as [H _]. apply digit_char in H. destruct H as (_ & Hm & Hp & _).
  simpl. rewrite Hm, Hp. reflexivity.
Qed.

Lemma digitpart_digits (s : string) :
  PyStr.all_digits s = true -> digitpart_from AfterDigit s = true.
Proof.
  induction s as [| c s IH]; [reflexivity |]. intros H. apply all_digits_cons in H.
  destruct H as [Hc Hs]. simpl. rewrite Hc. auto.
Qed.

Lemma remove_underscores_digits (s : string) :
  PyStr.all_digits s = true -> PyStr.remove_char "_" s = s.
Proof.
  induction s as [| c s IH]; [reflexivity |]. intros H. apply all_digits_cons in H.
  destruct H as [Hc Hs]. simpl. rewrite (IH Hs). apply digit_char in Hc.
  destruct Hc as (_ & _ & _ & -> & _). reflexivity.
Qed.

Lemma digits_of_digits (s : string) :
  s <> "" -> PyStr.all_digits s = true -> digits_of s = Some s.
Proof.
  intros Hne H. unfold digits_of, valid_digitpart.
  destruct s as [| c s]; [congruence |].
  pose proof (all_digits_cons c s H) as [Hc Hs].
  simpl. rewrite Hc, (digitpart_digits s Hs).
  f_equal. apply (remove_underscores_digits (String c s) H).
Qed.

Lemma string_of_uint_nonempty (d : uint) : d <> Nil -> NilEmpty.string_of_uint d <> "".
Proof. destruct d; simpl; congruence. Qed.

(** [int()] reads a string of digits as the number it writes, as long as
    the digits are no more than the interpreter converts. *)
Lemma py_int_digits (d : uint) :
  d <> Nil ->
  (N.of_nat (String.length (NilEmpty.string_of_uint d)) <= int_max_str_digits)%N ->
  py_int (NilEmpty.string_of_uint d) = Some (Z.of_N (N.of_uint d)).
Proof.
  intros Hd Hlen. unfold py_int.
  rewrite (strip_digits _ (all_digits_uint d)).
  rewrite (split_sign_digits _ (all_digits_uint d)).
  rewrite (digits_of_digits _ (string_of_uint_nonempty d Hd) (all_digits_uint d)).
  cbn [option_bind]. apply N.leb_le in Hlen. rewrite Hlen.
  unfold decimal_reading. rewrite NilEmpty.usu. reflexivity.
Qed.

Lemma strip_negative_digits (s : string) :
  s <> "" -> PyStr.all_digits s = true -> PyStr.strip (String "-" s) = String "-" s.
Proof.
  intros Hne Hd. unfold PyStr.strip. simpl. rewrite (rstrip_digits _ Hd).
  destruct s; [congruence | reflexivity].
Qed.

Lemma py_int_negative_digits (d : uint) :
  d <> Nil ->
  (N.of_nat (String.length (NilEmpty.string_of_uint d)) <= int_max_str_digits)%N ->
  py_int (String "-" (NilEmpty.string_of_uint d)) = Some (Z.opp (Z.of_N (N.of_uint d))).
Proof.
  intros Hd Hlen. unfold py_int.
  rewrite (strip_negative_digits _ (string_of_uint_nonempty d Hd) (all_digits_uint d)).
  cbn [split_sign Ascii.eqb Bool.eqb].
  rewrite (digits_of_digits _ (string_of_uint_nonempty d Hd) (all_digits_uint d)).
  cbn [option_bind]. apply N.leb_le in Hlen. rewrite Hlen.
  unfold decimal_reading. rewrite NilEmpty.usu. reflexivity.
Qed.

(** A text of more digits than the interpreter converts is refused,
    whatever its sign. *)
Lemma py_int_too_long (neg : bool) (s : string) :
  s <> "" -> PyStr.all_digits s = true ->
  (int_max_str_digits < N.of_nat (String.length s))%N ->
  py_int (if neg then String "-" s else s) = None.
Proof.
  intros Hne Hd Hlen. unfold py_int.
  assert (Hsign : split_sign (PyStr.strip (if neg then String "-" s else s)) = (neg, s)).
  { destruct neg.
    - rewrite (strip_negative_digits s Hne Hd). reflexivity.
    - rewrite (strip_digits s Hd). apply split_sign_digits, Hd. }
  rewrite Hsign, (digits_of_digits s Hne Hd). cbn [option_bind].
  apply N.leb_gt in Hlen. rewrite Hlen. reflexivity.
Qed.

(** The decimal writing of an integer, by its sign. *)
Lemma py_str_int_cases (z : Z) :
  exists d,
    d <> Nil
    /\ py_str_int (Z.abs z) = NilEmpty.string_of_uint d
    /\ py_str_int z = (if Z.ltb z 0 then String "-" (NilEmpty.string_of_uint d)
                       else NilEmpty.string_of_uint d)
    /\ N.of_uint d = Z.abs_N z.
Proof.
  destruct z as [| p | p].
  - exists (D0 Nil). repeat split. discriminate.
  - exists (Pos.to_uint p). pose proof (Unsigned.to_uint_nonnil p) as Hp.
    assert (E : py_str_int (Zpos p) = NilEmpty.string_of_uint (Pos.to_uint p)).
    { unfold py_str_int. simpl. unfold NilZero.string_of_uint.
      destruct (Pos.to_uint p); [congruence | reflexivity ..]. }
    repeat split; [exact Hp | exact E | exact E |].
    unfold N.of_uint. rewrite Unsigned.of_to. reflexivity.
  - exists (Pos.to_uint p). pose proof (Unsigned.to_uint_nonnil p) as Hp.
    assert (E : NilZero.string_of_uint (Pos.to_uint p)
                = NilEmpty.string_of_uint (Pos.to_uint p)).
    { unfold NilZero.string_of_uint.
      destruct (Pos.to_uint p); [congruence | reflexivity ..]. }
    repeat split; [exact Hp | | |].
    + unfold py_str_int. simpl. exact E.
    + unfold py_str_int. simpl. now rewrite E.
    + unfold N.of_uint. rewrite Unsigned.of_to. reflexivity.
Qed.

(** [int(str(z)) == z], for an integer that the interpreter converts. *)
Lemma py_int_str (z : Z) :
  (digit_count z <= int_max_str_digits)%N -> py_int (py_str_int z) = Some z.
Proof.
  unfold digit_count. destruct (py_str_int_cases z) as (d & Hd & Eabs & Ez & Hval).
  rewrite Eabs, Ez. intros Hlen. destruct (Z.ltb z 0) eqn:Hneg.
  - rewrite (py_int_negative_digits d Hd Hlen), Hval. f_equal.
    apply Z.ltb_lt in Hneg. lia.
  - rewrite (py_int_digits d Hd Hlen), Hval. f_equal.
    apply Z.ltb_ge in Hneg. lia.
Qed.

(** [int(str(z))] raises for a longer one. *)
Lemma py_int_str_long (z : Z) :
  (int_max_str_digits < digit_count z)%N -> py_int (py_str_int z) = None.
Proof.
  unfold digit_count. destruct (py_str_int_cases z) as (d & Hd & Eabs & Ez & _).
  rewrite Eabs, Ez. intros Hlen.
  apply (py_int_too_long (Z.ltb z 0) _ (string_of_uint_nonempty d Hd) (all_digits_uint d) Hlen).
Qed.

(** *** Plain decimals: digits, a point, digits *)

Lemma lower_digits (s : string) : PyStr.all_digits s = true -> PyStr.lower s = s.
Proof.
  induction s as [| c s IH]; [reflexivity |]. intros H. apply all_digits_cons in H.
  destruct H as [Hc Hs]. simpl. rewrite (IH Hs). apply digit_char in Hc.
  destruct Hc as (_ & _ & _ & _ & _ & _ & -> & _). reflexivity.
Qed.

Lemma lower_append (s t : string) : PyStr.lower (s ++ t) = PyStr.lower s ++ PyStr.lower t.
Proof. induction s as [| c s IH]; simpl; [reflexivity | now rewrite IH]. Qed.

Lemma rstrip_append (s t : string) :
  t <> "" -> PyStr.rstrip t = t -> PyStr.rstrip (s ++ t) = s ++ t.
Proof.
  intros Hne Ht. induction s as [| c s IH]; simpl; [exact Ht |].
  rewrite IH. destruct (s ++ t) eqn:E; [| reflexivity].
  exfalso. destruct s; simpl in E; [congruence | discriminate].
Qed.

Lemma break_at_digits (p : ascii -> bool) (s t : string) :
  (forall c, PyStr.is_digit c = true -> p c = false) ->
  PyStr.all_digits s = true ->
  break_at p (s ++ t) = (s ++ fst (break_at p t), snd (break_at p t)).
Proof.
  intros Hp. induction s as [| c s IH]; simpl; intros H.
  - destruct (break_at p t); reflexivity.
  - apply andb_prop in H. destruct H as [Hc Hs]. rewrite (Hp c Hc), (IH Hs). reflexivity.
Qed.

Lemma break_at_no_match (p : ascii -> bool) (s : string) :
  (forall c, PyStr.is_digit c = true -> p c = false) ->
  PyStr.all_digits s = true -> break_at p s = (s, None).
Proof.
  intros Hp. induction s as [| c s IH]; simpl; intros H; [reflexivity |].
  apply andb_prop in H. destruct H as [Hc Hs]. rewrite (Hp c Hc), (IH Hs). reflexivity.
Qed.

Lemma digits_not_exp_mark (c : ascii) : PyStr.is_digit c = true -> is_exp_mark c = false.
Proof. intros H. apply digit_char in H. tauto. Qed.

Lemma digits_not_point (c : ascii) : PyStr.is_digit c = true -> is_point c = false.
Proof. intros H. apply digit_char in H. tauto. Qed.

Lemma digitpart_with_point (st : digit_state) (i t : string) :
  PyStr.all_digits i = true -> digitpart_from st (i ++ String "." t) = false.
Proof.
  revert st. induction i as [| c i IH]; simpl; intros st H; [reflexivity |].
  apply andb_prop in H. destruct H as [Hc Hi]. rewrite Hc. auto.
Qed.

Lemma uint_of_digits (s : string) :
  PyStr.all_digits s = true -> exists d, NilEmpty.uint_of_string s = Some d.
Proof.
  induction s as [| c s IH]; simpl; intros H; [eauto |].
  apply andb_prop in H. destruct H as [Hc Hs]. destruct (IH Hs) as (d & ->).
  revert Hc. destruct c as [[] [] [] [] [] [] [] []]; vm_compute; intros Hc;
    try discriminate Hc; eauto.
Qed.

Lemma all_digits_append (s t : string) :
  PyStr.all_digits s = true -> PyStr.all_digits t = true -> PyStr.all_digits (s ++ t) = true.
Proof.
  induction s as [| c s IH]; simpl; intros Hs Ht; [exact Ht |].
  apply andb_prop in Hs. destruct Hs as [-> Hs]. simpl. auto.
Qed.

Lemma py_float_decimal (i f : string) :
  i <> "" -> f <> "" -> PyStr.all_digits i = true -> PyStr.all_digits f = true ->
  exists m,
    decimal_reading (i ++ f) = Some m
    /\ py_int (i ++ "." ++ f) = None
    /\ py_float (i ++ "." ++ f) = Some (F_of_dec false m (0 - Z.of_nat (String.length f))).
Proof.
  intros Hi Hf Di Df.
  destruct (uint_of_digits (i ++ f) (all_digits_append i f Di Df)) as (d & Hd).
  exists (N.of_uint d).
  assert (Hread : decimal_reading (i ++ f) = Some (N.of_uint d)).
  { unfold decimal_reading. now rewrite Hd. }
  assert (Hstrip : PyStr.strip (i ++ "." ++ f) = i ++ "." ++ f).
  { unfold PyStr.strip.
    assert (Hl : PyStr.lstrip (i ++ "." ++ f) = i ++ "." ++ f).
    { destruct i as [| c i]; [congruence |]. apply andb_prop in Di. destruct Di as [Hc _].
      apply digit_char in Hc. simpl. destruct Hc as [-> _]. reflexivity. }
    rewrite Hl. apply rstrip_append.
    - discriminate.
    - simpl. rewrite (rstrip_digits f Df). destruct f; [congruence | reflexivity]. }
  assert (Hsign : split_sign (i ++ "." ++ f) = (false, i ++ "." ++ f)).
  { destruct i as [| c i]; [congruence |]. apply andb_prop in Di. destruct Di as [Hc _].
    apply digit_char in Hc. destruct Hc as (_ & Hm & Hp & _). simpl. rewrite Hm, Hp.
    reflexivity. }
  split; [exact Hread | split].
  - unfold py_int. rewrite Hstrip, Hsign. unfold digits_of, valid_digitpart.
    simpl. rewrite (digitpart_with_point AtStart i f Di). reflexivity.
  - unfold py_float. rewrite Hstrip, Hsign.
    assert (Hlow : PyStr.lower (i ++ "." ++ f) = i ++ "." ++ f).
    { rewrite lower_append, (lower_digits i Di). simpl. now rewrite (lower_digits f Df). }
    rewrite Hlow.
    assert (Hword : forall w, (String.eqb (i ++ "." ++ f) (String "i" w) = false)
                              /\ (String.eqb (i ++ "." ++ f) (String "n" w) = false)).
    { intros w. destruct i as [| c i]; [congruence |]. apply andb_prop in Di.
      destruct Di as [Hc _]. apply digit_char in Hc.
      destruct Hc as (_ & _ & _ & _ & _ & _ & _ & Hci & Hcn). simpl. now rewrite Hci, Hcn. }
    rewrite (proj1 (Hword "nf")), (proj1 (Hword "nfinity")), (proj2 (Hword "an")). simpl.
    assert (Hexp : break_at is_exp_mark (i ++ "." ++ f) = (i ++ "." ++ f, None)).
    { rewrite (break_at_digits is_exp_mark i _ digits_not_exp_mark Di). simpl.
      rewrite (break_at_no_match is_exp_mark f digits_not_exp_mark Df). reflexivity. }
    simpl in Hexp. rewrite Hexp. simpl.
    unfold mantissa_value.
    rewrite (break_at_digits is_point i _ digits_not_point Di). simpl.
    rewrite append_nil_r.
    rewrite (digits_of_digits i Hi Di), (digits_of_digits f Hf Df).
    destruct i as [| ci i]; [congruence |]. destruct f as [| cf f]; [congruence |].
    cbn [option_bind option_map]. rewrite Hread. reflexivity.
Qed.

(** [float()] reads a string of digits, signed or not, as the float of its
    decimal reading: it has no limit on the digits. *)
Lemma py_float_all_digits (neg : bool) (s : string) (m : N) :
  s <> "" -> PyStr.all_digits s = true -> decimal_reading s = Some m ->
  py_float (if neg then String "-" s else s) = Some (F_of_dec neg m 0).
Proof.
  intros Hne Hd Hm. unfold py_float.
  assert (Hsign : split_sign (PyStr.strip (if neg then String "-" s else s)) = (neg, s)).
  { destruct neg.
    - rewrite (strip_negative_digits s Hne Hd). reflexivity.
    - rewrite (strip_digits s Hd). apply split_sign_digits, Hd. }
  rewrite Hsign, (lower_digits s Hd).
  assert (Hword : forall w, String.eqb s (String "i" w) = false
                            /\ String.eqb s (String "n" w) = false).
  { intros w. destruct s as [| c s]; [congruence |]. apply andb_prop in Hd.
    destruct Hd as [Hc _]. apply digit_char in Hc.
    destruct Hc as (_ & _ & _ & _ & _ & _ & _ & Hci & Hcn). simpl. now rewrite Hci, Hcn. }
  rewrite (proj1 (Hword "nf")), (proj1 (Hword "nfinity")), (proj2 (Hword "an")).
  cbn [orb].
  rewrite (break_at_no_match is_exp_mark s digits_not_exp_mark Hd).
  cbn [option_bind]. unfold mantissa_value.
  rewrite (break_at_no_match is_point s digits_not_point Hd).
  rewrite (digits_of_digits s Hne Hd). cbn [option_bind]. rewrite Hm. reflexivity.
Qed.

(** [float(str(z))] *)
Lemma py_float_str (z : Z) :
  py_float (py_str_int z) = Some (F_of_dec (Z.ltb z 0) (Z.abs_N z) 0).
Proof.
  destruct (py_str_int_cases z) as (d & Hd & _ & Ez & Hval).
  rewrite Ez, <- Hval.
  apply (py_float_all_digits (Z.ltb z 0) _ _ (string_of_uint_nonempty d Hd) (all_digits_uint d)).
  unfold decimal_reading. rewrite NilEmpty.usu. reflexivity.
Qed.

(** *** Where the coerced value goes *)

Lemma store_lookup (entity metric : string) (v : value) (percentage : option value)
  (d : dict metric_record) :
  exists r, dict_get entity (store entity metric v percentage d) = Some r
            /\ dict_get metric r = Some v.
Proof.
  unfold store, metric_record in *. cbv zeta.
  set (d1 := dd_update entity (dict_set metric v) d).
  assert (H1 : dict_get entity d1 = Some (dict_set metric v (or_empty (dict_get entity d)))).
  { unfold d1. now rewrite dict_get_dd_update, String.eqb_refl. }
  destruct percentage as [p |].
  - exists (dict_set (metric ++ " pct") p (dict_set metric v (or_empty (dict_get entity d)))).
    split.
    + rewrite dict_get_dd_update, String.eqb_refl, H1. reflexivity.
    + rewrite dict_get_set_neq by (apply append_neq_self; discriminate).
      apply dict_get_set_eq.
  - exists (dict_set metric v (or_empty (dict_get entity d))).
    split; [exact H1 | apply dict_get_set_eq].
Qed.

Lemma index_inr {A : Type} (n : nat) (l : list A) (x : A) :
  index n l = inr x <-> nth_error l n = Some x.
Proof.
  unfold index, of_option, ret, raise. destruct (nth_error l n); split; congruence.
Qed.

(** C6, as the code has it.  The VALUE field of a row is coerced by
    trying [int], then [float], and is otherwise left as the text it was:
    the decimal writing of an integer of at most 4300 digits comes back as
    that integer, and a longer one, which [int] refuses, as the float of
    its decimal reading; digits with a decimal point come back as the float
    of their decimal reading, and [NA], which neither constructor accepts,
    stays [NA] (it is never turned into a zero by the coercion).  The value
    so coerced is what the row stores under its metric, for the read group
    of a per-read-group row and for the phenotype of a summary row. *)
Theorem value_coercion :
  (forall z, (digit_count z <= 4300)%N -> coerce_value (py_str_int z) = VInt z)
  /\ (forall z, (4300 < digit_count z)%N ->
        coerce_value (py_str_int z) = VFloat (F_of_dec (Z.ltb z 0) (Z.abs_N z) 0))
  /\ (forall s x, py_int s = None -> py_float s = Some x -> coerce_value s = VFloat x)
  /\ (forall i f,
        i <> "" -> f <> "" -> PyStr.all_digits i = true -> PyStr.all_digits f = true ->
        exists m,
          decimal_reading (i ++ f) = Some m
          /\ coerce_value (i ++ "." ++ f)
             = VFloat (F_of_dec false m (0 - Z.of_nat (String.length f))))
  /\ (forall s, py_int s = None -> py_float s = None -> coerce_value s = VStr s)
  /\ (py_int "NA" = None /\ py_float "NA" = None /\ coerce_value "NA" = NA)
  /\ (forall line rgs phs rgs' phs' section_label entity metric raw rest,
        PyStr.split "," line = section_label :: entity :: metric :: raw :: rest ->
        parse_line line (rgs, phs) = inr (rgs', phs') ->
        (nth_error (PyStr.split "/" section_label) 1 = Some "ALIGNING PER RG" ->
         exists r, dict_get entity rgs' = Some r
                   /\ dict_get metric r = Some (coerce_value raw))
        /\ (nth_error (PyStr.split "/" section_label) 1 = Some "ALIGNING SUMMARY" ->
            exists phenotype r,
              dict_get phenotype phs' = Some r
              /\ dict_get metric r = Some (coerce_value raw))).
Proof.
  split; [| split; [| split; [| split; [| split; [| split]]]]].
  - intros z Hz. unfold coerce_value. now rewrite (py_int_str z Hz).
  - intros z Hz. unfold coerce_value.
    now rewrite (py_int_str_long z Hz), (py_float_str z).
  - intros s x Hi Hf. unfold coerce_value. now rewrite Hi, Hf.
  - intros i f Hi Hf Di Df.
    destruct (py_float_decimal i f Hi Hf Di Df) as (m & Hm & Hint & Hfloat).
    exists m. split; [exact Hm |]. unfold coerce_value. now rewrite Hint, Hfloat.
  - intros s Hi Hf. unfold coerce_value. now rewrite Hi, Hf.
  - repeat split.
  - intros line rgs phs rgs' phs' sec entity metric raw rest Hsplit H.
    unfold parse_line in H. rewrite Hsplit in H. simpl in H.
    bind_inv H. bind_inv H. bind_inv H. bind_inv H.
    split.
    + intros Hkind. apply index_inr in Hx1. rewrite Hkind in Hx1. injection Hx1 as <-.
      simpl in H. injection H as <- _. apply store_lookup.
    + intros Hkind. apply index_inr in Hx1. rewrite Hkind in Hx1. injection Hx1 as <-.
      simpl in H. injection H as _ <-. exists (PyStr.lower x0). apply store_lookup.
Qed.

End CoercionFacts.

Lemma value_coercion_witness :
  coerce_value (py_str_int 1048576) = VInt 1048576
  /\ exists m,
       decimal_reading ("96" ++ "86") = Some m
       /\ coerce_value ("96" ++ "." ++ "86")
          = VFloat (F_of_dec false m (0 - Z.of_nat (String.length "86"))).
Proof.
  destruct (@value_coercion ExactFloat.exact) as (Hint & _ & _ & H & _).
  split.
  - apply (Hint 1048576). apply N.leb_le. reflexivity.
  - apply (H "96" "86"); [discriminate | discriminate | reflexivity | reflexivity].
Defined.

(** C6, as the specification states it, does not hold of every
    integer-looking text: [int] refuses a text of 4301 digits, and the value
    of the row is a float, not the integer that the digits write. *)
Lemma long_integer_is_coerced_to_float :
  PyStr.all_digits Examples.long_digits = true
  /\ N.of_nat (String.length Examples.long_digits) = 4301%N
  /\ py_int Examples.long_digits = None
  /\ (exists x, py_float Examples.long_digits = Some x
                /\ coerce_value Examples.long_digits = VFloat x)
  /\ forall z, coerce_value Examples.long_digits <> VInt z.
Proof.
  assert (Hint : py_int Examples.long_digits = None) by (vm_compute; reflexivity).
  assert (Hfloat : match py_float Examples.long_digits with
                   | Some _ => true
                   | None => false
                   end = true) by (vm_compute; reflexivity).
  split; [vm_compute; reflexivity |].
  split; [vm_compute; reflexivity |].
  split; [exact Hint |].
  unfold coerce_value. rewrite Hint.
  destruct (py_float Examples.long_digits) as [x |]; [| discriminate Hfloat].
  split; [exists x; split; reflexivity | intros z Hz; discriminate Hz].
Qed.

(* ===================================================================== *)
(** ** The mappings of a run are dictionaries *)
(* ===================================================================== *)

Section PipelineFacts.
Context {PF : PyFloat}.
Variable ignored : string -> bool.

Lemma dict_wf_nil {V : Type} : dict_wf (@nil (string * V)).
Proof. constructor. Qed.

Lemma records_wf_dd_update (entity : string) (f : metric_record -> metric_record)
  (d : dict metric_record) :
  (forall r, dict_wf r -> dict_wf (f r)) ->
  records_wf d -> records_wf (dd_update entity f d).
Proof.
  intros Hf Hd k r Hin. unfold dd_update in Hin. apply In_dict_set in Hin.
  destruct Hin as [[_ ->] | Hin]; [| exact (Hd k r Hin)].
  apply Hf. unfold metric_record in *.
  destruct (dict_get entity d) as [x |] eqn:E; simpl; [| apply dict_wf_nil].
  apply dict_get_In in E. exact (Hd entity x E).
Qed.

Lemma store_records_wf (entity metric : string) (v : value) (percentage : option value)
  (d : dict metric_record) :
  records_wf d -> records_wf (store entity metric v percentage d).
Proof.
  intros H. unfold store.
  destruct percentage; repeat apply records_wf_dd_update; auto; intros r; apply dict_wf_set.
Qed.

Lemma parse_line_records_wf (line : string)
  (acc acc' : dict metric_record * dict metric_record) :
  parse_line line acc = inr acc' ->
  records_wf (fst acc) /\ records_wf (snd acc) ->
  records_wf (fst acc') /\ records_wf (snd acc').
Proof.
  unfold parse_line. destruct acc as [rgs phs]. intros H [Hrg Hph].
  repeat bind_inv H.
  assert (Hph' : records_wf (if String.eqb x2 "ALIGNING SUMMARY"
                             then store (PyStr.lower x1) x3 (coerce_value x4) x5 phs
                             else phs)).
  { destruct (String.eqb x2 "ALIGNING SUMMARY"); [apply store_records_wf |]; assumption. }
  destruct (String.eqb x2 "ALIGNING PER RG").
  - bind_inv H. injection H as <-. simpl. split; [apply store_records_wf |]; assumption.
  - injection H as <-. simpl. auto.
Qed.

Lemma parse_lines_records_wf (text : string) (rgs phs : dict metric_record) :
  parse_lines text = inr (rgs, phs) -> records_wf rgs /\ records_wf phs.
Proof.
  unfold parse_lines. intros H.
  apply (foldM_invariant parse_line
           (fun acc => records_wf (fst acc) /\ records_wf (snd acc))
           (PyStr.splitlines text)) in H.
  - exact H.
  - intros line s s' _ Hs Hline. exact (parse_line_records_wf line s s' Hline Hs).
  - split; intros ? ? [].
Qed.

Lemma zero_if_na_wf (k : string) (d d' : metric_record) :
  zero_if_na k d = inr d' -> dict_wf d -> dict_wf d'.
Proof.
  unfold zero_if_na. intros H Hd. bind_inv H. injection H as <-.
  destruct (py_eq x NA); [apply dict_wf_set |]; assumption.
Qed.

Lemma copy_if_na_wf (k source : string) (d d' : metric_record) :
  copy_if_na k source d = inr d' -> dict_wf d -> dict_wf d'.
Proof.
  unfold copy_if_na. intros H Hd. bind_inv H. destruct (py_eq x NA).
  - bind_inv H. injection H as <-. apply dict_wf_set. assumption.
  - injection H as <-. assumption.
Qed.

Lemma add_pct_wf (key numerator denominator : string) (d d' : metric_record) :
  add_pct key numerator denominator d = inr d' -> dict_wf d -> dict_wf d'.
Proof.
  unfold add_pct. intros H Hd. repeat bind_inv H. injection H as <-.
  apply dict_wf_set. assumption.
Qed.

Lemma if_positive_wf (metric : string) (body : metric_record -> result metric_record)
  (d d' : metric_record) :
  (forall x x', body x = inr x' -> dict_wf x -> dict_wf x') ->
  if_positive metric body d = inr d' -> dict_wf d -> dict_wf d'.
Proof.
  intros Hbody H Hd. apply if_positive_inr in H. destruct H as (v & b & _ & _ & H).
  destruct b; [exact (Hbody _ _ H Hd) | now subst].
Qed.

Lemma fixup_record_wf (r r' : metric_record) :
  fixup_record r = inr r' -> dict_wf r -> dict_wf r'.
Proof.
  unfold fixup_record. intros H Hr.
  bind_inv H. apply zero_if_na_wf in Hx; [| assumption].
  bind_inv H. apply zero_if_na_wf in Hx0; [| assumption].
  bind_inv H. apply copy_if_na_wf in Hx1; [| assumption].
  bind_inv H. apply if_positive_wf in Hx2; [| apply add_pct_wf | assumption].
  apply if_positive_wf in H; [assumption | | assumption].
  intros y y' Hy Hwf. bind_inv Hy. bind_inv Hy.
  apply add_pct_wf in Hx3; [| assumption]. apply add_pct_wf in Hx4; [| assumption].
  apply add_pct_wf in Hy; assumption.
Qed.

Lemma fixup_all_records_wf (raw fixed : dict metric_record) :
  fixup_all raw = inr fixed -> records_wf raw -> records_wf fixed.
Proof.
  intros H Hraw entity r' Hin. unfold fixup_all in H.
  destruct (mapM_In _ _ _ H (entity, r') Hin) as ([entity0 r] & Hin0 & Hbody).
  bind_inv Hbody. injection Hbody as _ <-.
  apply (fixup_record_wf r x Hx). exact (Hraw entity0 r Hin0).
Qed.

(** The record parser returns dictionaries of dictionaries. *)
Lemma parse_mapping_metrics_file_records_wf (f : log_file) (s_name : string)
  (rgs phs : dict metric_record) :
  parse_mapping_metrics_file f = inr (s_name, rgs, phs) ->
  records_wf rgs /\ records_wf phs.
Proof.
  intros H. apply parse_mapping_metrics_file_inr in H.
  destruct H as (raw_rg & raw_ph & _ & Hlines & Hrg & Hph).
  apply parse_lines_records_wf in Hlines. destruct Hlines as [Wrg Wph].
  split; eapply fixup_all_records_wf; eauto.
Qed.

Lemma collect_files_wf (files : list log_file) (c : collected) :
  collect_files files = inr c -> documents_wf (by_phenotype c) /\ documents_wf (by_rg c).
Proof.
  unfold collect_files. intros H.
  apply (foldM_invariant add_file
           (fun c => documents_wf (by_phenotype c) /\ documents_wf (by_rg c)) files) in H.
  - exact H.
  - intros f s s' _ [Hph Hrg] Hadd. unfold add_file in Hadd. bind_inv Hadd.
    injection Hadd as <-. destruct x as [[s_name rgs] phs].
    apply parse_mapping_metrics_file_records_wf in Hx. destruct Hx as [Wrg Wph].
    simpl. split; intros sn records Hin; apply In_dict_set in Hin;
      destruct Hin as [[_ ->] | Hin]; eauto.
  - split; intros ? ? [].
Qed.

Lemma flatten_document_wf (sn : string) (phenotypes acc : dict metric_record) :
  records_wf phenotypes -> dict_wf acc /\ records_wf acc ->
  dict_wf (flatten_document sn phenotypes acc)
  /\ records_wf (flatten_document sn phenotypes acc).
Proof.
  unfold flatten_document. revert acc.
  induction phenotypes as [| [ph r] phs IH]; simpl; intros acc Hphs [Hwf Hrec]; [auto |].
  apply IH.
  - intros k x Hin. apply (Hphs k x). right. exact Hin.
  - split; [apply dict_wf_set; assumption |].
    intros k x Hin. apply In_dict_set in Hin. destruct Hin as [[_ ->] | Hin].
    + apply (Hphs ph r). left. reflexivity.
    + exact (Hrec k x Hin).
Qed.

Lemma flatten_samples_wf (d : dict (dict metric_record)) :
  documents_wf d -> dict_wf (flatten_samples d) /\ records_wf (flatten_samples d).
Proof.
  unfold flatten_samples.
  assert (H : forall acc, documents_wf d -> dict_wf acc /\ records_wf acc ->
            dict_wf (fold_left (fun acc '(sn, phenotypes) =>
                                  flatten_document sn phenotypes acc) d acc)
            /\ records_wf (fold_left (fun acc '(sn, phenotypes) =>
                                        flatten_document sn phenotypes acc) d acc)).
  { induction d as [| [sn phs] d IH]; simpl; intros acc Hd Hacc; [exact Hacc |].
    apply IH.
    - intros k x Hin. apply (Hd k x). right. exact Hin.
    - apply flatten_document_wf; [| exact Hacc]. apply (Hd sn phs). left. reflexivity. }
  intros Hd. apply H; [exact Hd |]. split; [constructor | intros ? ? []].
Qed.

(** The merged per-sample mapping of a run is a dictionary of dictionaries:
    what the promotion invariant asks of its argument. *)
Lemma flattened_samples_wf (files : list log_file) (d : dict metric_record) :
  flattened_samples ignored files = inr d -> dict_wf d /\ records_wf d.
Proof.
  unfold flattened_samples. intros H. bind_inv H. injection H as <-.
  apply collect_files_wf in Hx. destruct Hx as [Hph _].
  apply flatten_samples_wf. intros sn records Hin.
  unfold ignore_samples in Hin. apply filter_In in Hin. destruct Hin as [Hin _].
  exact (Hph sn records Hin).
Qed.

End PipelineFacts.

(* ===================================================================== *)
(** * Further properties of the module *)
(* ===================================================================== *)

(** ** The chart projections *)

Section MoreChartFacts.
Context {PF : PyFloat}.



(** The loop of a view, on a mapping with unique names. *)
Lemma chart_loop_returns (sum : metric_record -> result value) (warning : string -> string)
  (data : dict metric_record) :
  forall chart0 log0,
    NoDup (keys chart0 ++ keys data) ->
    forallb (fun entry => checkable sum (snd entry)) data = true ->
    foldM (chart_step sum warning) data (chart0, log0)
    = inr ((chart0 ++ charted sum data)%list, (log0 ++ warned sum warning data)%list).
Proof.
  unfold charted, warned.
  induction data as [| [id0 r0] data IH]; simpl; intros chart0 log0 Hnodup Hall.
  - now rewrite !app_nil_r.
  - apply andb_prop in Hall. destruct Hall as [Hr0 Hall].
    unfold checkable in Hr0. apply andb_prop in Hr0. destruct Hr0 as [Hs Ht].
    unfold reconciles.
    destruct (sum r0) as [e | s]; [discriminate Hs |].
    destruct (getitem "Total reads in RG" r0) as [e | total]; [discriminate Ht |].
    simpl. unfold py_ne.
    assert (Hfresh : ~ In id0 (keys chart0)).
    { apply NoDup_remove_2 in Hnodup. rewrite in_app_iff in Hnodup. tauto. }
    destruct (py_eq s total); simpl.
    + rewrite dict_set_fresh by exact Hfresh. rewrite IH; [| | exact Hall].
      * now rewrite <- app_assoc.
      * unfold keys in *. rewrite map_app, <- app_assoc. exact Hnodup.
    + rewrite IH; [| | exact Hall].
      * now rewrite <- app_assoc.
      * apply NoDup_remove_1 in Hnodup. exact Hnodup.
Qed.

Lemma chart_loop_raises (sum : metric_record -> result value) (warning : string -> string)
  (data : dict metric_record) :
  forall acc,
    forallb (fun entry => checkable sum (snd entry)) data = false ->
    is_ok (foldM (chart_step sum warning) data acc) = false.
Proof.
  induction data as [| [id0 r0] data IH]; simpl; intros [chart0 log0] Hall; [discriminate |].
  unfold checkable in Hall at 1.
  destruct (sum r0) as [e | s]; [reflexivity |].
  destruct (getitem "Total reads in RG" r0) as [e | total]; [reflexivity |].
  simpl in *. destruct (py_ne s total); simpl; apply IH; exact Hall.
Qed.

Lemma chart_exact (sum : metric_record -> result value) (warning : string -> string)
  (data chart : dict metric_record) (log : list log_entry) :
  dict_wf data ->
  foldM (chart_step sum warning) data ([], []) = inr (chart, log)
  <-> forallb (fun entry => checkable sum (snd entry)) data = true
      /\ chart = charted sum data /\ log = warned sum warning data.
Proof.
  intros Hwf. split.
  - intros H.
    destruct (forallb (fun entry => checkable sum (snd entry)) data) eqn:E.
    + pose proof (chart_loop_returns sum warning data [] [] Hwf E) as R.
      assert (Heq : @inr exn _ (chart, log) = inr (charted sum data, warned sum warning data))
        by (rewrite <- H; exact R).
      injection Heq as -> ->. auto.
    + pose proof (chart_loop_raises sum warning data ([], []) E) as F.
      rewrite H in F. discriminate F.
  - intros (E & -> & ->). apply (chart_loop_returns sum warning data [] [] Hwf E).
Qed.

(** X2.  On a mapping with unique names, each view returns exactly when
    its test can be evaluated on every record; the chart is then the input
    restricted to the read groups that reconcile, in the order of the input,
    and the log holds one warning for each of the others, in the same
    order. *)
Theorem charts_keep_reconciling_read_groups (data chart : dict metric_record)
  (log : list log_entry) :
  dict_wf data ->
  (map_dup_read_chart data = inr (chart, log)
   <-> forallb (fun entry => checkable dup_sum (snd entry)) data = true
       /\ chart = charted dup_sum data /\ log = warned dup_sum dup_warning data)
  /\ (map_pair_read_chart data = inr (chart, log)
      <-> forallb (fun entry => checkable pair_sum (snd entry)) data = true
          /\ chart = charted pair_sum data /\ log = warned pair_sum pair_warning data).
Proof.
  intros Hwf. split; apply chart_exact; exact Hwf.
Qed.

Lemma py_add_inl (a b : value) (e : exn) :
  py_add a b = inl e -> e = TypeError \/ e = OverflowError.
Proof.
  destruct a, b; simpl; unfold ret, raise; try discriminate;
    try (intros H; injection H as <-; auto);
    intros H; apply bind_inl in H; destruct H as [H | (? & _ & H)];
    try discriminate; apply to_float_inl in H; auto.
Qed.

Lemma foldM_inl {A S : Type} (body : A -> S -> result S) (xs : list A) (acc : S) (e : exn) :
  foldM body xs acc = inl e -> exists x s, In x xs /\ body x s = inl e.
Proof.
  revert acc; induction xs as [| x xs IH]; simpl; intros acc H; [discriminate |].
  apply bind_inl in H. destruct H as [H | (s & _ & H)].
  - exists x, acc. auto.
  - destruct (IH _ H) as (x' & s' & ? & ?). exists x', s'. auto.
Qed.

Lemma foldM_fails {A S : Type} (body : A -> S -> result S) (xs : list A) (x : A) :
  In x xs -> (forall s, is_ok (body x s) = false) ->
  forall acc, is_ok (foldM body xs acc) = false.
Proof.
  induction xs as [| x' xs IH]; simpl; intros Hin Hx acc; [contradiction |].
  destruct Hin as [-> | Hin].
  - specialize (Hx acc). destruct (body x acc); [reflexivity | discriminate].
  - destruct (body x' acc); [reflexivity |]. simpl. apply IH; assumption.
Qed.

Lemma getitem_chart_error (reads : list string) (data : dict metric_record)
  (id k : string) (r : metric_record) (e : exn) :
  In (id, r) data -> In k reads -> getitem k r = inl e -> chart_error reads data e.
Proof.
  intros Hin Hk H. apply getitem_inl in H. destruct H as [-> H].
  left. exists k, id, r. auto.
Qed.

Lemma py_add_chart_error (reads : list string) (data : dict metric_record)
  (a b : value) (e : exn) :
  py_add a b = inl e -> chart_error reads data e.
Proof. intros H. apply py_add_inl in H. right. exact H. Qed.

Ltac chart_cases H Hin :=
  repeat (apply bind_inl in H;
          destruct H as [H | (? & _ & H)];
          [first [ eapply getitem_chart_error; [exact Hin | | exact H];
                   simpl; tauto
                 | eapply py_add_chart_error; exact H ] |]).

Lemma dup_sum_inl (data : dict metric_record) (id : string) (r : metric_record) (e : exn) :
  In (id, r) data -> dup_sum r = inl e -> chart_error dup_chart_reads data e.
Proof.
  intros Hin H. unfold dup_sum in H. chart_cases H Hin.
  eapply py_add_chart_error; exact H.
Qed.

Lemma pair_sum_inl (data : dict metric_record) (id : string) (r : metric_record) (e : exn) :
  In (id, r) data -> pair_sum r = inl e -> chart_error pair_chart_reads data e.
Proof.
  intros Hin H. unfold pair_sum in H. chart_cases H Hin.
  eapply py_add_chart_error; exact H.
Qed.

Lemma chart_step_inl (sum : metric_record -> result value) (warning : string -> string)
  (reads : list string) (data : dict metric_record) (entry : string * metric_record)
  (acc : dict metric_record * list log_entry) (e : exn) :
  In "Total reads in RG" reads ->
  (forall id r e, In (id, r) data -> sum r = inl e -> chart_error reads data e) ->
  In entry data -> chart_step sum warning entry acc = inl e -> chart_error reads data e.
Proof.
  intros Htotal Hsum Hin H. destruct entry as [id r], acc as [chart log].
  unfold chart_step in H.
  apply bind_inl in H. destruct H as [H | (s & _ & H)]; [exact (Hsum id r e Hin H) |].
  apply bind_inl in H. destruct H as [H | (total & _ & H)].
  - exact (getitem_chart_error reads data id _ r e Hin Htotal H).
  - destruct (py_ne s total); discriminate H.
Qed.

Lemma getitem_missing_fails (sum : metric_record -> result value) (warning : string -> string)
  (data : dict metric_record) (id : string) (r : metric_record) :
  In (id, r) data -> checkable sum r = false ->
  forall acc, is_ok (foldM (chart_step sum warning) data acc) = false.
Proof.
  intros Hin Hr. apply (foldM_fails _ data (id, r) Hin).
  intros [chart log]. unfold checkable in Hr. simpl.
  destruct (sum r) as [e | s]; [reflexivity |].
  destruct (getitem "Total reads in RG" r) as [e | total]; [reflexivity | discriminate Hr].
Qed.

Lemma missing_not_checkable_dup (r : metric_record) (k : string) :
  In k dup_chart_reads -> dict_get k r = None -> checkable dup_sum r = false.
Proof.
  intros Hk Hnone. unfold checkable, dup_sum, getitem.
  simpl in Hk. destruct Hk as [<- | [<- | [<- | [<- | []]]]]; rewrite ?Hnone; simpl;
    repeat match goal with
    | |- context [of_option ?e (dict_get ?k r)] => destruct (dict_get k r); simpl
    | |- context [py_add ?a ?b] => destruct (py_add a b); simpl
    end; try reflexivity; try discriminate Hnone; try apply andb_false_r.
Qed.

Lemma missing_not_checkable_pair (r : metric_record) (k : string) :
  In k pair_chart_reads -> dict_get k r = None -> checkable pair_sum r = false.
Proof.
  intros Hk Hnone. unfold checkable, pair_sum, getitem.
  simpl in Hk. destruct Hk as [<- | [<- | [<- | [<- | [<- | []]]]]]; rewrite ?Hnone; simpl;
    repeat match goal with
    | |- context [of_option ?e (dict_get ?k r)] => destruct (dict_get k r); simpl
    | |- context [py_add ?a ?b] => destruct (py_add a b); simpl
    end; try reflexivity; try discriminate Hnone; try apply andb_false_r.
Qed.

(** X3.  A read group that lacks one of the metrics that a view reads makes
    the view raise, whatever the other read groups hold; and whatever a view
    raises is a [KeyError] naming one of those metrics, absent from a read
    group of the input, or a [TypeError] or [OverflowError] of the
    addition. *)
Theorem charts_need_every_count (data : dict metric_record) :
  (forall id r k, In (id, r) data -> In k dup_chart_reads -> dict_get k r = None ->
     exists e, map_dup_read_chart data = inl e)
  /\ (forall e, map_dup_read_chart data = inl e -> chart_error dup_chart_reads data e)
  /\ (forall id r k, In (id, r) data -> In k pair_chart_reads -> dict_get k r = None ->
        exists e, map_pair_read_chart data = inl e)
  /\ (forall e, map_pair_read_chart data = inl e -> chart_error pair_chart_reads data e).
Proof.
  split; [| split; [| split]].
  - intros id r k Hin Hk Hnone.
    pose proof (getitem_missing_fails dup_sum dup_warning data id r Hin
                  (missing_not_checkable_dup r k Hk Hnone) ([], [])) as F.
    unfold map_dup_read_chart. destruct (foldM _ data _) as [e | ?]; [eauto | discriminate F].
  - intros e H. unfold map_dup_read_chart in H. apply foldM_inl in H.
    destruct H as (entry & acc & Hin & H).
    apply (chart_step_inl dup_sum dup_warning dup_chart_reads data entry acc e);
      [simpl; tauto | | exact Hin | exact H].
    intros id r e'. apply dup_sum_inl.
  - intros id r k Hin Hk Hnone.
    pose proof (getitem_missing_fails pair_sum pair_warning data id r Hin
                  (missing_not_checkable_pair r k Hk Hnone) ([], [])) as F.
    unfold map_pair_read_chart. destruct (foldM _ data _) as [e | ?]; [eauto | discriminate F].
  - intros e H. unfold map_pair_read_chart in H. apply foldM_inl in H.
    destruct H as (entry & acc & Hin & H).
    apply (chart_step_inl pair_sum pair_warning pair_chart_reads data entry acc e);
      [simpl; tauto | | exact Hin | exact H].
    intros id r e'. apply pair_sum_inl.
Qed.

End MoreChartFacts.


Lemma charts_keep_reconciling_read_groups_witness :
  map_dup_read_chart Examples.two_read_groups
  = inr ([("RG1", Examples.read_counts 100 80 10 10)], [(WARNING, dup_warning "RG2")])
  /\ charted dup_sum Examples.two_read_groups = [("RG1", Examples.read_counts 100 80 10 10)]
  /\ warned dup_sum dup_warning Examples.two_read_groups = [(WARNING, dup_warning "RG2")].
Proof.
  assert (Hwf : dict_wf Examples.two_read_groups).
  { unfold dict_wf. simpl. repeat constructor; simpl; intuition discriminate. }
  assert (H : map_dup_read_chart Examples.two_read_groups
              = inr ([("RG1", Examples.read_counts 100 80 10 10)],
                     [(WARNING, dup_warning "RG2")])) by reflexivity.
  split; [exact H |].
  destruct (proj1 (proj1 (charts_keep_reconciling_read_groups _ _ _ Hwf)) H)
    as (_ & E1 & E2).
  split; [symmetry; exact E1 | symmetry; exact E2].
Defined.

Lemma charts_need_every_count_witness :
  exists e, map_dup_read_chart Examples.no_total = inl e.
Proof.
  apply (proj1 (charts_need_every_count Examples.no_total)
           "RG2" [("Unmapped reads", VInt 1)] "Total reads in RG").
  - right. left. reflexivity.
  - simpl. tauto.
  - reflexivity.
Defined.

(** ** The record parser: the file name and the rows *)

Section MoreParserFacts.
Context {PF : PyFloat}.

Lemma prefix_length (p s : string) :
  String.prefix p s = true -> (String.length p <= String.length s)%nat.
Proof.
  revert s; induction p as [| c p IH]; intros s H; simpl; [lia |].
  destruct s as [| c' s]; simpl in H; [discriminate |].
  destruct (ascii_dec c c'); [| discriminate]. apply IH in H. simpl. lia.
Qed.

Lemma drop_length (n : nat) (s : string) :
  String.length (PyStr.drop n s) = (String.length s - n)%nat.
Proof.
  revert s; induction n as [| n IH]; intros s; simpl; [lia |].
  destruct s as [| c s]; simpl; [reflexivity | apply IH].
Qed.

Lemma suffix_matches_length (s : string) :
  suffix_matches s = true -> (20 <= String.length s)%nat.
Proof.
  destruct s as [| c s1]; [discriminate |]. unfold suffix_matches.
  intros H. apply andb_prop in H. destruct H as [H H2].
  apply andb_prop in H. destruct H as [_ H1].
  apply prefix_length in H1.
  pose proof (drop_length 15 s1) as L.
  destruct (PyStr.drop 15 s1) as [| c' s2]; [discriminate |].
  apply andb_prop in H2. destruct H2 as [_ H2]. apply prefix_length in H2.
  simpl in *. lia.
Qed.

Lemma longest_group_short (s : string) :
  (String.length s < 20)%nat -> longest_group s = None.
Proof.
  induction s as [| c s IH]; intros H; [reflexivity |].
  cbn [longest_group]. rewrite IH by (simpl in H; lia).
  destruct (suffix_matches (String c s)) eqn:E.
  - apply suffix_matches_length in E. lia.
  - destruct (re_dot c); reflexivity.
Qed.

Lemma re_search_group_eq (s : string) :
  re_search_group s
  = match longest_group s with
    | Some n => Some (String.substring 0 n s)
    | None => match s with
              | EmptyString => None
              | String _ s' => re_search_group s'
              end
    end.
Proof. destruct s; reflexivity. Qed.

Lemma re_search_group_short (s : string) :
  (String.length s < 20)%nat -> re_search_group s = None.
Proof.
  induction s as [| c s IH]; intros H; [reflexivity |].
  rewrite re_search_group_eq, (longest_group_short _ H). apply IH. simpl in H. lia.
Qed.

Lemma longest_group_suffix (c1 c2 : ascii) :
  re_dot c1 = true -> re_dot c2 = true ->
  longest_group (String c1 ("mapping_metrics" ++ String c2 "csv")) = Some O.
Proof.
  intros H1 H2. cbn [longest_group].
  rewrite (longest_group_short ("mapping_metrics" ++ String c2 "csv")) by (simpl; lia).
  assert (E : suffix_matches (String c1 ("mapping_metrics" ++ String c2 "csv")) = true).
  { unfold suffix_matches. rewrite H1. simpl. rewrite H2. reflexivity. }
  rewrite E. destruct (re_dot c1); reflexivity.
Qed.

Lemma longest_group_app (p : string) (c1 c2 : ascii) :
  no_line_feed p = true -> re_dot c1 = true -> re_dot c2 = true ->
  longest_group (p ++ String c1 ("mapping_metrics" ++ String c2 "csv"))
  = Some (String.length p).
Proof.
  intros Hp H1 H2. induction p as [| c p IH].
  - apply longest_group_suffix; assumption.
  - simpl in Hp. apply andb_prop in Hp. destruct Hp as [Hc Hp].
    change (String c p ++ ?t) with (String c (p ++ t)).
    cbn [longest_group]. rewrite Hc, (IH Hp). reflexivity.
Qed.

Lemma substring_prefix (p t : string) : String.substring 0 (String.length p) (p ++ t) = p.
Proof.
  induction p as [| c p IH]; simpl.
  - destruct t; reflexivity.
  - now rewrite IH.
Qed.

(** X4.  For a file named by a text without line feed followed by
    [.mapping_metrics.csv], the name given to the document is that text.
    The two dots of the pattern match any character but a line feed, so the
    same holds with any such characters in their place. *)
Theorem name_is_text_before_suffix (p : string) (c1 c2 : ascii) :
  no_line_feed p = true -> re_dot c1 = true -> re_dot c2 = true ->
  re_search_group (p ++ String c1 ("mapping_metrics" ++ String c2 "csv")) = Some p
  /\ forall text s_name rgs phs,
       parse_mapping_metrics_file
         {| fn := p ++ String c1 ("mapping_metrics" ++ String c2 "csv"); f_contents := text |}
       = inr (s_name, rgs, phs) ->
       s_name = p.
Proof.
  intros Hp H1 H2.
  assert (E : re_search_group (p ++ String c1 ("mapping_metrics" ++ String c2 "csv")) = Some p).
  { rewrite re_search_group_eq, (longest_group_app p c1 c2 Hp H1 H2).
    f_equal. apply substring_prefix. }
  split; [exact E |].
  intros text s_name rgs phs H. apply parse_mapping_metrics_file_inr in H.
  destruct H as (_ & _ & Hname & _).
  change (re_search_group (p ++ String c1 ("mapping_metrics" ++ String c2 "csv"))
          = Some s_name) in Hname.
  rewrite E in Hname. injection Hname as <-. reflexivity.
Qed.

(** X5.  A file whose name is shorter than the twenty characters of the
    pattern makes the record parser raise [AttributeError] (from [.group] on
    the failed search), whatever the file contains. *)
Theorem short_file_name_raises (f : log_file) :
  (String.length (fn f) < 20)%nat -> parse_mapping_metrics_file f = inl AttributeError.
Proof.
  intros H. unfold parse_mapping_metrics_file.
  rewrite (re_search_group_short _ H). reflexivity.
Qed.

Lemma split_nonempty (sep : ascii) (s : string) : PyStr.split sep s <> [].
Proof.
  destruct s as [| c s]; simpl; [discriminate |].
  destruct (Ascii.eqb c sep); [discriminate |].
  destruct (PyStr.split sep s); discriminate.
Qed.

Lemma parse_line_shape (line : string) (acc : dict metric_record * dict metric_record) :
  if well_shaped line
  then exists acc', parse_line line acc = inr acc'
  else parse_line line acc = inl IndexError.
Proof.
  unfold well_shaped, parse_line. destruct acc as [rgs phs].
  destruct (PyStr.split "," line) as [| f0 fields]; [reflexivity |].
  cbn [hd index nth_error of_option bind ret].
  pose proof (split_nonempty "/" f0) as N0.
  destruct (PyStr.split "/" f0) as [| w0 ws]; [congruence |].
  cbn [index nth_error of_option bind ret].
  pose proof (split_nonempty " " w0) as N1.
  destruct (PyStr.split " " w0) as [| p0 ps]; [congruence |].
  cbn [index nth_error of_option bind ret].
  destruct ws as [| analysis ws].
  { cbn. rewrite andb_false_r. reflexivity. }
  cbn [index nth_error of_option bind ret].
  destruct fields as [| f1 [| f2 [| f3 rest]]]; try reflexivity.
  cbn [index nth_error of_option bind ret List.length Nat.leb andb].
  destruct rest as [| f4 rest]; cbn [Nat.ltb Nat.leb List.length index nth_error of_option bind ret];
    destruct (String.eqb analysis "ALIGNING PER RG"); cbn; eauto.
Qed.

Lemma parse_lines_shape (lines : list string) :
  forall acc,
    if forallb well_shaped lines
    then exists acc', foldM parse_line lines acc = inr acc'
    else foldM parse_line lines acc = inl IndexError.
Proof.
  induction lines as [| line lines IH]; intros acc; simpl; [eauto |].
  pose proof (parse_line_shape line acc) as H.
  destruct (well_shaped line); simpl.
  - destruct H as (acc' & ->). simpl. apply IH.
  - rewrite H. reflexivity.
Qed.

(** X6.  The loop over the lines returns when every line has at least four
    comma-separated fields and a slash in the first of them, and raises
    [IndexError] otherwise; a blank line is such a line.  The record parser
    then raises [IndexError] for a file whose name matches. *)
Theorem line_shape_decides_line_loop (text : string) :
  (if forallb well_shaped (PyStr.splitlines text)
   then exists rgs phs, parse_lines text = inr (rgs, phs)
   else parse_lines text = inl IndexError)
  /\ forall name s_name,
       re_search_group name = Some s_name ->
       forallb well_shaped (PyStr.splitlines text) = false ->
       parse_mapping_metrics_file {| fn := name; f_contents := text |} = inl IndexError.
Proof.
  pose proof (parse_lines_shape (PyStr.splitlines text) ([], [])) as H.
  split.
  - unfold parse_lines. destruct (forallb well_shaped (PyStr.splitlines text)).
    + destruct H as ([rgs phs] & H). eauto.
    + exact H.
  - intros name s_name Hname Hbad. rewrite Hbad in H.
    unfold parse_mapping_metrics_file, parse_lines. simpl. rewrite Hname, H. reflexivity.
Qed.

Lemma lookup2_dd_update (owner key entity metric : string) (v : value)
  (d : dict metric_record) :
  lookup2 owner key (dd_update entity (dict_set metric v) d)
  = assign owner key (lookup2 owner key d) (entity, metric, v).
Proof.
  unfold lookup2, assign, metric_record in *. rewrite dict_get_dd_update.
  destruct (String.eqb_spec entity owner) as [-> | Hne]; simpl; [| reflexivity].
  rewrite dict_get_set.
  destruct (String.eqb metric key); [reflexivity |].
  destruct (dict_get owner d); reflexivity.
Qed.

Lemma lookup2_store (owner key entity metric : string) (v : value)
  (percentage : option value) (d : dict metric_record) :
  lookup2 owner key (store entity metric v percentage d)
  = fold_left (assign owner key)
      ((entity, metric, v)
       :: match percentage with
          | Some p => [(entity, (metric ++ " pct")%string, p)]
          | None => []
          end)
      (lookup2 owner key d).
Proof.
  unfold store. cbv zeta. destruct percentage as [p |]; cbn [fold_left].
  - now rewrite !lookup2_dd_update.
  - now rewrite lookup2_dd_update.
Qed.

Lemma parse_line_assigns (line : string) (rgs phs rgs' phs' : dict metric_record) :
  parse_line line (rgs, phs) = inr (rgs', phs') ->
  forall owner key,
    lookup2 owner key rgs'
    = fold_left (assign owner key)
        (row_assignments "ALIGNING PER RG" (fun _ entity => entity) line)
        (lookup2 owner key rgs)
    /\ lookup2 owner key phs'
       = fold_left (assign owner key)
           (row_assignments "ALIGNING SUMMARY" (fun label _ => row_phenotype label) line)
           (lookup2 owner key phs).
Proof.
  unfold parse_line. intros H owner key.
  destruct (PyStr.split "," line) as [| f0 fields] eqn:Efields; [discriminate H |].
  cbn [hd index nth_error of_option bind ret] in H.
  pose proof (split_nonempty "/" f0) as N0.
  destruct (PyStr.split "/" f0) as [| w0 ws] eqn:E0; [congruence |].
  cbn [hd index nth_error of_option bind ret] in H.
  pose proof (split_nonempty " " w0) as N1.
  destruct (PyStr.split " " w0) as [| p0 ps] eqn:E1; [congruence |].
  cbn [hd index nth_error of_option bind ret] in H.
  destruct ws as [| analysis ws]; [discriminate H |].
  cbn [index nth_error of_option bind ret] in H.
  destruct fields as [| f1 [| f2 [| f3 rest]]]; try discriminate H.
  cbn [index nth_error of_option bind ret] in H.
  assert (Hpct : (if Nat.ltb 4 (List.length (f0 :: f1 :: f2 :: f3 :: rest))
                  then p <- index 4 (f0 :: f1 :: f2 :: f3 :: rest) ;;
                       ret (Some (coerce_percentage p))
                  else ret None)
                 = inr (option_map coerce_percentage (hd_error rest))).
  { destruct rest; reflexivity. }
  rewrite Hpct in H. cbn [bind] in H.
  assert (Hentries : forall o : string,
            map (fun kv : string * value => (o, fst kv, snd kv))
              (row_entries f2 f3 (hd_error rest))
            = (o, f2, coerce_value f3)
              :: match option_map coerce_percentage (hd_error rest) with
                 | Some p => [(o, (f2 ++ " pct")%string, p)]
                 | None => []
                 end).
  { intros o. unfold row_entries. destruct (hd_error rest); reflexivity. }
  unfold row_assignments, row_fields, row_analysis, row_phenotype.
  rewrite Efields, E0. cbn [hd nth_error is_str]. rewrite E1. cbn [hd].
  rewrite !Hentries.
  destruct (String.eqb analysis "ALIGNING PER RG");
    destruct (String.eqb analysis "ALIGNING SUMMARY");
    cbn [bind ret] in H; injection H as <- <-;
    rewrite ?lookup2_store; split; reflexivity.
Qed.

Lemma parse_lines_assign (lines : list string) :
  forall rgs phs rgs' phs',
    foldM parse_line lines (rgs, phs) = inr (rgs', phs') ->
    forall owner key,
      lookup2 owner key rgs'
      = fold_left (assign owner key)
          (flat_map (row_assignments "ALIGNING PER RG" (fun _ entity => entity)) lines)
          (lookup2 owner key rgs)
      /\ lookup2 owner key phs'
         = fold_left (assign owner key)
             (flat_map (row_assignments "ALIGNING SUMMARY"
                          (fun label _ => row_phenotype label)) lines)
             (lookup2 owner key phs).
Proof.
  induction lines as [| line lines IH]; simpl; intros rgs phs rgs' phs' H owner key.
  - injection H as <- <-. auto.
  - bind_inv H. destruct x as [rgs1 phs1].
    destruct (parse_line_assigns line rgs phs rgs1 phs1 Hx owner key) as [E1 E2].
    destruct (IH rgs1 phs1 rgs' phs' H owner key) as [F1 F2].
    rewrite !fold_left_app, <- E1, <- E2. auto.
Qed.

(** X7.  What the loop over the lines leaves under an owner and a key is
    the value of the last row that assigns them: a row of the section
    [ALIGNING PER RG] assigns, to the read group named by its second field,
    its coerced value under its metric and, if it has a fifth field, the
    coerced percentage under the metric followed by [ pct]; a row of the
    section [ALIGNING SUMMARY] does the same for the phenotype named by its
    label.  Rows of other sections and of other owners assign nothing
    there. *)
Theorem later_rows_win (text : string) (rgs phs : dict metric_record) :
  parse_lines text = inr (rgs, phs) ->
  forall owner key,
    lookup2 owner key rgs
    = last_assigned owner key
        (flat_map (row_assignments "ALIGNING PER RG" (fun _ entity => entity))
           (PyStr.splitlines text))
    /\ lookup2 owner key phs
       = last_assigned owner key
           (flat_map (row_assignments "ALIGNING SUMMARY" (fun label _ => row_phenotype label))
              (PyStr.splitlines text)).
Proof.
  intros H owner key. unfold parse_lines in H.
  apply (parse_lines_assign _ _ _ _ _ H owner key).
Qed.

End MoreParserFacts.

Lemma name_is_text_before_suffix_witness :
  re_search_group ("T_SRR7890936_50pc" ++ String "." ("mapping_metrics" ++ String "_" "csv"))
  = Some "T_SRR7890936_50pc".
Proof.
  exact (proj1 (@name_is_text_before_suffix ExactFloat.exact "T_SRR7890936_50pc" "." "_"
                  eq_refl eq_refl eq_refl)).
Defined.

Lemma short_file_name_raises_witness :
  parse_mapping_metrics_file Examples.unnamed_file
  = inl AttributeError.
Proof.
  apply (short_file_name_raises Examples.unnamed_file).
  simpl. lia.
Defined.

Lemma line_shape_decides_line_loop_witness :
  parse_mapping_metrics_file
    {| fn := "S1.mapping_metrics.csv"; f_contents := Examples.blank_line_text |}
  = inl IndexError.
Proof.
  apply (proj2 (line_shape_decides_line_loop Examples.blank_line_text)
           "S1.mapping_metrics.csv" "S1").
  - reflexivity.
  - reflexivity.
Defined.

Lemma later_rows_win_witness :
  exists rgs phs,
    parse_lines Examples.repeated_rows = inr (rgs, phs)
    /\ lookup2 "RG1" "Mapped reads" rgs = Some (VInt 20)
    /\ lookup2 "RG1" "Mapped reads pct" rgs = Some (VFloat (F_of_dec false 5000 (-2)))
    /\ lookup2 "RG2" "Mapped reads" rgs = Some (VInt 30).
Proof.
  assert (Hok : is_ok (parse_lines Examples.repeated_rows) = true) by reflexivity.
  destruct (parse_lines Examples.repeated_rows) as [e | [rgs phs]] eqn:E;
    [discriminate Hok |].
  exists rgs, phs. split; [reflexivity |].
  pose proof (later_rows_win Examples.repeated_rows rgs phs E) as W.
  split; [| split].
  - rewrite (proj1 (W "RG1" "Mapped reads")). reflexivity.
  - rewrite (proj1 (W "RG1" "Mapped reads pct")). reflexivity.
  - rewrite (proj1 (W "RG2" "Mapped reads")). reflexivity.
Defined.

(** ** The record parser: the fix-ups *)

Section MoreFixupFacts.
Context {PF : PyFloat}.

Ltac carry :=
  repeat match goal with
  | P : preserves _ ?d ?d' |- context [dict_get ?k ?d'] => rewrite (P k eq_refl)
  | P : preserves _ ?d ?d', H : context [dict_get ?k ?d'] |- _ =>
      rewrite (P k eq_refl) in H
  end.

Lemma dict_set_same {V : Type} (k : string) (v : V) (d : dict V) :
  dict_get k d = Some v -> dict_set k v d = d.
Proof.
  induction d as [| [k0 v0] d IH]; simpl; [discriminate |].
  destruct (String.eqb_spec k0 k) as [-> | Hne]; intros H.
  - now injection H as ->.
  - now rewrite IH.
Qed.

(** *** Which exceptions the fix-ups raise *)

Lemma py_truediv_positive (a b : value) (e : exn) :
  py_gt b (VInt 0) = inr true -> py_truediv a b = inl e ->
  e = TypeError \/ e = OverflowError.
Proof.
  intros Hpos H. destruct a as [x | x | x], b as [y | y | y]; simpl in Hpos, H;
    unfold ret, raise in *; try discriminate Hpos; try (injection H as <-; auto; fail).
  - injection Hpos as Hpos. apply Z.ltb_lt in Hpos.
    destruct (Z.eqb_spec y 0); [lia |].
    destruct (Z_truediv x y); simpl in H; [discriminate H | injection H as <-; auto].
  - injection Hpos as Hpos.
    destruct (to_float x) eqn:E; simpl in H; [injection H as <-; apply to_float_inl in E; auto |].
    destruct (Fcompare_Z y 0) as [[] |]; simpl in *; discriminate.
  - injection Hpos as Hpos. apply Z.ltb_lt in Hpos.
    destruct (to_float y) eqn:E; simpl in H; [injection H as <-; apply to_float_inl in E; auto |].
    destruct (Z.eqb_spec y 0); [lia | discriminate H].
  - injection Hpos as Hpos.
    destruct (Fcompare_Z y 0) as [[] |]; simpl in *; discriminate.
Qed.

Lemma py_mul_error (a b : value) (e : exn) :
  py_mul a b = inl e -> e = TypeError \/ e = OverflowError.
Proof.
  destruct a, b; simpl; unfold ret, raise; try discriminate;
    try (intros H; injection H as <-; auto; fail);
    intros H; apply bind_inl in H; destruct H as [H | (? & _ & H)];
    try discriminate; apply to_float_inl in H; auto.
Qed.

Lemma getitem_fixup_error (k : string) (d : metric_record) (e : exn) :
  In k fixup_reads -> getitem k d = inl e -> fixup_error e.
Proof.
  intros Hk H. apply getitem_inl in H. destruct H as [-> _]. left. eauto.
Qed.

Lemma zero_if_na_error (k : string) (d : metric_record) (e : exn) :
  In k fixup_reads -> zero_if_na k d = inl e -> fixup_error e.
Proof.
  intros Hk H. unfold zero_if_na in H. apply bind_inl in H.
  destruct H as [H | (? & _ & H)]; [exact (getitem_fixup_error k d e Hk H) | discriminate].
Qed.

Lemma copy_if_na_error (k source : string) (d : metric_record) (e : exn) :
  In k fixup_reads -> In source fixup_reads -> copy_if_na k source d = inl e -> fixup_error e.
Proof.
  intros Hk Hs H. unfold copy_if_na in H. apply bind_inl in H.
  destruct H as [H | (v & _ & H)]; [exact (getitem_fixup_error k d e Hk H) |].
  destruct (py_eq v NA); [| discriminate].
  apply bind_inl in H. destruct H as [H | (? & _ & H)]; [| discriminate].
  exact (getitem_fixup_error source d e Hs H).
Qed.

Lemma add_pct_error (key numerator denominator : string) (d : metric_record) (v : value)
  (e : exn) :
  In numerator fixup_reads -> In denominator fixup_reads ->
  dict_get denominator d = Some v -> py_gt v (VInt 0) = inr true ->
  add_pct key numerator denominator d = inl e -> fixup_error e.
Proof.
  intros Hn Hd Hv Hpos H. unfold add_pct in H.
  apply bind_inl in H. destruct H as [H | (n & _ & H)];
    [exact (getitem_fixup_error _ d e Hn H) |].
  apply bind_inl in H. destruct H as [H | (dn & Hdn & H)];
    [exact (getitem_fixup_error _ d e Hd H) |].
  apply getitem_inr in Hdn. rewrite Hv in Hdn. injection Hdn as <-.
  apply bind_inl in H. destruct H as [H | (ratio & _ & H)].
  { right. exact (py_truediv_positive n v e Hpos H). }
  apply bind_inl in H. destruct H as [H | (? & _ & H)]; [| discriminate].
  right. exact (py_mul_error _ _ e H).
Qed.

Lemma if_positive_error (metric : string)
  (body : metric_record -> result metric_record) (d : metric_record) (e : exn) :
  In metric fixup_reads ->
  (forall v, dict_get metric d = Some v -> py_gt v (VInt 0) = inr true ->
             body d = inl e -> fixup_error e) ->
  if_positive metric body d = inl e -> fixup_error e.
Proof.
  intros Hm Hbody H. unfold if_positive in H.
  apply bind_inl in H. destruct H as [H | (v & Hv & H)];
    [exact (getitem_fixup_error _ d e Hm H) |].
  apply getitem_inr in Hv.
  apply bind_inl in H. destruct H as [H | (b & Hb & H)].
  { apply py_gt_inl in H. right. left. exact H. }
  destruct b; [| discriminate]. exact (Hbody v Hv Hb H).
Qed.

Ltac reads := simpl; repeat (first [left; reflexivity | right]).

Lemma fixup_record_error (r : metric_record) (e : exn) :
  fixup_record r = inl e -> fixup_error e.
Proof.
  unfold fixup_record. intros H.
  apply bind_inl in H. destruct H as [H | (d1 & _ & H)].
  { eapply zero_if_na_error; [| exact H]. reads. }
  apply bind_inl in H. destruct H as [H | (d2 & _ & H)].
  { eapply zero_if_na_error; [| exact H]. reads. }
  apply bind_inl in H. destruct H as [H | (d3 & _ & H)].
  { eapply copy_if_na_error; [| | exact H]; reads. }
  apply bind_inl in H. destruct H as [H | (d4 & _ & H)].
  { eapply if_positive_error; [| | exact H]; [reads |].
    intros v Hv Hpos Hbody.
    eapply add_pct_error; [| | exact Hv | exact Hpos | exact Hbody]; reads. }
  eapply if_positive_error; [| | exact H]; [reads |].
  intros v Hv Hpos Hbody.
  apply bind_inl in Hbody. destruct Hbody as [Hbody | (e1 & E1 & Hbody)].
  { eapply add_pct_error; [| | exact Hv | exact Hpos | exact Hbody]; reads. }
  apply add_pct_inr in E1. destruct E1 as (Q1 & _).
  apply bind_inl in Hbody. destruct Hbody as [Hbody | (e2 & E2 & Hbody)].
  { eapply add_pct_error; [| | | exact Hpos | exact Hbody]; [reads | reads |].
    carry. exact Hv. }
  apply add_pct_inr in E2. destruct E2 as (Q2 & _).
  eapply add_pct_error; [| | | exact Hpos | exact Hbody]; [reads | reads |].
  carry. exact Hv.
Qed.

Lemma parse_lines_error (text : string) (e : exn) :
  parse_lines text = inl e ->
  e = IndexError /\ forallb well_shaped (PyStr.splitlines text) = false.
Proof.
  unfold parse_lines. intros H.
  pose proof (parse_lines_shape (PyStr.splitlines text) ([], [])) as S.
  destruct (forallb well_shaped (PyStr.splitlines text)).
  - destruct S as (acc' & S). rewrite S in H. discriminate H.
  - rewrite S in H. injection H as <-. auto.
Qed.

(** X8.  What the record parser raises is [AttributeError] for a file name
    without the pattern, [IndexError] for a line of the wrong shape, a
    [KeyError] for a metric that the fix-ups read, [TypeError] or
    [OverflowError]; the divisions being guarded by the test that the total
    is positive, it never raises [ZeroDivisionError], and never
    [ValueError]. *)
Theorem parser_raises_only (f : log_file) (e : exn) :
  parse_mapping_metrics_file f = inl e ->
  parser_error f e /\ e <> ZeroDivisionError /\ e <> ValueError.
Proof.
  intros H.
  assert (P : parser_error f e).
  { unfold parse_mapping_metrics_file in H.
    apply bind_inl in H. destruct H as [H | (s_name & _ & H)].
    { left. destruct (re_search_group (fn f)); [discriminate H |].
      injection H as <-. auto. }
    apply bind_inl in H. destruct H as [H | ([raw_rg raw_ph] & _ & H)].
    { right. left. apply parse_lines_error. exact H. }
    right. right.
    apply bind_inl in H. destruct H as [H | (rgs & _ & H)].
    { apply fixup_all_inl in H. destruct H as (? & r & _ & H).
      exact (fixup_record_error r e H). }
    apply bind_inl in H. destruct H as [H | (phs & _ & H)]; [| discriminate H].
    apply fixup_all_inl in H. destruct H as (? & r & _ & H).
    exact (fixup_record_error r e H). }
  split; [exact P |].
  destruct P as [[-> _] | [[-> _] | [(k & -> & _) | [-> | ->]]]]; split; discriminate.
Qed.


(** *** The fix-ups settle a record *)

Lemma zero_if_na_settles (k : string) (d d' : metric_record) :
  zero_if_na k d = inr d' ->
  preserves [k] d d' /\ exists v, dict_get k d' = Some v /\ py_eq v NA = false.
Proof.
  intros H. apply zero_if_na_inr in H. destruct H as (P & v & _ & Hv).
  split; [exact P |]. destruct (py_eq v NA) eqn:E; eauto.
Qed.

Lemma copy_if_na_settles (k source : string) (d d' : metric_record) :
  String.eqb source k = false ->
  copy_if_na k source d = inr d' ->
  preserves [k] d d'
  /\ exists v, dict_get k d' = Some v /\ (py_eq v NA = false \/ dict_get source d' = Some v).
Proof.
  intros Hne H. apply copy_if_na_inr in H. destruct H as (P & v & _ & Hv).
  split; [exact P |]. destruct (py_eq v NA) eqn:E.
  - destruct Hv as (x & Hx & Hk). exists x. split; [exact Hk |]. right.
    rewrite (P source); [exact Hx |]. simpl. now rewrite Hne.
  - eauto.
Qed.

Lemma derived_pct_preserved (targets : list string) (numerator denominator : string)
  (d d' : metric_record) (pct : value) :
  preserves targets d d' ->
  existsb (String.eqb numerator) targets = false ->
  existsb (String.eqb denominator) targets = false ->
  derived_pct numerator denominator d pct -> derived_pct numerator denominator d' pct.
Proof.
  intros P Hn Hd (n & dn & ratio & Gn & Gd & Hr & Hp).
  exists n, dn, ratio. rewrite (P _ Hn), (P _ Hd). auto.
Qed.

Lemma add_pct_settles (key numerator denominator : string) (d d' : metric_record) :
  String.eqb numerator key = false -> String.eqb denominator key = false ->
  add_pct key numerator denominator d = inr d' ->
  preserves [key] d d'
  /\ exists pct, derived_pct numerator denominator d' pct /\ dict_get key d' = Some pct.
Proof.
  intros Hn Hd H. apply add_pct_inr in H. destruct H as (P & pct & D & G).
  split; [exact P |]. exists pct. split; [| exact G].
  apply (derived_pct_preserved [key] _ _ d d' pct P); simpl; rewrite ?Hn, ?Hd; auto.
Qed.

Lemma fixup_record_settles (r r' : metric_record) :
  fixup_record r = inr r' -> settled r'.
Proof.
  unfold fixup_record. intros H.
  apply bind_inr in H. destruct H as (d1 & H1 & H).
  apply bind_inr in H. destruct H as (d2 & H2 & H).
  apply bind_inr in H. destruct H as (d3 & H3 & H).
  apply bind_inr in H. destruct H as (d4 & H4 & H).
  apply zero_if_na_settles in H1. destruct H1 as (P1 & v1 & G1 & N1).
  apply zero_if_na_settles in H2. destruct H2 as (P2 & v2 & G2 & N2).
  apply copy_if_na_settles in H3; [| reflexivity]. destruct H3 as (P3 & v3 & G3 & N3).
  apply if_positive_inr in H4. destruct H4 as (v4 & b4 & G4 & T4 & S4).
  apply if_positive_inr in H. destruct H as (v5 & b5 & G5 & T5 & S5).
  assert (A4 : preserves ["Secondary alignments pct"] d3 d4
               /\ (b4 = true ->
                   exists pct, derived_pct "Secondary alignments" "Total alignments" d4 pct
                               /\ dict_get "Secondary alignments pct" d4 = Some pct)).
  { destruct b4.
    - apply add_pct_settles in S4; [| reflexivity | reflexivity]. destruct S4 as (P & D).
      auto.
    - subst d4. split; [apply preserves_refl | discriminate]. }
  destruct A4 as (P4 & D4).
  assert (A5 : preserves ["Q30 bases (excl. dups & clipped bases) pct";
                          "Mapped bases R1 pct"; "Mapped bases R2 pct"] d4 r'
               /\ (b5 = true ->
                   (exists pct,
                      derived_pct "Q30 bases (excl. dups & clipped bases)" "Total bases" r' pct
                      /\ dict_get "Q30 bases (excl. dups & clipped bases) pct" r' = Some pct)
                   /\ (exists pct, derived_pct "Mapped bases R1" "Total bases" r' pct
                                   /\ dict_get "Mapped bases R1 pct" r' = Some pct)
                   /\ (exists pct, derived_pct "Mapped bases R2" "Total bases" r' pct
                                   /\ dict_get "Mapped bases R2 pct" r' = Some pct))).
  { destruct b5; [| subst r'; split; [apply preserves_refl | discriminate]].
    apply bind_inr in S5. destruct S5 as (e1 & E1 & S5).
    apply bind_inr in S5. destruct S5 as (e2 & E2 & E3).
    apply add_pct_settles in E1; [| reflexivity | reflexivity].
    apply add_pct_settles in E2; [| reflexivity | reflexivity].
    apply add_pct_settles in E3; [| reflexivity | reflexivity].
    destruct E1 as (Q1 & p1 & D1 & L1), E2 as (Q2 & p2 & D2 & L2),
             E3 as (Q3 & p3 & D3 & L3).
    split.
    - intros k Hk. simpl in Hk. rewrite orb_false_r in Hk.
      apply orb_false_elim in Hk. destruct Hk as [Hk1 Hk].
      apply orb_false_elim in Hk. destruct Hk as [Hk2 Hk3].
      rewrite (Q3 k), (Q2 k), (Q1 k); simpl; rewrite ?orb_false_r; auto.
    - intros _. split; [| split].
      + exists p1. split.
        * eapply derived_pct_preserved; [exact Q3 | reflexivity | reflexivity |].
          eapply derived_pct_preserved; [exact Q2 | reflexivity | reflexivity |]. exact D1.
        * carry. exact L1.
      + exists p2. split.
        * eapply derived_pct_preserved; [exact Q3 | reflexivity | reflexivity |]. exact D2.
        * carry. exact L2.
      + exists p3. auto. }
  destruct A5 as (P5 & D5).
  unfold settled. split; [| split; [| split; [| split]]].
  - exists v1. carry. auto.
  - exists v2. carry. auto.
  - exists v3. carry. auto.
  - exists v4, b4. carry. split; [exact G4 | split; [exact T4 |]].
    intros Hb. destruct (D4 Hb) as (pct & D & L). exists pct. split.
    + eapply derived_pct_preserved; [exact P5 | reflexivity | reflexivity |]. exact D.
    + carry. exact L.
  - exists v5, b5. carry. auto.
Qed.

Lemma zero_if_na_fixed (k : string) (d : metric_record) (v : value) :
  dict_get k d = Some v -> py_eq v NA = false -> zero_if_na k d = inr d.
Proof.
  intros G N. unfold zero_if_na, getitem. rewrite G. simpl. now rewrite N.
Qed.

Lemma copy_if_na_fixed (k source : string) (d : metric_record) (v : value) :
  dict_get k d = Some v -> py_eq v NA = false \/ dict_get source d = Some v ->
  copy_if_na k source d = inr d.
Proof.
  intros G N. unfold copy_if_na, getitem. rewrite G. simpl.
  destruct (py_eq v NA) eqn:E; [| reflexivity].
  destruct N as [N | N]; [discriminate N |]. rewrite N. simpl.
  now rewrite (dict_set_same k v d G).
Qed.

Lemma add_pct_fixed (key numerator denominator : string) (d : metric_record) (pct : value) :
  derived_pct numerator denominator d pct -> dict_get key d = Some pct ->
  add_pct key numerator denominator d = inr d.
Proof.
  intros (n & dn & ratio & Gn & Gd & Hr & Hp) G. unfold add_pct, getitem.
  fold F100 in Hp.
  rewrite Gn, Gd. simpl. rewrite Hr. simpl. rewrite Hp. simpl.
  now rewrite (dict_set_same key pct d G).
Qed.

Lemma if_positive_fixed (metric : string) (body : metric_record -> result metric_record)
  (d : metric_record) (v : value) (positive : bool) :
  dict_get metric d = Some v -> py_gt v (VInt 0) = inr positive ->
  (positive = true -> body d = inr d) ->
  if_positive metric body d = inr d.
Proof.
  intros G T B. unfold if_positive, getitem. rewrite G. simpl. rewrite T. simpl.
  destruct positive; auto.
Qed.

Lemma settled_fixed (r : metric_record) : settled r -> fixup_record r = inr r.
Proof.
  intros ((v1 & G1 & N1) & (v2 & G2 & N2) & (v3 & G3 & N3)
          & (v4 & b4 & G4 & T4 & D4) & (v5 & b5 & G5 & T5 & D5)).
  unfold fixup_record.
  rewrite (zero_if_na_fixed _ r v1 G1 N1). cbn [bind].
  rewrite (zero_if_na_fixed _ r v2 G2 N2). cbn [bind].
  rewrite (copy_if_na_fixed _ _ r v3 G3 N3). cbn [bind].
  rewrite (if_positive_fixed _ _ r v4 b4 G4 T4). 2:{
    intros Hb. destruct (D4 Hb) as (pct & D & L). exact (add_pct_fixed _ _ _ r pct D L). }
  cbn [bind].
  apply (if_positive_fixed _ _ r v5 b5 G5 T5).
  intros Hb. destruct (D5 Hb) as ((p1 & A1 & L1) & (p2 & A2 & L2) & (p3 & A3 & L3)).
  rewrite (add_pct_fixed _ _ _ r p1 A1 L1). cbn [bind].
  rewrite (add_pct_fixed _ _ _ r p2 A2 L2). cbn [bind].
  exact (add_pct_fixed _ _ _ r p3 A3 L3).
Qed.

Lemma fixup_all_fixed (d : dict metric_record) :
  (forall entity r, In (entity, r) d -> fixup_record r = inr r) -> fixup_all d = inr d.
Proof.
  unfold fixup_all. induction d as [| [entity r] d IH]; intros H; [reflexivity |].
  cbn [mapM]. rewrite (H entity r (or_introl eq_refl)). cbn [bind].
  rewrite IH; [reflexivity |]. intros e' r' Hin. apply (H e' r'). right. exact Hin.
Qed.

(** X9.  The fix-ups are idempotent: applied to a record that they
    returned, they return it unchanged; and so for a whole mapping. *)
Theorem fixups_are_idempotent :
  (forall r r', fixup_record r = inr r' -> fixup_record r' = inr r')
  /\ (forall d d', fixup_all d = inr d' -> fixup_all d' = inr d').
Proof.
  assert (R : forall r r', fixup_record r = inr r' -> fixup_record r' = inr r').
  { intros r r' H. apply settled_fixed. exact (fixup_record_settles r r' H). }
  split; [exact R |].
  intros d d' H. apply fixup_all_fixed. intros entity r' Hin.
  unfold fixup_all in H.
  destruct (mapM_In _ _ _ H (entity, r') Hin) as ([entity0 r0] & _ & Hbody).
  bind_inv Hbody. injection Hbody as _ <-. exact (R r0 x Hx).
Qed.

(** X10.  In every record that the record parser returns, the two
    duplicate counts are present and are not [NA], the unique-read count is
    [NA] only where [Mapped reads] is [NA] too, and [Total alignments] and
    [Total bases] are present and can be ordered against [0]. *)
Theorem parsed_records_are_settled (f : log_file) (s_name : string)
  (rgs phs : dict metric_record) :
  parse_mapping_metrics_file f = inr (s_name, rgs, phs) ->
  forall entity r, In (entity, r) (rgs ++ phs) ->
    (exists v, dict_get "Number of duplicate marked reads" r = Some v /\ v <> NA)
    /\ (exists v, dict_get "Number of duplicate marked and mate reads removed" r = Some v
                  /\ v <> NA)
    /\ (dict_get "Number of unique reads (excl. duplicate marked reads)" r = Some NA ->
        dict_get "Mapped reads" r = Some NA)
    /\ (exists v positive, dict_get "Total alignments" r = Some v
                           /\ py_gt v (VInt 0) = inr positive)
    /\ (exists v positive, dict_get "Total bases" r = Some v
                           /\ py_gt v (VInt 0) = inr positive).
Proof.
  intros H entity r Hin. apply parse_mapping_metrics_file_inr in H.
  destruct H as (raw_rg & raw_ph & _ & _ & Hrg & Hph).
  assert (S : settled r).
  { apply in_app_or in Hin. destruct Hin as [Hin | Hin].
    - unfold fixup_all in Hrg.
      destruct (mapM_In _ _ _ Hrg (entity, r) Hin) as ([entity0 r0] & _ & Hbody).
      bind_inv Hbody. injection Hbody as _ <-. exact (fixup_record_settles r0 x Hx).
    - unfold fixup_all in Hph.
      destruct (mapM_In _ _ _ Hph (entity, r) Hin) as ([entity0 r0] & _ & Hbody).
      bind_inv Hbody. injection Hbody as _ <-. exact (fixup_record_settles r0 x Hx). }
  destruct S as ((v1 & G1 & N1) & (v2 & G2 & N2) & (v3 & G3 & N3)
                 & (v4 & b4 & G4 & T4 & _) & (v5 & b5 & G5 & T5 & _)).
  assert (Hne : forall v, py_eq v NA = false -> v <> NA).
  { intros v E Hv. apply py_eq_NA in Hv. congruence. }
  split; [eauto | split; [eauto | split; [| split; eauto]]].
  intros Hna. rewrite G3 in Hna. injection Hna as ->.
  destruct N3 as [N3 | N3]; [discriminate N3 | exact N3].
Qed.

(** X11.  A record that holds the duplicate counts and the unique-read
    count (and [Mapped reads] when that count is [NA]), and whose
    [Total alignments] is a text such as [NA], makes the fix-ups raise
    [TypeError]: Python 3 does not order a text against [0]. *)
Theorem text_total_raises_type_error (r : metric_record) (a b c : value) (s : string) :
  dict_get "Number of duplicate marked reads" r = Some a ->
  dict_get "Number of duplicate marked and mate reads removed" r = Some b ->
  dict_get "Number of unique reads (excl. duplicate marked reads)" r = Some c ->
  (c = NA -> dict_get "Mapped reads" r <> None) ->
  dict_get "Total alignments" r = Some (VStr s) ->
  fixup_record r = inl TypeError.
Proof.
  intros Ga Gb Gc Gm Gt. unfold fixup_record.
  destruct (zero_if_na "Number of duplicate marked reads" r) as [e | d1] eqn:E1.
  { exfalso. unfold zero_if_na, getitem in E1. rewrite Ga in E1. discriminate E1. }
  cbn [bind]. apply zero_if_na_inr in E1. destruct E1 as (P1 & _).
  destruct (zero_if_na "Number of duplicate marked and mate reads removed" d1)
    as [e | d2] eqn:E2.
  { exfalso. unfold zero_if_na, getitem in E2. carry. rewrite Gb in E2. discriminate E2. }
  cbn [bind]. apply zero_if_na_inr in E2. destruct E2 as (P2 & _).
  destruct (copy_if_na "Number of unique reads (excl. duplicate marked reads)"
              "Mapped reads" d2) as [e | d3] eqn:E3.
  { exfalso. unfold copy_if_na, getitem in E3. carry. rewrite Gc in E3. simpl in E3.
    destruct (py_eq c NA) eqn:Ec; [| discriminate E3].
    apply py_eq_NA in Ec. specialize (Gm Ec).
    destruct (dict_get "Mapped reads" r); [discriminate E3 | congruence]. }
  cbn [bind]. apply copy_if_na_inr in E3. destruct E3 as (P3 & _).
  assert (E4 : forall body, if_positive "Total alignments" body d3 = inl TypeError).
  { intros body. unfold if_positive, getitem. carry. rewrite Gt. reflexivity. }
  rewrite E4. reflexivity.
Qed.

End MoreFixupFacts.

Lemma parser_raises_only_witness :
  parser_error (Examples.incomplete_document "RG1") (KeyError "Total bases").
Proof.
  apply (parser_raises_only (Examples.incomplete_document "RG1") (KeyError "Total bases")).
  vm_compute. reflexivity.
Defined.

Lemma text_total_raises_type_error_witness :
  fixup_record Examples.text_total_record = inl TypeError.
Proof.
  apply (text_total_raises_type_error Examples.text_total_record
           (VInt 5) NA NA "NA"); try reflexivity.
  intros _. discriminate.
Defined.

Lemma fixups_are_idempotent_witness :
  exists r',
    fixup_record Examples.unsettled_record = inr r'
    /\ dict_get "Number of duplicate marked reads" r' = Some (VInt 0)
    /\ fixup_record r' = inr r'.
Proof.
  destruct (checked_result (fixup_record Examples.unsettled_record)
              (fun r' => match dict_get "Number of duplicate marked reads" r' with
                         | Some (VInt 0) => true
                         | _ => false
                         end))
    as (r' & H & Hdup); [vm_compute; reflexivity |].
  exists r'. split; [exact H | split].
  - destruct (dict_get "Number of duplicate marked reads" r') as [[[] | |] |];
      try discriminate Hdup. reflexivity.
  - exact (proj1 fixups_are_idempotent _ _ H).
Defined.

Lemma parsed_records_are_settled_witness :
  exists v, dict_get "Number of duplicate marked reads" (Examples.rg_record 90) = Some v
            /\ v <> NA.
Proof.
  assert (H : parse_mapping_metrics_file (Examples.rg_document "A" "RG1" "90")
              = inr ("A", [("RG1", Examples.rg_record 90)], []))
    by (vm_compute; reflexivity).
  exact (proj1 (parsed_records_are_settled _ _ _ _ H "RG1" (Examples.rg_record 90)
                  (or_introl eq_refl))).
Defined.

(** ** The general-metric promoter *)

Section MorePromoterFacts.
Context {PF : PyFloat}.
Variable cfg : config.

Lemma Forall2_same {A : Type} (R : A -> A -> Prop) (l : list A) :
  (forall x, R x x) -> Forall2 R l l.
Proof. intros H. induction l; constructor; auto. Qed.

Lemma Forall2_compose {A : Type} (R : A -> A -> Prop) (l1 l2 l3 : list A) :
  (forall x y z, R x y -> R y z -> R x z) ->
  Forall2 R l1 l2 -> Forall2 R l2 l3 -> Forall2 R l1 l3.
Proof.
  intros Htrans H12. revert l3.
  induction H12 as [| x y l1 l2 Hxy _ IH]; intros l3 H23; inversion H23; subst;
    constructor; eauto.
Qed.

Lemma Forall2_impl_In {A B : Type} (R R' : A -> B -> Prop) (l : list A) (l' : list B) :
  Forall2 R l l' -> (forall x y, In x l -> R x y -> R' x y) -> Forall2 R' l l'.
Proof.
  induction 1 as [| x y l l' Hxy _ IH]; intros Himp; constructor.
  - apply Himp; [left; reflexivity | exact Hxy].
  - apply IH. intros x' y' Hin. apply Himp. right. exact Hin.
Qed.

Lemma untouched_refl (x : string * metric_record) : untouched cfg x x.
Proof. unfold untouched. auto. Qed.

Lemma untouched_trans (x y z : string * metric_record) :
  untouched cfg x y -> untouched cfg y z -> untouched cfg x z.
Proof.
  unfold untouched. intros (E1 & G1 & K1) (E2 & G2 & K2). split; [congruence |]. split.
  - intros m Hm. rewrite (G2 m Hm). auto.
  - auto.
Qed.

Lemma general_id_is_general (g : general_metric) :
  In g (GENERAL_METRICS cfg) -> is_general_metric cfg (gm_id g) = true.
Proof.
  intros Hg. unfold is_general_metric. rewrite existsb_exists. exists (gm_id g).
  split; [now apply in_map | apply String.eqb_refl].
Qed.

Lemma delete_metric_untouched (g : general_metric) (d d' : dict metric_record) :
  In g (GENERAL_METRICS cfg) ->
  delete_metric (gm_id g) d = inr d' -> Forall2 (untouched cfg) d d'.
Proof.
  intros Hg H. apply delete_metric_inr in H.
  eapply Forall2_impl; [| exact H]. intros [sn r] [sn' r'] [E Hdel]. simpl in *.
  split; [exact E |]. split.
  - intros m Hm. apply (dict_get_del_other m (gm_id g) r r' Hdel).
    intros Heq. rewrite <- Heq, (general_id_is_general g Hg) in Hm. discriminate Hm.
  - apply (keys_dict_del _ _ _ Hdel).
Qed.

Lemma promote_untouched (by_metric : dict (dict value)) (g : general_metric)
  (info info' : option (list header_fact)) (d d' : dict metric_record) :
  In g (GENERAL_METRICS cfg) ->
  promote by_metric g (info, d) = inr (info', d') -> Forall2 (untouched cfg) d d'.
Proof.
  intros Hg H. apply promote_inr in H.
  destruct (Nat.eqb _ 1).
  - exact (delete_metric_untouched g d d' Hg H).
  - destruct H as [_ ->]. apply Forall2_same, untouched_refl.
Qed.

Lemma maybe_add_general_metrics_untouched (info info' : option (list header_fact))
  (d d' : dict metric_record) :
  maybe_add_general_metrics cfg info d = inr (info', d') -> Forall2 (untouched cfg) d d'.
Proof.
  intros H. unfold maybe_add_general_metrics in H.
  apply (foldM_invariant (promote (collect_general cfg d))
           (fun st => Forall2 (untouched cfg) d (snd st)) (GENERAL_METRICS cfg))
    with (acc := (info, d)) (acc' := (info', d')); [| | exact H].
  - intros g [i dc] [i' dc'] Hg Hdc Hstep. simpl in *.
    apply (Forall2_compose _ d dc dc' untouched_trans Hdc).
    exact (promote_untouched _ g i i' dc dc' Hg Hstep).
  - apply Forall2_same, untouched_refl.
Qed.

Lemma maybe_add_general_metrics_keys (info info' : option (list header_fact))
  (d d' : dict metric_record) :
  maybe_add_general_metrics cfg info d = inr (info', d') -> keys d' = keys d.
Proof.
  intros H. apply maybe_add_general_metrics_untouched in H. unfold keys.
  induction H as [| x y l l' [E _] _ IH]; simpl; [reflexivity |].
  now rewrite E, IH.
Qed.

(** X12.  When the promoter returns, the samples are the same, in the same
    order; every metric outside the general catalogue has the value it had
    in every sample, and no sample has gained a key. *)
Theorem promoter_touches_general_metrics_only (info info' : option (list header_fact))
  (d d' : dict metric_record) :
  maybe_add_general_metrics cfg info d = inr (info', d') ->
  keys d' = keys d /\ Forall2 (untouched cfg) d d'.
Proof.
  intros H. split.
  - exact (maybe_add_general_metrics_keys info info' d d' H).
  - exact (maybe_add_general_metrics_untouched info info' d d' H).
Qed.

Lemma length_one {A : Type} (l : list A) :
  Nat.eqb (List.length l) 1 = true -> exists x, l = [x].
Proof. destruct l as [| x [| y l]]; simpl; try discriminate. eauto. Qed.

Lemma promoted_fact_none (g : general_metric) (distinct : list value) :
  Nat.eqb (List.length distinct) 1 = false -> promoted_fact g distinct [].
Proof. destruct distinct as [| v [| v' l]]; simpl; congruence. Qed.

Lemma promote_facts (by_metric : dict (dict value)) (g : general_metric)
  (info info' : option (list header_fact)) (d d' : dict metric_record) :
  promote by_metric g (info, d) = inr (info', d') ->
  exists added,
    promoted_fact g (py_set (values (or_empty (dict_get (gm_id g) by_metric)))) added
    /\ facts info' = (facts info ++ added)%list.
Proof.
  unfold promote.
  destruct (Nat.eqb (List.length (py_set (values (or_empty (dict_get (gm_id g) by_metric))))) 1)
    eqn:E.
  - destruct (length_one _ E) as (v & ->). intros H.
    cbn [index nth_error of_option bind ret] in H.
    unfold promoted_fact.
    destruct (py_ne v NA).
    + bind_inv H. bind_inv H. injection H as <- _.
      apply bind_inr in Hx. destruct Hx as (v' & Hv' & Hx).
      apply bind_inr in Hx. destruct Hx as (text & Htext & Hx). injection Hx as <-.
      exists [(gm_title g, text)]. split; [| destruct info; reflexivity].
      exists v', text. auto.
    + bind_inv H. injection Hx as <-. bind_inv H. injection H as <- _.
      exists []. split; [reflexivity |]. destruct info; simpl; rewrite ?app_nil_r; reflexivity.
  - intros H. injection H as <- <-. exists []. split.
    + apply promoted_fact_none, E.
    + now rewrite app_nil_r.
Qed.

Lemma promote_loop_facts (by_metric : dict (dict value)) (gs : list general_metric) :
  forall info d info' d',
    foldM (promote by_metric) gs (info, d) = inr (info', d') ->
    exists addeds,
      Forall2 (fun g added =>
                 promoted_fact g (py_set (values (or_empty (dict_get (gm_id g) by_metric))))
                   added) gs addeds
      /\ facts info' = (facts info ++ concat addeds)%list.
Proof.
  induction gs as [| g gs IH]; simpl; intros info d info' d' H.
  - injection H as <- <-. exists []. split; [constructor | now rewrite app_nil_r].
  - bind_inv H. destruct x as [info1 d1].
    destruct (promote_facts _ _ _ _ _ _ Hx) as (added & Hadded & E1).
    destruct (IH _ _ _ _ H) as (addeds & Hall & E2).
    exists (added :: addeds). split; [constructor; assumption |].
    simpl. rewrite E2, E1. now rewrite <- app_assoc.
Qed.

(** X13.  The facts that the promoter adds to the report header follow
    the catalogue of general metrics, in its order, after the facts that
    were there: a metric whose values among the samples are all equal to one
    value other than [NA] adds one fact, its title with the value modified
    and formatted as the catalogue says; a metric shared as [NA], absent
    from every sample, or with several distinct values adds none. *)
Theorem header_facts_follow_shared_values (info info' : option (list header_fact))
  (d d' : dict metric_record) :
  dict_wf d -> records_wf d ->
  maybe_add_general_metrics cfg info d = inr (info', d') ->
  exists addeds,
    Forall2 (fun g added => promoted_fact g (py_set (metric_values (gm_id g) d)) added)
      (GENERAL_METRICS cfg) addeds
    /\ facts info' = (facts info ++ concat addeds)%list.
Proof.
  intros Hwf Hrec H. unfold maybe_add_general_metrics in H.
  destruct (promote_loop_facts _ _ _ _ _ _ H) as (addeds & Hall & E).
  exists addeds. split; [| exact E].
  apply (Forall2_impl_In _ _ _ _ Hall). intros g added Hg Hadded.
  rewrite <- (collect_general_spec cfg (gm_id g) d); auto.
  apply general_id_is_general, Hg.
Qed.

Lemma Forall2_In_left {A B : Type} (R : A -> B -> Prop) (l : list A) (l' : list B) (x : A) :
  Forall2 R l l' -> In x l -> exists y, In y l' /\ R x y.
Proof.
  induction 1 as [| a b l l' Hab _ IH]; intros Hin; [contradiction |].
  destruct Hin as [<- | Hin].
  - exists b. split; [left; reflexivity | exact Hab].
  - destruct (IH Hin) as (y & Hy & Hxy). exists y. split; [right; exact Hy | exact Hxy].
Qed.

Lemma py_format_plain (v : value) :
  py_format "{}" v = inr (py_str v)
  /\ py_format "{} % of genome" v = inr (py_str v ++ " % of genome").
Proof.
  unfold py_format. destruct v; cbn; rewrite ?append_nil_r; split; reflexivity.
Qed.

Lemma promoted_fact_plain (g : general_metric) (v : value) (added : list header_fact)
  (text : string) :
  gm_modify g = None -> py_format (gm_fmt g) v = inr text -> v <> NA ->
  promoted_fact g [v] added -> added = [(gm_title g, text)].
Proof.
  intros Hmod Hfmt Hv H. unfold promoted_fact in H.
  assert (E : py_ne v NA = true).
  { unfold py_ne. destruct (py_eq v NA) eqn:E; [| reflexivity].
    apply py_eq_NA in E. contradiction. }
  rewrite E, Hmod in H. destruct H as (v' & text' & Hv' & Htext & ->).
  injection Hv' as <-. rewrite Hfmt in Htext. injection Htext as <-. reflexivity.
Qed.

(** X14.  When every sample holds the same sex chromosome ploidy, other
    than [NA], the report header shows it as [str] writes it, under
    [Prov. sex chrom ploidy:]; and a value shared for the bases in the
    target bed is shown followed by [ % of genome], under
    [Bases in target bed:]. *)
Theorem shared_value_is_shown (info info' : option (list header_fact))
  (d d' : dict metric_record) (v : value) :
  dict_wf d -> records_wf d ->
  maybe_add_general_metrics cfg info d = inr (info', d') ->
  v <> NA ->
  (py_set (metric_values "Provided sex chromosome ploidy" d) = [v] ->
   In ("Prov. sex chrom ploidy:", py_str v) (facts info'))
  /\ (py_set (metric_values "Bases in target bed [% of genome]" d) = [v] ->
      In ("Bases in target bed:", py_str v ++ " % of genome") (facts info')).
Proof.
  intros Hwf Hrec H Hv.
  unfold maybe_add_general_metrics in H.
  destruct (promote_loop_facts _ _ _ _ _ _ H) as (addeds & Hall & E).
  assert (Hshown : forall g text,
            In g (GENERAL_METRICS cfg) -> gm_modify g = None ->
            py_format (gm_fmt g) v = inr text ->
            py_set (metric_values (gm_id g) d) = [v] ->
            In (gm_title g, text) (facts info')).
  { intros g text Hg Hmod Hfmt Hset.
    destruct (Forall2_In_left _ _ _ g Hall Hg) as (added & Hadded & Hfact).
    rewrite (collect_general_spec cfg (gm_id g) d) in Hfact;
      [| apply general_id_is_general, Hg | exact Hwf | exact Hrec].
    rewrite Hset in Hfact.
    rewrite (promoted_fact_plain g v added text Hmod Hfmt Hv Hfact) in Hadded.
    rewrite E. apply in_or_app. right. apply in_concat.
    exists [(gm_title g, text)]. split; [exact Hadded | left; reflexivity]. }
  destruct (py_format_plain v) as [F1 F2].
  split; intros Hset.
  - apply (Hshown (mk_general "Provided sex chromosome ploidy" "Prov. sex chrom ploidy:"
                     "{}" None)); auto.
    simpl. tauto.
  - apply (Hshown (mk_general "Bases in target bed [% of genome]" "Bases in target bed:"
                     "{} % of genome" None)); auto.
    simpl. tauto.
Qed.

Lemma promote_lacking (by_metric : dict (dict value)) (gs : list general_metric) :
  NoDup (map gm_id gs) ->
  forall g, In g gs ->
    Nat.eqb (List.length (py_set (values (or_empty (dict_get (gm_id g) by_metric))))) 1 = true ->
    forall info d,
      (exists sn r, In (sn, r) d /\ dict_get (gm_id g) r = None) ->
      is_ok (foldM (promote by_metric) gs (info, d)) = false.
Proof.
  induction gs as [| g0 gs IH]; intros Hnodup g Hg Hone info d Hlack; [contradiction |].
  apply NoDup_cons_iff in Hnodup. destruct Hnodup as [Hnot Hnodup].
  cbn [foldM]. destruct Hg as [-> | Hg].
  - assert (F : is_ok (promote by_metric g (info, d)) = false).
    { unfold promote. rewrite Hone.
      destruct Hlack as (sn & r & Hin & Hnone).
      assert (D : is_ok (delete_metric (gm_id g) d) = false).
      { unfold delete_metric. apply (mapM_fails _ d (sn, r) Hin).
        rewrite (dict_del_absent _ _ Hnone). reflexivity. }
      destruct (index 0 _) as [e | v]; [reflexivity |]. cbn [bind].
      match goal with
      | |- is_ok (bind ?m _) = false => destruct m as [e | info1]; [reflexivity |]
      end.
      cbn [bind]. destruct (delete_metric (gm_id g) d); [reflexivity | discriminate D]. }
    destruct (promote by_metric g (info, d)); [reflexivity | discriminate F].
  - destruct (promote by_metric g0 (info, d)) as [e | [info1 d1]] eqn:E; [reflexivity |].
    cbn [bind]. apply (IH Hnodup g Hg Hone).
    destruct Hlack as (sn & r & Hin & Hnone).
    apply promote_inr in E.
    destruct (Nat.eqb (List.length
                         (py_set (values (or_empty (dict_get (gm_id g0) by_metric))))) 1).
    + apply delete_metric_inr in E.
      destruct (Forall2_In_left _ _ _ (sn, r) E Hin) as ([sn1 r1] & Hin1 & _ & Hdel).
      simpl in Hdel. exists sn1, r1. split; [exact Hin1 |].
      rewrite (dict_get_del_other _ _ _ _ Hdel); [exact Hnone |].
      intros Heq. apply Hnot. rewrite Heq. apply in_map. exact Hg.
    + destruct E as [_ ->]. eauto.
Qed.

(** X15.  Where the samples that hold a general metric agree on its value
    and another sample lacks the metric, the promoter raises: the deletion
    loop expects the metric in every sample. *)
Theorem promoter_raises_where_shared_metric_is_missing
  (info : option (list header_fact)) (d : dict metric_record) (g : general_metric)
  (sn : string) (r : metric_record) :
  dict_wf d -> records_wf d ->
  In g (GENERAL_METRICS cfg) ->
  List.length (py_set (metric_values (gm_id g) d)) = 1%nat ->
  In (sn, r) d -> dict_get (gm_id g) r = None ->
  exists e, maybe_add_general_metrics cfg info d = inl e.
Proof.
  intros Hwf Hrec Hg Hone Hin Hnone.
  assert (F : is_ok (maybe_add_general_metrics cfg info d) = false).
  { unfold maybe_add_general_metrics.
    apply (promote_lacking _ _ (general_ids_nodup cfg) g Hg).
    - rewrite (collect_general_spec cfg (gm_id g) d); auto.
      + rewrite Hone. reflexivity.
      + apply general_id_is_general, Hg.
    - eauto. }
  destruct (maybe_add_general_metrics cfg info d) as [e | ?]; [eauto | discriminate F].
Qed.

Lemma promote_loop_idle (by_metric : dict (dict value)) (gs : list general_metric) :
  (forall g, In g gs ->
     Nat.eqb (List.length (py_set (values (or_empty (dict_get (gm_id g) by_metric))))) 1
     = false) ->
  forall st, foldM (promote by_metric) gs st = inr st.
Proof.
  induction gs as [| g gs IH]; intros Hidle [info d]; [reflexivity |].
  cbn [foldM]. unfold promote at 1. rewrite (Hidle g (or_introl eq_refl)). cbn [bind ret].
  apply IH. intros g' Hg'. apply Hidle. right. exact Hg'.
Qed.

(** X16.  When no general metric has exactly one distinct value among the
    samples, the promoter returns the samples and the report header as
    they were. *)
Theorem promoter_is_idle_without_shared_value (info : option (list header_fact))
  (d : dict metric_record) :
  dict_wf d -> records_wf d ->
  (forall g, In g (GENERAL_METRICS cfg) ->
     List.length (py_set (metric_values (gm_id g) d)) <> 1%nat) ->
  maybe_add_general_metrics cfg info d = inr (info, d).
Proof.
  intros Hwf Hrec Hidle. unfold maybe_add_general_metrics.
  apply promote_loop_idle. intros g Hg.
  rewrite (collect_general_spec cfg (gm_id g) d);
    [| apply general_id_is_general, Hg | exact Hwf | exact Hrec].
  apply Nat.eqb_neq. exact (Hidle g Hg).
Qed.

End MorePromoterFacts.

Lemma promoter_touches_general_metrics_only_witness :
  keys Examples.three_samples_promoted = keys Examples.three_samples
  /\ Forall2 (untouched Examples.default_config)
       Examples.three_samples Examples.three_samples_promoted.
Proof.
  apply (promoter_touches_general_metrics_only Examples.default_config None
           (Some [("Prov. sex chrom ploidy:", "2")])).
  reflexivity.
Defined.

Lemma header_facts_follow_shared_values_witness :
  exists addeds,
    Forall2 (fun g added =>
               promoted_fact g (py_set (metric_values (gm_id g) Examples.three_samples)) added)
      (GENERAL_METRICS Examples.default_config) addeds
    /\ facts (Some [("Prov. sex chrom ploidy:", "2")]) = (facts None ++ concat addeds)%list.
Proof.
  apply (header_facts_follow_shared_values Examples.default_config None
           (Some [("Prov. sex chrom ploidy:", "2")])
           Examples.three_samples Examples.three_samples_promoted).
  - unfold dict_wf. simpl. repeat constructor; simpl; intuition discriminate.
  - intros sn r [E | [E | [E | []]]]; injection E as <- <-; unfold dict_wf; simpl;
      repeat constructor; simpl; intuition discriminate.
  - reflexivity.
Defined.

Lemma shared_value_is_shown_witness :
  In ("Prov. sex chrom ploidy:", py_str (VInt 2))
    (facts (Some [("Prov. sex chrom ploidy:", "2")])).
Proof.
  apply (proj1 (shared_value_is_shown Examples.default_config None
                  (Some [("Prov. sex chrom ploidy:", "2")])
                  Examples.three_samples Examples.three_samples_promoted (VInt 2)
                  ltac:(unfold dict_wf; simpl; repeat constructor; simpl; intuition discriminate)
                  ltac:(intros sn r [E | [E | [E | []]]]; injection E as <- <-;
                        unfold dict_wf; simpl; repeat constructor; simpl;
                        intuition discriminate)
                  eq_refl ltac:(discriminate))).
  reflexivity.
Defined.

Lemma promoter_raises_where_shared_metric_is_missing_witness :
  exists e, maybe_add_general_metrics Examples.default_config None
              Examples.one_sample_lacks_ploidy = inl e.
Proof.
  apply (promoter_raises_where_shared_metric_is_missing Examples.default_config None
           Examples.one_sample_lacks_ploidy
           (mk_general "Provided sex chromosome ploidy" "Prov. sex chrom ploidy:" "{}" None)
           "S3" [("Total input reads", VInt 3000)]).
  - unfold dict_wf. simpl. repeat constructor; simpl; intuition discriminate.
  - intros sn r [E | [E | []]]; injection E as <- <-; unfold dict_wf; simpl;
      repeat constructor; simpl; intuition discriminate.
  - simpl. tauto.
  - reflexivity.
  - right. left. reflexivity.
  - reflexivity.
Defined.

Lemma promoter_is_idle_without_shared_value_witness :
  maybe_add_general_metrics Examples.default_config None Examples.three_samples_differing
  = inr (None, Examples.three_samples_differing).
Proof.
  apply (promoter_is_idle_without_shared_value Examples.default_config None
           Examples.three_samples_differing).
  - unfold dict_wf. simpl. repeat constructor; simpl; intuition discriminate.
  - intros sn r [E | [E | [E | []]]]; injection E as <- <-; unfold dict_wf; simpl;
      repeat constructor; simpl; intuition discriminate.
  - intros g [<- | [<- | [<- | [<- | []]]]]; vm_compute; discriminate.
Defined.

(** ** The metadata builder *)

Section MoreBuilderFacts.
Context {PF : PyFloat}.
Variable cfg : config.

#[local] Arguments add_headers : simpl never.

Lemma count_column_hidden (m : metric_descriptor) (col : column) :
  count_column cfg m = inr col -> col_hidden col = Some (negb (is_str (showing m) "#")).
Proof.
  unfold count_column. intros H.
  destruct (is_str (unit m) "reads"), (is_str (unit m) "bases"), (is_str (unit m) "len"),
           (is_str (unit m) "x"), (is_str (unit m) "%");
    cbn [bind ret] in H;
    repeat match goal with
    | G : bind _ _ = inr _ |- _ =>
        let y := fresh "y" in
        let Gy := fresh "Gy" in
        apply bind_inr in G; destruct G as (y & Gy & G)
    | G : ret _ = inr _ |- _ => injection G as <-
    | G : inr _ = inr _ |- _ => injection G as <-
    end; reflexivity.
Qed.

Lemma headers_lookup_loop (names : list string) (ms : list metric_descriptor) :
  NoDup (flat_map possible_keys ms) ->
  forall h b h' b',
    foldM (add_headers cfg names) ms (h, b) = inr (h', b') ->
    (forall m, In m ms ->
       exists col,
         count_column cfg m = inr col
         /\ dict_get (id_in_data m) h' = Some col
         /\ dict_get (pct_key m) h'
            = (if in_names (pct_key m) names then Some (pct_column m)
               else dict_get (pct_key m) h)
         /\ dict_get (id_in_data m) b'
            = (if show_in_beeswarm m then Some (set_suffix (beeswarm_suffix cfg m) col)
               else dict_get (id_in_data m) b))
    /\ (forall k, ~ In k (flat_map possible_keys ms) ->
          dict_get k h' = dict_get k h /\ dict_get k b' = dict_get k b).
Proof.
  induction ms as [| m ms IH]; intros Hnodup h b h' b' H.
  - injection H as <- <-. split; [intros ? [] | auto].
  - cbn [flat_map possible_keys app] in Hnodup.
    apply NoDup_cons_iff in Hnodup. destruct Hnodup as [Hpct Hnodup].
    apply NoDup_cons_iff in Hnodup. destruct Hnodup as [Hid Hnodup].
    cbn [foldM] in H. apply bind_inr in H. destruct H as ([h2 b2] & Hstep & H).
    destruct (count_column cfg m) as [e | col] eqn:Ecol.
    { unfold add_headers in Hstep. rewrite Ecol in Hstep. discriminate Hstep. }
    rewrite (add_headers_inr cfg names m h b col Ecol) in Hstep. injection Hstep as <- <-.
    destruct (IH Hnodup _ _ _ _ H) as (Hin & Hframe).
    assert (Hne : pct_key m <> id_in_data m).
    { intros E. apply Hpct. left. symmetry. exact E. }
    assert (Hpct' : ~ In (pct_key m) (flat_map possible_keys ms)).
    { intros Hk. apply Hpct. right. exact Hk. }
    split.
    + intros m' [<- | Hm'].
      * exists col. split; [exact Ecol |].
        destruct (Hframe _ Hid) as [Eh Eb]. destruct (Hframe _ Hpct') as [Eh' _].
        rewrite Eh, Eh', Eb. rewrite dict_get_set_eq.
        rewrite dict_get_set_neq by congruence.
        split; [reflexivity | split].
        -- destruct (in_names (pct_key m) names); [apply dict_get_set_eq | reflexivity].
        -- destruct (show_in_beeswarm m); [apply dict_get_set_eq | reflexivity].
      * destruct (Hin m' Hm') as (col' & Ecol' & G1 & G2 & G3).
        exists col'. split; [exact Ecol' | split; [exact G1 |]].
        assert (Kid : In (id_in_data m') (flat_map possible_keys ms)).
        { apply in_flat_map. exists m'. split; [exact Hm' | right; left; reflexivity]. }
        assert (Kpct : In (pct_key m') (flat_map possible_keys ms)).
        { apply in_flat_map. exists m'. split; [exact Hm' | left; reflexivity]. }
        split.
        -- rewrite G2. destruct (in_names (pct_key m') names); [reflexivity |].
           rewrite dict_get_set_neq by (intros E; apply Hid; rewrite E; exact Kpct).
           destruct (in_names (pct_key m) names); [| reflexivity].
           apply dict_get_set_neq. intros E. apply Hpct'. rewrite E. exact Kpct.
        -- rewrite G3. destruct (show_in_beeswarm m'); [reflexivity |].
           destruct (show_in_beeswarm m); [| reflexivity].
           apply dict_get_set_neq. intros E. apply Hid. rewrite E. exact Kid.
    + intros k Hk. cbn [flat_map possible_keys app] in Hk.
      assert (K1 : pct_key m <> k) by (intros E; apply Hk; left; exact E).
      assert (K2 : id_in_data m <> k) by (intros E; apply Hk; right; left; exact E).
      assert (K3 : ~ In k (flat_map possible_keys ms))
        by (intros E; apply Hk; right; right; exact E).
      destruct (Hframe k K3) as [Eh Eb]. rewrite Eh, Eb. split.
      * rewrite dict_get_set_neq by exact K2.
        destruct (in_names (pct_key m) names); [| reflexivity].
        apply dict_get_set_neq. exact K1.
      * destruct (show_in_beeswarm m); [| reflexivity].
        apply dict_get_set_neq. exact K2.
Qed.

(** X17.  The metadata builder returns for every set of names and every
    configuration, and no entry of the catalogue overwrites the column of
    another: under the identifier of each entry the column metadata holds
    the column built from that entry, hidden unless the entry is shown as
    [#]; under the identifier followed by [ pct] it holds the percentage
    column of that entry when the name was observed, and nothing otherwise;
    and the beeswarm metadata holds the column with the beeswarm suffix for
    the eligible entries, and nothing for the others. *)
Theorem every_catalogue_entry_keeps_its_column (names : list string) :
  exists headers beeswarm,
    make_mapping_stats_headers cfg names = inr (headers, beeswarm)
    /\ forall m, In m MAPPING_METRICS ->
         exists col,
           count_column cfg m = inr col
           /\ col_hidden col = Some (negb (is_str (showing m) "#"))
           /\ dict_get (id_in_data m) headers = Some col
           /\ dict_get (pct_key m) headers
              = (if in_names (pct_key m) names then Some (pct_column m) else None)
           /\ dict_get (id_in_data m) beeswarm
              = (if show_in_beeswarm m then Some (set_suffix (beeswarm_suffix cfg m) col)
                 else None).
Proof.
  destruct (headers_from_empty cfg names MAPPING_METRICS (count_column_total cfg)
              possible_keys_nodup) as (h & b & Hrun & _).
  exists h, b. split; [exact Hrun |]. intros m Hm.
  destruct (headers_lookup_loop names MAPPING_METRICS possible_keys_nodup [] [] h b Hrun)
    as (Hin & _).
  destruct (Hin m Hm) as (col & Ecol & G1 & G2 & G3).
  exists col. split; [exact Ecol |]. split; [exact (count_column_hidden m col Ecol) |].
  auto.
Qed.

End MoreBuilderFacts.

(** ** The aggregator *)

Section MoreAggregatorFacts.
Context {PF : PyFloat}.

Lemma merge_loop_fresh (d : dict (dict metric_record)) :
  forall acc,
    NoDup (keys acc ++ flat_map (fun entry => keys (snd entry)) d) ->
    fold_left (fun acc '(sname, rgs) => merge_document sname rgs acc) d acc
    = (acc ++ flat_map snd d)%list.
Proof.
  induction d as [| [sname rgs] d IH]; simpl; intros acc Hnodup.
  - now rewrite app_nil_r.
  - rewrite app_assoc in Hnodup.
    rewrite merge_document_fresh.
    + rewrite IH; [now rewrite <- app_assoc |].
      unfold keys in *. rewrite map_app. exact Hnodup.
    + unfold keys in *. rewrite map_app. apply NoDup_app_remove_r in Hnodup. exact Hnodup.
Qed.

(** X18.  When the read-group names of the documents are pairwise
    different, the merged per-read-group mapping is the plain union of the
    documents, in order, no key being renamed. *)
Theorem merge_without_clashes_is_union (d : dict (dict metric_record)) :
  NoDup (flat_map (fun entry => keys (snd entry)) d) ->
  merge_read_groups d = flat_map snd d.
Proof.
  intros H. unfold merge_read_groups. apply (merge_loop_fresh d [] H).
Qed.

Lemma merge_document_from (sname : string) (rgs : dict metric_record) :
  forall acc k r,
    In (k, r) (merge_document sname rgs acc) ->
    In (k, r) acc
    \/ exists rg, In (rg, r) rgs /\ (k = rg \/ k = rg ++ " (" ++ sname ++ ")").
Proof.
  unfold merge_document.
  induction rgs as [| [rg0 r0] rgs IH]; simpl; intros acc k r H; [auto |].
  apply IH in H. destruct H as [H | (rg & Hrg & Hk)].
  - apply In_dict_set in H. destruct H as [[-> ->] | H]; [| auto].
    right. exists rg0. split; [left; reflexivity |].
    unfold merged_key. destruct (dict_mem rg0 acc); auto.
  - right. exists rg. auto.
Qed.

(** X19.  The merge invents nothing: every record of the merged
    per-read-group mapping is the record of a read group of a document,
    under the name of that read group or under that name followed by the
    name of the document in parentheses. *)
Theorem merged_read_groups_come_from_documents (d : dict (dict metric_record))
  (k : string) (r : metric_record) :
  In (k, r) (merge_read_groups d) ->
  exists sname rgs rg,
    In (sname, rgs) d /\ In (rg, r) rgs /\ (k = rg \/ k = rg ++ " (" ++ sname ++ ")").
Proof.
  unfold merge_read_groups.
  assert (G : forall acc,
            In (k, r) (fold_left (fun acc '(sname, rgs) => merge_document sname rgs acc)
                         d acc) ->
            In (k, r) acc
            \/ exists sname rgs rg,
                 In (sname, rgs) d /\ In (rg, r) rgs
                 /\ (k = rg \/ k = rg ++ " (" ++ sname ++ ")")).
  { induction d as [| [sname rgs] d IH]; simpl; intros acc H; [auto |].
    apply IH in H. destruct H as [H | (sname' & rgs' & rg & Hin & Hrg & Hk)].
    - apply merge_document_from in H. destruct H as [H | (rg & Hrg & Hk)]; [auto |].
      right. exists sname, rgs, rg. auto.
    - right. exists sname', rgs', rg. auto. }
  intros H. apply G in H. destruct H as [[] | H]. exact H.
Qed.

Lemma flatten_document_fresh (sn : string) (phs : dict metric_record) :
  forall acc,
    NoDup (keys acc ++ map (sample_name sn) (keys phs)) ->
    flatten_document sn phs acc = (acc ++ reported (sn, phs))%list.
Proof.
  unfold flatten_document, reported. simpl.
  induction phs as [| [ph r] phs IH]; simpl; intros acc Hnodup.
  - now rewrite app_nil_r.
  - assert (Hfresh : ~ In (sample_name sn ph) (keys acc)).
    { apply NoDup_remove_2 in Hnodup. rewrite in_app_iff in Hnodup. tauto. }
    rewrite dict_set_fresh by exact Hfresh.
    rewrite IH; [now rewrite <- app_assoc |].
    unfold keys in *. rewrite map_app, <- app_assoc. exact Hnodup.
Qed.

Lemma keys_reported (entry : string * dict metric_record) :
  keys (reported entry) = map (sample_name (fst entry)) (keys (snd entry)).
Proof. unfold keys, reported. rewrite !map_map. reflexivity. Qed.

Lemma flatten_loop_fresh (d : dict (dict metric_record)) :
  forall acc,
    NoDup (keys acc ++ flat_map (fun entry => keys (reported entry)) d) ->
    fold_left (fun acc '(sn, phenotypes) => flatten_document sn phenotypes acc) d acc
    = (acc ++ flat_map reported d)%list.
Proof.
  induction d as [| [sn phs] d IH]; simpl; intros acc Hnodup.
  - now rewrite app_nil_r.
  - rewrite app_assoc in Hnodup.
    rewrite flatten_document_fresh.
    + rewrite IH; [now rewrite <- app_assoc |].
      unfold keys at 1. rewrite map_app. exact Hnodup.
    + apply NoDup_app_remove_r in Hnodup. rewrite keys_reported in Hnodup. exact Hnodup.
Qed.

(** X20.  When the names under which the phenotypes are reported are
    pairwise different, the merged per-sample mapping is the plain union of
    the documents: every phenotype record of every document, in order, under
    the document's name or, for [normal], the name followed by
    [ normal]. *)
Theorem flatten_without_clashes_is_union (d : dict (dict metric_record)) :
  NoDup (flat_map (fun entry => keys (reported entry)) d) ->
  flatten_samples d = flat_map reported d.
Proof.
  intros H. unfold flatten_samples. apply (flatten_loop_fresh d [] H).
Qed.

(** *** The loop over the files *)

Lemma add_file_inr (f : log_file) (acc c : collected) :
  add_file f acc = inr c ->
  exists s_name rgs phs,
    parse_mapping_metrics_file f = inr (s_name, rgs, phs)
    /\ re_search_group (fn f) = Some s_name
    /\ by_rg c = dict_set s_name rgs (by_rg acc)
    /\ by_phenotype c = dict_set s_name phs (by_phenotype acc)
    /\ data_sources c
       = (data_sources acc ++ if dict_mem s_name (by_rg acc) then [fn f] else [])%list.
Proof.
  unfold add_file. intros H. bind_inv H. destruct x as [[s_name rgs] phs].
  injection H as <-. exists s_name, rgs, phs.
  pose proof (parse_mapping_metrics_file_inr f s_name rgs phs Hx) as (_ & _ & Hname & _).
  simpl. repeat split; auto.
  destruct (dict_mem s_name (by_rg acc)); [reflexivity | now rewrite app_nil_r].
Qed.

Lemma dict_mem_keys {V W : Type} (k : string) (d : dict V) (d' : dict W) :
  keys d = keys d' -> dict_mem k d = dict_mem k d'.
Proof.
  intros E. destruct (dict_mem k d') eqn:E'.
  - apply dict_mem_true. rewrite E. now apply dict_mem_true.
  - apply dict_mem_false. rewrite E. now apply dict_mem_false.
Qed.

Lemma keys_dict_set_both {V W : Type} (k : string) (v : V) (w : W)
  (d : dict V) (d' : dict W) :
  keys d = keys d' -> keys (dict_set k v d) = keys (dict_set k w d').
Proof.
  intros E. rewrite !keys_dict_set, (dict_mem_keys k d d' E), E. reflexivity.
Qed.

Lemma dict_mem_set {V : Type} (k k' : string) (v : V) (d : dict V) :
  dict_mem k (dict_set k' v d) = (String.eqb k' k || dict_mem k d)%bool.
Proof.
  unfold dict_mem. rewrite dict_get_set. destruct (String.eqb k' k); reflexivity.
Qed.

Lemma last_parsed_from (name : string) (files : list log_file)
  (found : option (dict metric_record * dict metric_record)) :
  fold_left
    (fun found f =>
       match parse_mapping_metrics_file f with
       | inr (s_name, rgs, phs) => if String.eqb s_name name then Some (rgs, phs) else found
       | inl _ => found
       end)
    files found
  = match last_parsed name files with
    | Some parsed => Some parsed
    | None => found
    end.
Proof.
  unfold last_parsed. revert found.
  induction files as [| f files IH]; simpl; intros found; [reflexivity |].
  rewrite IH. symmetry. rewrite IH.
  destruct (fold_left _ files None); [reflexivity |].
  destruct (parse_mapping_metrics_file f) as [e | [[s_name rgs] phs]]; [reflexivity |].
  destruct (String.eqb s_name name); reflexivity.
Qed.

Lemma collect_loop (files : list log_file) :
  forall acc c,
    foldM add_file files acc = inr c ->
    keys (by_rg acc) = keys (by_phenotype acc) ->
    keys (by_rg c) = keys (by_phenotype c)
    /\ (forall name,
          dict_get name (by_rg c)
          = match last_parsed name files with
            | Some parsed => Some (fst parsed)
            | None => dict_get name (by_rg acc)
            end)
    /\ (forall name,
          dict_get name (by_phenotype c)
          = match last_parsed name files with
            | Some parsed => Some (snd parsed)
            | None => dict_get name (by_phenotype acc)
            end).
Proof.
  induction files as [| f files IH]; simpl; intros acc c H Hkeys.
  - injection H as <-. auto.
  - bind_inv H. destruct (add_file_inr f acc x Hx) as (s & rgs & phs & Hp & _ & Erg & Eph & _).
    destruct (IH x c H) as (K & Grg & Gph).
    { rewrite Erg, Eph. apply keys_dict_set_both. exact Hkeys. }
    split; [exact K |].
    unfold last_parsed at 1 2. simpl. rewrite Hp.
    split; intros name; rewrite last_parsed_from;
      [rewrite Grg, Erg | rewrite Gph, Eph]; rewrite dict_get_set;
      destruct (last_parsed name files); try reflexivity;
      destruct (String.eqb s name); reflexivity.
Qed.

Lemma collect_files_keys (files : list log_file) (c : collected) :
  collect_files files = inr c -> keys (by_rg c) = keys (by_phenotype c).
Proof.
  intros H. apply (collect_loop files _ c H). reflexivity.
Qed.

(** X21.  After the loop over the files, the two collected mappings have
    the same document names in the same order, and each holds, under a
    name, the read groups and the phenotypes of the last file of that
    name. *)
Theorem last_file_of_a_name_wins (files : list log_file) (c : collected) :
  collect_files files = inr c ->
  keys (by_rg c) = keys (by_phenotype c)
  /\ forall name,
       dict_get name (by_rg c) = option_map fst (last_parsed name files)
       /\ dict_get name (by_phenotype c) = option_map snd (last_parsed name files).
Proof.
  intros H. destruct (collect_loop files _ c H eq_refl) as (K & Grg & Gph).
  split; [exact K |]. intros name. rewrite Grg, Gph.
  destruct (last_parsed name files); auto.
Qed.

Lemma sources_loop (files : list log_file) :
  forall seen acc c,
    foldM add_file files acc = inr c ->
    (forall k, in_names k seen = dict_mem k (by_rg acc)) ->
    data_sources c = (data_sources acc ++ repeats seen files)%list.
Proof.
  induction files as [| f files IH]; simpl; intros seen acc c H Hseen.
  - injection H as <-. now rewrite app_nil_r.
  - bind_inv H. destruct (add_file_inr f acc x Hx) as (s & rgs & phs & _ & Hname & Erg & _ & Esrc).
    rewrite Hname. rewrite (IH (s :: seen) x c H).
    + rewrite Esrc, Hseen, <- app_assoc. reflexivity.
    + intros k. rewrite Erg, dict_mem_set. simpl. rewrite Hseen, String.eqb_sym. reflexivity.
Qed.

(** X22.  [add_data_source] is called for exactly the files whose name
    repeats the name of an earlier file, in order: a run over files of
    different names records no data source. *)
Theorem data_source_recorded_on_repeat_only (files : list log_file) (c : collected) :
  collect_files files = inr c -> data_sources c = repeats [] files.
Proof.
  intros H. apply (sources_loop files [] _ c H). intros k. reflexivity.
Qed.

End MoreAggregatorFacts.

Lemma merge_without_clashes_is_union_witness :
  merge_read_groups Examples.two_documents
  = [ ("RG1", Examples.rg_record 90); ("RG2", Examples.rg_record 80);
      ("RG3", Examples.rg_record 70) ].
Proof.
  apply (merge_without_clashes_is_union Examples.two_documents).
  simpl. repeat constructor; simpl; intuition discriminate.
Defined.

Lemma merged_read_groups_come_from_documents_witness :
  exists sname rgs rg,
    In (sname, rgs) Examples.same_read_group
    /\ In (rg, Examples.rg_record 80) rgs
    /\ ("RG1 (B)" = rg \/ "RG1 (B)" = rg ++ " (" ++ sname ++ ")").
Proof.
  apply (merged_read_groups_come_from_documents
Examples.same_read_group
           "RG1 (B)" (Examples.rg_record 80)).
  right. left. reflexivity.
Defined.

Lemma flatten_without_clashes_is_union_witness :
  flatten_samples Examples.tumor_normal
  = [ ("A", Examples.rg_record 90); ("A normal", Examples.rg_record 80);
      ("B", Examples.rg_record 70) ].
Proof.
  apply (flatten_without_clashes_is_union Examples.tumor_normal).
  simpl. repeat constructor; simpl; intuition discriminate.
Defined.

Lemma last_file_of_a_name_wins_witness :
  exists c,
    collect_files Examples.same_name_files = inr c
    /\ dict_get "S" (by_rg c) = Some [("RG1", Examples.rg_record 80)].
Proof.
  assert (Hok : is_ok (collect_files Examples.same_name_files) = true)
    by (vm_compute; reflexivity).
  destruct (collect_files Examples.same_name_files) as [e | c] eqn:E; [discriminate Hok |].
  exists c. split; [reflexivity |].
  rewrite (proj1 (proj2 (last_file_of_a_name_wins _ c E) "S")).
  vm_compute. reflexivity.
Defined.

Lemma data_source_recorded_on_repeat_only_witness :
  exists c,
    collect_files Examples.same_name_files = inr c
    /\ data_sources c = ["S.mapping_metrics.csv"].
Proof.
  assert (Hok : is_ok (collect_files Examples.same_name_files) = true)
    by (vm_compute; reflexivity).
  destruct (collect_files Examples.same_name_files) as [e | c] eqn:E; [discriminate Hok |].
  exists c. split; [reflexivity |].
  rewrite (data_source_recorded_on_repeat_only _ c E). reflexivity.
Defined.

(** ** The report of a run *)

Section ReportFacts.
Context {PF : PyFloat}.
Variable cfg : config.
Variable ignored : string -> bool.

Lemma ignore_samples_nil {V : Type} (d : dict V) :
  ignore_samples ignored d = [] <-> forallb ignored (keys d) = true.
Proof.
  unfold ignore_samples. induction d as [| [k v] d IH]; simpl; [tauto |].
  destruct (ignored k); simpl; [exact IH |]. split; discriminate.
Qed.

(** X23.  When every file parses, [parse_mapping_metrics] returns without
    reporting anything exactly when every document name is ignored (with no
    file at all in particular). *)
Theorem nothing_reported_iff_all_ignored (files : list log_file) (c : collected)
  (info : option (list header_fact)) :
  collect_files files = inr c ->
  (parse_mapping_metrics cfg ignored files info = inr None
   <-> forallb ignored (keys (by_rg c)) = true).
Proof.
  intros Hc. pose proof (collect_files_keys files c Hc) as K.
  unfold parse_mapping_metrics. rewrite Hc. cbn [bind].
  pose proof (ignore_samples_nil (by_rg c)) as Irg.
  pose proof (ignore_samples_nil (by_phenotype c)) as Iph. rewrite <- K in Iph.
  destruct (ignore_samples ignored (by_rg c)) as [| x xs] eqn:Erg.
  - destruct (ignore_samples ignored (by_phenotype c)) as [| y ys] eqn:Eph.
    + split; [intros _; now apply Irg | reflexivity].
    + exfalso. assert (F : y :: ys = []) by (apply Iph, Irg; reflexivity). discriminate F.
  - split.
    + intros H. exfalso.
      repeat (apply bind_inr in H; destruct H as ([? ?] & _ & H)).
      destruct (gather_metric_names _ _) as [? ?].
      repeat (apply bind_inr in H; destruct H as ([? ?] & _ & H)).
      discriminate H.
    + intros H. apply Irg in H. discriminate H.
Qed.

Lemma keys_flatten_document (sn : string) (phs : dict metric_record) :
  forall acc k,
    In k (keys (flatten_document sn phs acc)) ->
    In k (keys acc) \/ exists ph, In ph (keys phs) /\ k = sample_name sn ph.
Proof.
  unfold flatten_document.
  induction phs as [| [ph r] phs IH]; simpl; intros acc k H; [auto |].
  apply IH in H. destruct H as [H | (ph' & Hph & ->)].
  - apply In_keys_dict_set in H. destruct H as [-> | H]; [| auto].
    right. exists ph. auto.
  - right. exists ph'. auto.
Qed.

Lemma keys_flatten_samples (d : dict (dict metric_record)) (k : string) :
  In k (keys (flatten_samples d)) ->
  exists sn phs ph, In (sn, phs) d /\ In ph (keys phs) /\ k = sample_name sn ph.
Proof.
  unfold flatten_samples.
  assert (G : forall acc,
            In k (keys (fold_left (fun acc '(sn, phenotypes) =>
                                     flatten_document sn phenotypes acc) d acc)) ->
            In k (keys acc)
            \/ exists sn phs ph, In (sn, phs) d /\ In ph (keys phs) /\ k = sample_name sn ph).
  { induction d as [| [sn phs] d IH]; simpl; intros acc H; [auto |].
    apply IH in H. destruct H as [H | (sn' & phs' & ph & Hin & Hph & ->)].
    - apply keys_flatten_document in H. destruct H as [H | (ph & Hph & ->)]; [auto |].
      right. exists sn, phs, ph. auto.
    - right. exists sn', phs', ph. auto. }
  intros H. apply G in H. destruct H as [[] | H]. exact H.
Qed.

Lemma parse_mapping_metrics_inr (files : list log_file) (info : option (list header_fact))
  (rep : report) :
  parse_mapping_metrics cfg ignored files info = inr (Some rep) ->
  exists c,
    collect_files files = inr c
    /\ maybe_add_general_metrics cfg info
         (flatten_samples (ignore_samples ignored (by_phenotype c)))
       = inr (report_header_info rep, general_stats_data rep)
    /\ make_mapping_stats_headers cfg
         (snd (gather_metric_names (ignore_samples ignored (by_rg c))
                 (merge_read_groups (ignore_samples ignored (by_rg c)))))
       = inr (general_stats_headers rep, beeswarm_keys rep)
    /\ dup_chart_input rep
       = fst (gather_metric_names (ignore_samples ignored (by_rg c))
                (merge_read_groups (ignore_samples ignored (by_rg c))))
    /\ pair_chart_input rep = dup_chart_input rep
    /\ beeswarm_data rep = dup_chart_input rep
    /\ exists dup_log pair_log,
         map_dup_read_chart (dup_chart_input rep) = inr (dup_chart_data rep, dup_log)
         /\ map_pair_read_chart (dup_chart_input rep) = inr (pair_chart_data rep, pair_log).
Proof.
  unfold parse_mapping_metrics. intros H.
  apply bind_inr in H. destruct H as (c & Hc & H). exists c. split; [exact Hc |].
  match type of H with
  | match ?a with
    | [] => match ?b with [] => _ | _ :: _ => ?body end
    | _ :: _ => _
    end = _ =>
      assert (G : body = inr (Some rep))
        by (revert H; generalize body; intros body0 H;
            destruct a; destruct b; try exact H; discriminate H)
  end.
  clear H.
  apply bind_inr in G. destruct G as ([info' d'] & Hpro & G).
  destruct (gather_metric_names _ _) as [data_by_rg names] eqn:Egather.
  apply bind_inr in G. destruct G as ([headers beeswarm] & Hh & G).
  apply bind_inr in G. destruct G as ([dup_chart dup_log] & Hdup & G).
  apply bind_inr in G. destruct G as ([pair_chart pair_log] & Hpair & G).
  injection G as <-. simpl. eauto 12.
Qed.

Lemma collect_files_from (files : list log_file) (c : collected) :
  collect_files files = inr c ->
  (forall sn rgs, In (sn, rgs) (by_rg c) ->
     exists f phs, In f files /\ parse_mapping_metrics_file f = inr (sn, rgs, phs))
  /\ (forall sn phs, In (sn, phs) (by_phenotype c) ->
        exists f rgs, In f files /\ parse_mapping_metrics_file f = inr (sn, rgs, phs)).
Proof.
  unfold collect_files. intros H.
  apply (foldM_invariant add_file
           (fun c =>
              (forall sn rgs, In (sn, rgs) (by_rg c) ->
                 exists f phs, In f files /\ parse_mapping_metrics_file f = inr (sn, rgs, phs))
              /\ (forall sn phs, In (sn, phs) (by_phenotype c) ->
                    exists f rgs, In f files
                                  /\ parse_mapping_metrics_file f = inr (sn, rgs, phs)))
           files) in H.
  - exact H.
  - intros f s s' Hf [Hrg Hph] Hadd. unfold add_file in Hadd. bind_inv Hadd.
    injection Hadd as <-. destruct x as [[s_name rgs] phs]. simpl.
    split; intros sn records Hin; apply In_dict_set in Hin;
      destruct Hin as [[-> ->] | Hin]; eauto.
  - split; intros ? ? [].
Qed.

(** X24.  Every sample of the general statistics of a run is a phenotype
    of a parsed file whose name is not ignored, reported under that name or,
    for [normal], under the name followed by [ normal]. *)
Theorem reported_samples_come_from_kept_files (files : list log_file)
  (info : option (list header_fact)) (rep : report) :
  parse_mapping_metrics cfg ignored files info = inr (Some rep) ->
  forall k, In k (keys (general_stats_data rep)) ->
    exists f sn rgs phs phenotype,
      In f files /\ parse_mapping_metrics_file f = inr (sn, rgs, phs)
      /\ ignored sn = false /\ In phenotype (keys phs)
      /\ k = (if String.eqb phenotype "normal" then sn ++ " normal" else sn).
Proof.
  intros H k Hk. apply parse_mapping_metrics_inr in H.
  destruct H as (c & Hc & Hpro & _).
  rewrite (maybe_add_general_metrics_keys cfg _ _ _ _ Hpro) in Hk.
  apply keys_flatten_samples in Hk. destruct Hk as (sn & phs & ph & Hin & Hph & ->).
  unfold ignore_samples in Hin. apply filter_In in Hin. destruct Hin as [Hin Hkeep].
  apply negb_true_iff in Hkeep.
  destruct (proj2 (collect_files_from files c Hc) sn phs Hin) as (f & rgs & Hf & Hparse).
  exists f, sn, rgs, phs, ph. auto.
Qed.

Lemma make_mapping_stats_headers_eq (names : list string) :
  make_mapping_stats_headers cfg names
  = foldM (add_headers cfg names) MAPPING_METRICS ([], []).
Proof. reflexivity. Qed.

Lemma header_keys_eq (names : list string) :
  header_keys names = flat_map (entry_keys names) MAPPING_METRICS.
Proof. reflexivity. Qed.

Lemma headers_keys (names : list string) (headers beeswarm : dict column) :
  make_mapping_stats_headers cfg names = inr (headers, beeswarm) ->
  keys headers = header_keys names.
Proof.
  intros H. rewrite make_mapping_stats_headers_eq in H.
  destruct (headers_from_empty cfg names MAPPING_METRICS (count_column_total cfg)
              possible_keys_nodup) as (h & b & Hrun & Hk & _).
  rewrite Hrun in H. injection H as <- _. rewrite header_keys_eq. exact Hk.
Qed.

Lemma pct_key_is_no_id :
  forallb (fun m => forallb (fun m' => negb (String.eqb (pct_key m) (id_in_data m')))
                      MAPPING_METRICS) MAPPING_METRICS = true.
Proof. vm_compute. reflexivity. Qed.

Lemma In_header_keys_pct (names : list string) (m : metric_descriptor) :
  In m MAPPING_METRICS ->
  (In (pct_key m) (header_keys names) <-> in_names (pct_key m) names = true).
Proof.
  intros Hm. unfold header_keys. rewrite in_flat_map. split.
  - intros (m' & Hm' & Hin). unfold entry_keys in Hin. rewrite in_app_iff in Hin.
    destruct Hin as [Hin | [Hin | []]].
    + destruct (in_names (pct_key m') names) eqn:E; [| contradiction].
      destruct Hin as [<- | []]. exact E.
    + exfalso. pose proof pct_key_is_no_id as F. rewrite forallb_forall in F.
      specialize (F m Hm). rewrite forallb_forall in F. specialize (F m' Hm').
      apply negb_true_iff, String.eqb_neq in F. congruence.
  - intros E. exists m. split; [exact Hm |]. unfold entry_keys. rewrite E. left. reflexivity.
Qed.

(** X25.  In the report of a run, the column metadata has the percentage
    column of a catalogue entry exactly when a read-group record of a
    document that is not ignored holds that percentage: the names are
    gathered from the read groups, the summary records are not
    consulted. *)
Theorem percentage_columns_follow_read_groups (files : list log_file)
  (info : option (list header_fact)) (rep : report) :
  parse_mapping_metrics cfg ignored files info = inr (Some rep) ->
  exists c,
    collect_files files = inr c
    /\ forall m, In m MAPPING_METRICS ->
         (In (pct_key m) (keys (general_stats_headers rep))
          <-> exists sn rgs rg data,
                In (sn, rgs) (by_rg c) /\ ignored sn = false
                /\ In (rg, data) rgs /\ In (pct_key m) (keys data)).
Proof.
  intros H. apply parse_mapping_metrics_inr in H.
  destruct H as (c & Hc & _ & Hh & _). exists c. split; [exact Hc |]. intros m Hm.
  apply headers_keys in Hh. rewrite Hh.
  rewrite (In_header_keys_pct _ m Hm), in_names_iff.
  unfold gather_metric_names. rewrite In_gather_metric_names. simpl. split.
  - intros [[] | (sn & rgs & rg & data & Hin & Hrg & Hk)].
    unfold ignore_samples in Hin. apply filter_In in Hin. destruct Hin as [Hin Hkeep].
    apply negb_true_iff in Hkeep. exists sn, rgs, rg, data. auto.
  - intros (sn & rgs & rg & data & Hin & Hkeep & Hrg & Hk). right.
    exists sn, rgs, rg, data. split; [| auto].
    unfold ignore_samples. apply filter_In. split; [exact Hin |]. simpl. now rewrite Hkeep.
Qed.

Lemma gather_metric_names_fst (d : dict (dict metric_record)) :
  forall state : dict metric_record * list string,
    fst (fold_left (fun state entry => (snd entry, add_names (snd entry) (snd state)))
           d state)
    = match last_value d with Some rgs => rgs | None => fst state end.
Proof.
  induction d as [| [sn rgs] d IH]; simpl; intros state; [reflexivity |].
  rewrite IH. destruct (last_value d); reflexivity.
Qed.

Lemma last_value_In {V : Type} (d : dict V) (v : V) :
  last_value d = Some v -> exists k, In (k, v) d.
Proof.
  induction d as [| [k0 v0] d IH]; simpl; [discriminate |].
  destruct (last_value d) as [v' |].
  - intros H. injection H as <-. destruct (IH eq_refl) as (k & Hk). eauto.
  - intros H. injection H as <-. eauto.
Qed.

Lemma last_document_wf (files : list log_file) (c : collected) :
  collect_files files = inr c ->
  dict_wf (last_document (ignore_samples ignored (by_rg c))).
Proof.
  intros Hc. unfold last_document.
  destruct (last_value (ignore_samples ignored (by_rg c))) as [rgs |] eqn:E;
    [| constructor].
  apply last_value_In in E. destruct E as (sn & Hin).
  unfold ignore_samples in Hin. apply filter_In in Hin. destruct Hin as [Hin _].
  destruct (proj1 (collect_files_from files c Hc) sn rgs Hin) as (f & phs & _ & Hparse).
  exact (proj1 (parse_mapping_metrics_file_wf f sn rgs phs Hparse)).
Qed.

(** X26.  In the report of a run, the two chart projections and the
    beeswarm plot are given the read groups of the last document that is
    not ignored, and each chart holds those of them that reconcile, in
    order. *)
Theorem charts_show_last_kept_document (files : list log_file)
  (info : option (list header_fact)) (rep : report) :
  parse_mapping_metrics cfg ignored files info = inr (Some rep) ->
  exists c shown,
    collect_files files = inr c
    /\ shown = last_document (ignore_samples ignored (by_rg c))
    /\ dup_chart_input rep = shown /\ pair_chart_input rep = shown
    /\ beeswarm_data rep = shown
    /\ dup_chart_data rep = charted dup_sum shown
    /\ pair_chart_data rep = charted pair_sum shown.
Proof.
  intros H. apply parse_mapping_metrics_inr in H.
  destruct H as (c & Hc & _ & _ & Hin & Hpair & Hbee & dup_log & pair_log & Rdup & Rpair).
  exists c, (last_document (ignore_samples ignored (by_rg c))).
  assert (E : dup_chart_input rep = last_document (ignore_samples ignored (by_rg c))).
  { rewrite Hin. unfold gather_metric_names. rewrite gather_metric_names_fst.
    unfold last_document. simpl.
    destruct (last_value (ignore_samples ignored (by_rg c))) eqn:L; [reflexivity |].
    destruct (ignore_samples ignored (by_rg c)) as [| [k v] rest]; [reflexivity |].
    simpl in L. destruct (last_value rest); discriminate L. }
  pose proof (last_document_wf files c Hc) as Hwf.
  rewrite Hpair, Hbee, E. rewrite E in Rdup, Rpair.
  apply (chart_exact dup_sum dup_warning _ _ _ Hwf) in Rdup.
  apply (chart_exact pair_sum pair_warning _ _ _ Hwf) in Rpair.
  destruct Rdup as (_ & Rdup & _), Rpair as (_ & Rpair & _). auto 10.
Qed.

Lemma collect_files_fails (before after : list log_file) (f : log_file) (e : exn) :
  Forall (fun f => is_ok (parse_mapping_metrics_file f) = true) before ->
  parse_mapping_metrics_file f = inl e ->
  forall acc, foldM add_file (before ++ f :: after)%list acc = inl e.
Proof.
  intros Hbefore Hf. induction Hbefore as [| f0 before H0 _ IH]; intros acc; simpl.
  - unfold add_file. rewrite Hf. reflexivity.
  - unfold add_file at 1. destruct (parse_mapping_metrics_file f0); [discriminate H0 |].
    simpl. apply IH.
Qed.

(** X27.  A file that the record parser cannot parse makes the whole run
    raise with the exception of that file, once the files before it have
    been parsed; the names to ignore are not looked at before, so this holds
    of a file whose document would have been ignored. *)
Theorem unparsable_file_aborts_run (before after : list log_file) (f : log_file) (e : exn)
  (info : option (list header_fact)) :
  Forall (fun f => is_ok (parse_mapping_metrics_file f) = true) before ->
  parse_mapping_metrics_file f = inl e ->
  parse_mapping_metrics cfg ignored (before ++ f :: after)%list info = inl e.
Proof.
  intros Hbefore Hf. unfold parse_mapping_metrics, collect_files.
  rewrite (collect_files_fails before after f e Hbefore Hf). reflexivity.
Qed.

End ReportFacts.

Lemma nothing_reported_iff_all_ignored_witness :
  parse_mapping_metrics Examples.default_config Examples.everything_ignored
    [Examples.rg_document "A" "RG1" "90"] None
  = inr None.
Proof.
  destruct (checked_result (collect_files [Examples.rg_document "A" "RG1" "90"])
              (fun c => forallb Examples.everything_ignored (keys (by_rg c))))
    as (c & Hc & Hall); [vm_compute; reflexivity |].
  apply (proj2 (nothing_reported_iff_all_ignored Examples.default_config Examples.everything_ignored
                  [Examples.rg_document "A" "RG1" "90"] c None Hc)).
  exact Hall.
Defined.

Lemma reported_samples_come_from_kept_files_witness :
  exists rep,
    parse_mapping_metrics Examples.default_config Examples.nothing_ignored
      [Examples.doc_S1] None = inr (Some rep)
    /\ In "S1" (keys (general_stats_data rep))
    /\ exists f sn rgs phs phenotype,
         In f [Examples.doc_S1] /\ parse_mapping_metrics_file f = inr (sn, rgs, phs)
         /\ Examples.nothing_ignored sn = false /\ In phenotype (keys phs)
         /\ "S1" = (if String.eqb phenotype "normal" then sn ++ " normal" else sn).
Proof.
  destruct (checked_result
              (parse_mapping_metrics Examples.default_config Examples.nothing_ignored
                 [Examples.doc_S1] None)
              (fun out => match out with
                          | Some rep => in_names "S1" (keys (general_stats_data rep))
                          | None => false
                          end))
    as ([rep |] & Hr & Hrep); [vm_compute; reflexivity | | discriminate Hrep].
  exists rep. split; [exact Hr |].
  apply in_names_iff in Hrep. split; [exact Hrep |].
  exact (reported_samples_come_from_kept_files Examples.default_config
           Examples.nothing_ignored [Examples.doc_S1] None rep Hr "S1" Hrep).
Defined.

Lemma percentage_columns_follow_read_groups_witness :
  exists rep c,
    parse_mapping_metrics Examples.default_config Examples.nothing_ignored
      [Examples.doc_S1] None = inr (Some rep)
    /\ collect_files [Examples.doc_S1] = inr c
    /\ forall m, In m MAPPING_METRICS ->
         (In (pct_key m) (keys (general_stats_headers rep))
          <-> exists sn rgs rg data,
                In (sn, rgs) (by_rg c) /\ Examples.nothing_ignored sn = false
                /\ In (rg, data) rgs /\ In (pct_key m) (keys data)).
Proof.
  assert (Hok : match parse_mapping_metrics Examples.default_config Examples.nothing_ignored
                        [Examples.doc_S1] None with
                | inr (Some _) => true
                | _ => false
                end = true) by (vm_compute; reflexivity).
  destruct (parse_mapping_metrics Examples.default_config Examples.nothing_ignored
              [Examples.doc_S1] None) as [e | [rep |]] eqn:Hr; try discriminate Hok.
  destruct (percentage_columns_follow_read_groups Examples.default_config
              Examples.nothing_ignored [Examples.doc_S1] None rep Hr) as (c & Hc & H).
  exists rep, c. auto.
Defined.

Lemma charts_show_last_kept_document_witness :
  exists rep c,
    parse_mapping_metrics Examples.default_config Examples.nothing_ignored
      [Examples.doc_S1; Examples.doc_S3] None = inr (Some rep)
    /\ collect_files [Examples.doc_S1; Examples.doc_S3] = inr c
    /\ dup_chart_input rep
       = last_document (ignore_samples Examples.nothing_ignored (by_rg c))
    /\ dup_chart_data rep = charted dup_sum (dup_chart_input rep).
Proof.
  assert (Hok : match parse_mapping_metrics Examples.default_config Examples.nothing_ignored
                        [Examples.doc_S1; Examples.doc_S3] None with
                | inr (Some _) => true
                | _ => false
                end = true) by (vm_compute; reflexivity).
  destruct (parse_mapping_metrics Examples.default_config Examples.nothing_ignored
              [Examples.doc_S1; Examples.doc_S3] None) as [e | [rep |]] eqn:Hr;
    try discriminate Hok.
  destruct (charts_show_last_kept_document Examples.default_config
              Examples.nothing_ignored [Examples.doc_S1; Examples.doc_S3] None rep Hr)
    as (c & shown & Hc & Hshown & E1 & _ & _ & E2 & _).
  exists rep, c. rewrite E1, E2, Hshown. auto.
Defined.

Lemma unparsable_file_aborts_run_witness :
  parse_mapping_metrics Examples.default_config Examples.everything_ignored
    ([Examples.rg_document "A" "RG1" "90"] ++ Examples.unnamed_file :: []) None
  = inl AttributeError.
Proof.
  apply (unparsable_file_aborts_run Examples.default_config Examples.everything_ignored
           [Examples.rg_document "A" "RG1" "90"] [] Examples.unnamed_file AttributeError None).
  - constructor; [vm_compute; reflexivity | constructor].
  - reflexivity.
Defined.

(** ** Concrete readings of the Python built-ins and of the module *)

Example split_keeps_empty_fields : PyStr.split "," "a,,b," = ["a"; ""; "b"; ""].
Proof. reflexivity. Qed.

Example splitlines_drops_final_boundary :
  PyStr.splitlines ("a" ++ Examples.newline ++ Examples.newline ++ "b" ++ Examples.newline)
  = ["a"; ""; "b"].
Proof. reflexivity. Qed.

Example int_of_text :
  py_int " -12_3 " = Some (-123) /\ py_int "+007" = Some 7
  /\ py_int "1__2" = None /\ py_int "1.5" = None /\ py_int "" = None /\ py_int "NA" = None.
Proof. repeat split. Qed.

Example float_of_text :
  py_float "96.86" = Some (F_of_dec false 9686 (-2))
  /\ py_float "-1_0.5e3" = Some (F_of_dec true 105 2)
  /\ py_float ".5" = Some (F_of_dec false 5 (-1))
  /\ py_float "5." = Some (F_of_dec false 5 0)
  /\ py_float "-Inf" = Some (F_inf true) /\ py_float "nan" = Some (F_nan false)
  /\ py_float "." = None /\ py_float "1e" = None /\ py_float "NA" = None.
Proof. repeat split. Qed.

Example format_of_values :
  py_format "{} % of genome" (VInt 12) = inr "12 % of genome"
  /\ py_format "Number of reads, {}" (VStr "millions") = inr "Number of reads, millions"
  /\ py_format "{:,.2f} [mil. reads/second]" (VStr "fast") = inl ValueError
  /\ py_format "{}{}" (VInt 1) = inl IndexError.
Proof. repeat split. Qed.

Example name_of_document :
  re_search_group "T_SRR7890936_50pc.mapping_metrics.csv" = Some "T_SRR7890936_50pc"
  /\ re_search_group "mapping_metrics.csv" = None.
Proof. split; reflexivity. Qed.

(** One document [S1] with a tumor summary and the read group [RG1]: the
    sample [S1] is reported, the duplication view holds [RG1], and the
    pairing view, whose four components add up to 99 of 100 reads, leaves
    it out with a warning. *)
Example run_of_one_document :
  exists rep,
    parse_mapping_metrics Examples.default_config Examples.nothing_ignored
      [Examples.doc_S1] None
    = inr (Some rep)
    /\ keys (general_stats_data rep) = ["S1"]
    /\ keys (dup_chart_data rep) = ["RG1"]
    /\ keys (pair_chart_data rep) = []
    /\ report_log rep
       = [ (INFO, "Found mapping metrics for 1 Dragen output prefixes");
           (WARNING, pair_warning "RG1") ].
Proof.
  pose (same := fun xs ys : list string =>
                  if list_eq_dec string_dec xs ys then true else false).
  assert (Hsame : forall xs ys, same xs ys = true -> xs = ys).
  { intros xs ys. unfold same. destruct (list_eq_dec string_dec xs ys); [auto | discriminate]. }
  destruct (checked_result
              (parse_mapping_metrics Examples.default_config Examples.nothing_ignored
                 [Examples.doc_S1] None)
              (fun out => match out with
                          | Some rep =>
                              (same (keys (general_stats_data rep)) ["S1"]
                               && same (keys (dup_chart_data rep)) ["RG1"]
                               && same (keys (pair_chart_data rep)) []
                               && same (map snd (report_log rep))
                                    [ "Found mapping metrics for 1 Dragen output prefixes";
                                      pair_warning "RG1" ]
                               && match map fst (report_log rep) with
                                  | [INFO; WARNING] => true
                                  | _ => false
                                  end)%bool
                          | None => false
                          end))
    as ([rep |] & Hr & Hrep); [vm_compute; reflexivity | | discriminate Hrep].
  exists rep. split; [exact Hr |]. clear Hr.
  repeat (apply andb_prop in Hrep; let H := fresh "H" in destruct Hrep as [Hrep H]).
  apply Hsame in Hrep, H2, H1, H0.
  split; [exact Hrep | split; [exact H2 | split; [exact H1 |]]].
  destruct (report_log rep) as [| [l1 m1] [| [l2 m2] [| ? ?]]]; try discriminate H0.
  simpl in H0, H. injection H0 as -> ->.
  destruct l1, l2; try discriminate H. reflexivity.
Qed.

(** The ploidy shared by three samples is promoted under its title and
    removed from the three; with one differing value it stays and no fact
    is emitted. *)
Example ploidy_is_promoted_when_shared :
  maybe_add_general_metrics Examples.default_config None Examples.three_samples
  = inr (Some [("Prov. sex chrom ploidy:", "2")], Examples.three_samples_promoted)
  /\ maybe_add_general_metrics Examples.default_config None Examples.three_samples_differing
     = inr (None, Examples.three_samples_differing).
Proof. split; reflexivity. Qed.
